(** * FFmpeg GUI: the media job engine of [app.py]

    A shallow embedding of the command planner ([build_command]), the
    progress tracker ([App._set_progress_from_line]), the batch worker
    ([App._run]) and the preview cache ([App._cache_preview_image]),
    with the properties of the engine proved over it; then of the
    capability listings, the drop parser, [_format_seconds] and the
    callbacks of the window (the dialogs, the batch list, the sliders of
    [App._load_duration] and [App._generate_preview]).

    Python values are modelled as follows.
    - [str]: [string]; a character is a code point below 256.
    - [float]: IEEE 754 binary64, as [spec_float] with the operations of
      [SpecFloat] at precision 53 and maximal exponent 1024.
    - [set] of [str] (encoders, decoders): a [list string] read through
      membership only.
    - [dict] with a fixed set of keys ([values]): a record.
    - an exception [ValueError(msg)]: the [ValueError] case of [result].
    - the file system and the external [ffprobe] / [ffmpeg] processes: a
      record [Host] of the answers they give; the platform, the dialog
      tools and the sizes and time stamps of files: a record [Desktop].
    - Tk variables and the contents of widgets: fields of the records
      [Files], [TrimUi] and [PreviewUi]; a callback that raises leaves the
      state it had reached ([outcome]). *)

From Stdlib Require Import ZArith List String Ascii Bool Lia.
From Stdlib Require Import SpecFloat DecimalString Permutation Sorted.
Import ListNotations.

Local Open Scope string_scope.
Local Open Scope list_scope.

(** ** Python [str] methods *)

Module PyStr.

(** [c.isspace()] for a code point below 256. *)
Definition is_space (c : ascii) : bool :=
  let n := N_of_ascii c in
  (((9 <=? n) && (n <=? 13)) || ((28 <=? n) && (n <=? 32))
   || (n =? 133) || (n =? 160))%N.

Fixpoint lstrip (s : string) : string :=
  match s with
  | String c s' => if is_space c then lstrip s' else s
  | EmptyString => EmptyString
  end.

Fixpoint rstrip (s : string) : string :=
  match s with
  | EmptyString => EmptyString
  | String c s' =>
      match rstrip s' with
      | EmptyString => if is_space c then EmptyString else String c EmptyString
      | r => String c r
      end
  end.

(** [s.strip()] *)
Definition strip (s : string) : string := rstrip (lstrip s).

(** [not s]: the empty string is the only falsy string. *)
Definition is_empty (s : string) : bool :=
  match s with EmptyString => true | _ => false end.

(** [s.startswith(p)] *)
Definition startswith (s p : string) : bool := String.prefix p s.

(** [s.endswith(suf)] *)
Definition endswith (s suf : string) : bool :=
  let n := String.length s in
  let m := String.length suf in
  if (m <=? n)%nat then String.eqb (String.substring (n - m) m s) suf else false.

(** [sub in s] *)
Fixpoint contains (sub s : string) : bool :=
  String.prefix sub s
  || match s with
     | EmptyString => false
     | String _ s' => contains sub s'
     end.

(** [s.split(sep)] for a non-empty [sep]: the pieces between the
    non-overlapping occurrences of [sep], scanned from the left.  [skip]
    counts the characters of an occurrence still to be passed over and
    [cur] is the piece being read. *)
Fixpoint split_go (sep : string) (skip : nat) (cur s : string) : list string :=
  match s with
  | EmptyString => [cur]
  | String c s' =>
      match skip with
      | S k => split_go sep k cur s'
      | O =>
          if String.prefix sep s
          then cur :: split_go sep (String.length sep - 1) EmptyString s'
          else split_go sep 0 (cur ++ String c EmptyString) s'
      end
  end.

Definition split (sep s : string) : list string := split_go sep 0 EmptyString s.

(** [sep.join(l)] *)
Definition join (sep : string) (l : list string) : string := String.concat sep l.

(** [x in l] for a list or a set of strings. *)
Definition mem (x : string) (l : list string) : bool :=
  existsb (String.eqb x) l.

(** [s.rfind(c)] for a single character, as the index from the left;
    [None] stands for Python's [-1]. *)
Fixpoint rfind (c : ascii) (s : string) : option nat :=
  match s with
  | EmptyString => None
  | String d s' =>
      match rfind c s' with
      | Some i => Some (S i)
      | None => if Ascii.eqb c d then Some 0%nat else None
      end
  end.

(** [s[i:]] and [s[:i]] for [0 <= i]. *)
Definition drop (i : nat) (s : string) : string :=
  String.substring i (String.length s - i) s.
Definition take (i : nat) (s : string) : string := String.substring 0 i s.

End PyStr.

(** ** Python [float] *)

Module PyFloat.

Definition float : Type := spec_float.

Definition prec : Z := 53.
Definition emax : Z := 1024.

Definition add : float -> float -> float := SFadd prec emax.
Definition sub : float -> float -> float := SFsub prec emax.
Definition mul : float -> float -> float := SFmul prec emax.
Definition ltb : float -> float -> bool := SFltb.
Definition leb : float -> float -> bool := SFleb.
Definition eqb : float -> float -> bool := SFeqb.
(** [x > y] and [x >= y] are [y < x] and [y <= x]; both are false on NaN. *)
Definition gtb (x y : float) : bool := ltb y x.
Definition geb (x y : float) : bool := leb y x.

(** The float nearest to an integer ([float(n)], and integer literals
    where they meet a float in arithmetic). *)
Definition of_Z (n : Z) : float := binary_normalize prec emax n 0 false.

(** [bool(x)]: every float but the two zeros is truthy, NaN included. *)
Definition truthy (x : float) : bool := negb (eqb x (of_Z 0)).

(** [x / y]: [ZeroDivisionError] (here [None]) when [y] is a zero. *)
Definition div (x y : float) : option float :=
  if eqb y (of_Z 0) then None else Some (SFdiv prec emax x y).

(** The literal [0.01]: the float nearest to 1/100. *)
Definition lit_0_01 : float := SFdiv prec emax (of_Z 1) (of_Z 100).

(** *** [float(s)] for a string

    The grammar of the language reference:
    [floatvalue ::= [sign] (floatnumber | "inf" | "infinity" | "nan")],
    [floatnumber ::= number [("e"|"E") [sign] digitpart]],
    [number ::= [digitpart] "." digitpart | digitpart ["."]],
    [digitpart ::= digit (["_"] digit)*], letters in either case, white
    space stripped at both ends; digits are the ASCII digits.  [None]
    stands for the [ValueError] raised on any other string. *)

Definition is_digit (c : ascii) : bool :=
  let n := N_of_ascii c in ((48 <=? n) && (n <=? 57))%N.

Definition digit_val (c : ascii) : Z := Z.of_N (N_of_ascii c) - 48.

(** Reads a [digitpart] after [n] digits with value [acc] were read; an
    underscore is taken only between two digits. *)
Fixpoint digitpart (acc : Z) (n : nat) (s : string) : Z * nat * string :=
  match s with
  | String c s' =>
      if is_digit c then digitpart (10 * acc + digit_val c) (S n) s'
      else
        match s' with
        | String d s'' =>
            if Ascii.eqb c "_" && is_digit d && negb (Nat.eqb n 0)
            then digitpart (10 * acc + digit_val d) (S n) s''
            else (acc, n, s)
        | EmptyString => (acc, n, s)
        end
  | EmptyString => (acc, n, s)
  end.

Definition lower (c : ascii) : ascii :=
  let n := N_of_ascii c in
  if ((65 <=? n) && (n <=? 90))%N then ascii_of_N (n + 32) else c.

Fixpoint lowercase (s : string) : string :=
  match s with
  | EmptyString => EmptyString
  | String c s' => String (lower c) (lowercase s')
  end.

(** An optional sign: [true] for ["-"]. *)
Definition read_sign (s : string) : bool * string :=
  match s with
  | String c s' =>
      if Ascii.eqb c "-" then (true, s')
      else if Ascii.eqb c "+" then (false, s')
      else (false, s)
  | EmptyString => (false, s)
  end.

(** The float nearest to [(-1)^sg * m * 10^e10], ties to even. *)
Definition of_decimal (sg : bool) (m : Z) (e10 : Z) : float :=
  match m with
  | Zpos p =>
      if (0 <=? e10)%Z
      then binary_normalize prec emax
             (if sg then - (m * 10 ^ e10) else m * 10 ^ e10)%Z 0 false
      else SFdiv prec emax (S754_finite sg p 0)
             (S754_finite false (Z.to_pos (10 ^ (- e10))) 0)
  | _ => S754_zero sg
  end.

(** The optional exponent part and the end of the string. *)
Definition read_exponent (s : string) : option Z :=
  match s with
  | EmptyString => Some 0%Z
  | String c s' =>
      if Ascii.eqb (lower c) "e" then
        let '(sg, s1) := read_sign s' in
        match digitpart 0 0 s1 with
        | (_, O, _) => None
        | (v, _, EmptyString) => Some (if sg then (- v)%Z else v)
        | _ => None
        end
      else None
  end.

Definition of_string (s : string) : option float :=
  let '(sg, s1) := read_sign (PyStr.strip s) in
  let w := lowercase s1 in
  if String.eqb w "inf" || String.eqb w "infinity" then Some (S754_infinity sg)
  else if String.eqb w "nan" then Some S754_nan
  else
    let '(ip, ni, s2) := digitpart 0 0 s1 in
    let '(m, nf, s3) :=
      match s2 with
      | String c s2' =>
          if Ascii.eqb c "." then
            let '(m, n, s3) := digitpart ip 0 s2' in (m, n, s3)
          else (ip, O, s2)
      | EmptyString => (ip, O, s2)
      end in
    if Nat.eqb (ni + nf) 0 then None
    else
      match read_exponent s3 with
      | Some e => Some (of_decimal sg m (e - Z.of_nat nf))
      | None => None
      end.

(** *** [f"{x:.3f}"]

    The decimal expansion of the exact value of [x] rounded to three
    places, ties to even; the sign of a negative zero is kept. *)

Definition round_half_even_div (a b : Z) : Z :=
  let q := (a / b)%Z in
  match (2 * (a mod b) ?= b)%Z with
  | Lt => q
  | Gt => (q + 1)%Z
  | Eq => if Z.even q then q else (q + 1)%Z
  end.

(** [m * 2^e * 1000] rounded to an integer. *)
Definition thousandths (m : positive) (e : Z) : Z :=
  if (0 <=? e)%Z then (Zpos m * 1000 * 2 ^ e)%Z
  else round_half_even_div (Zpos m * 1000) (2 ^ (- e)).

Definition decimal (n : Z) : string :=
  NilZero.string_of_uint (N.to_uint (Z.to_N n)).

Definition digit_char (d : Z) : ascii := ascii_of_N (Z.to_N (48 + d)).

Definition three_digits (n : Z) : string :=
  String (digit_char (n / 100))
    (String (digit_char ((n / 10) mod 10))
       (String (digit_char (n mod 10)) EmptyString)).

Definition sign_str (sg : bool) : string := if sg then "-" else "".

Definition format_3f (x : float) : string :=
  match x with
  | S754_nan => "nan"
  | S754_infinity sg => sign_str sg ++ "inf"
  | S754_zero sg => sign_str sg ++ "0.000"
  | S754_finite sg m e =>
      let n := thousandths m e in
      sign_str sg ++ decimal (n / 1000) ++ "." ++ three_digits (n mod 1000)
  end.

End PyFloat.

(** ** [posixpath] and [shlex] *)

Module PyPath.
Import PyStr.

(** [os.path.basename(p)] *)
Definition basename (p : string) : string :=
  match rfind "/" p with
  | Some i => drop (S i) p
  | None => p
  end.

Fixpoint all_dots (s : string) : bool :=
  match s with
  | EmptyString => true
  | String c s' => Ascii.eqb c "." && all_dots s'
  end.

(** [os.path.splitext(p)[0]]: [p] up to its last dot, when that dot
    follows the last separator and a character other than a dot stands
    between them. *)
Definition splitext_root (p : string) : string :=
  match rfind "." p with
  | Some di =>
      let fi := match rfind "/" p with Some si => S si | None => 0%nat end in
      if (fi <=? di)%nat && negb (all_dots (String.substring fi (di - fi) p))
      then take di p
      else p
  | None => p
  end.

(** [os.path.join(a, b)] *)
Definition join (a b : string) : string :=
  if startswith b "/" then b
  else if is_empty a || endswith a "/" then a ++ b
  else a ++ "/" ++ b.

Definition is_safe (c : ascii) : bool :=
  let n := N_of_ascii c in
  (((48 <=? n) && (n <=? 57)) || ((65 <=? n) && (n <=? 90))
   || ((97 <=? n) && (n <=? 122)))%N
  || existsb (Ascii.eqb c) ["_"; "@"; "%"; "+"; "="; ":"; ","; "."; "/"; "-"]%char.

Fixpoint all_safe (s : string) : bool :=
  match s with
  | EmptyString => true
  | String c s' => is_safe c && all_safe s'
  end.

Definition dquote : ascii := "034"%char.

(** [s.replace("'", "'\"'\"'")] with the double quote written by its code. *)
Fixpoint escape_quotes (s : string) : string :=
  match s with
  | EmptyString => EmptyString
  | String c s' =>
      if Ascii.eqb c "'"
      then String "'" (String dquote (String "'" (String dquote (String "'" (escape_quotes s')))))
      else String c (escape_quotes s')
  end.

(** [shlex.quote(s)] *)
Definition quote (s : string) : string :=
  if is_empty s then "''"
  else if all_safe s then s
  else "'" ++ escape_quotes s ++ "'".

End PyPath.

(** ** The host: file system and external processes *)

(** What the operating system answers.  A probe that could not be
    launched (the [except Exception] branches) answers [None]; otherwise
    it answers the text the process wrote. *)
Record Host : Type := {
  isfile : string -> bool;                      (* os.path.isfile *)
  isdir : string -> bool;                       (* os.path.isdir *)
  ffprobe_duration : string -> option string;   (* ffprobe ... format=duration *)
  ffprobe_codec : string -> option string;      (* ffprobe ... stream=codec_name *)
  ffmpeg : list string -> list string * Z       (* output lines, return code *)
}.

(** A function that returns or raises [ValueError]. *)
Inductive result (A : Type) : Type :=
| Ok (a : A)
| ValueError (msg : string).
Arguments Ok {A} a.
Arguments ValueError {A} msg.

Definition bind {A B : Type} (r : result A) (k : A -> result B) : result B :=
  match r with
  | Ok a => k a
  | ValueError msg => ValueError msg
  end.

Notation "x <- r ;; k" := (bind r (fun x => k))
  (at level 61, r at next level, right associativity).

(** The dict [values] built by [App._run]. *)
Record Values : Type := {
  input_path : string;
  output_dir : string;
  output_name : string;
  format : string;
  fps : string;
  trim_enabled : bool;
  trim_start : option PyFloat.float;
  trim_end : option PyFloat.float;
  fps_enabled : bool;
  keep_names : bool
}.

(** [values["trim_start"] = s; values["trim_end"] = e] *)
Definition set_trim (values : Values) (s e : option PyFloat.float) : Values :=
  {| input_path := input_path values;
     output_dir := output_dir values;
     output_name := output_name values;
     format := format values;
     fps := fps values;
     trim_enabled := trim_enabled values;
     trim_start := s;
     trim_end := e;
     fps_enabled := fps_enabled values;
     keep_names := keep_names values |}.

Module Engine.
Import PyStr.

Definition _get_duration_seconds (h : Host) (path : string) : option PyFloat.float :=
  match ffprobe_duration h path with
  | None => None
  | Some stdout => PyFloat.of_string (strip stdout)
  end.

Definition _get_video_codec (h : Host) (path : string) : option string :=
  match ffprobe_codec h path with
  | None => None
  | Some stdout =>
      let codec := strip stdout in
      if is_empty codec then None else Some codec
  end.

(** [for cand in cands: if cand in encoders: return cand] *)
Definition first_available (cands encoders : list string) : option string :=
  find (fun cand => mem cand encoders) cands.

Definition _pick_video_encoder (out_fmt : string) (encoders : list string)
  : option string :=
  match (if mem out_fmt ["mp4"; "mov"; "mkv"]
         then first_available
                ["libx264"; "libopenh264"; "h264_v4l2m2m"; "h264_vaapi";
                 "h264_nvenc"; "mpeg4"] encoders
         else None) with
  | Some cand => Some cand
  | None =>
      match (if String.eqb out_fmt "webm"
             then first_available ["libvpx-vp9"; "libvpx"; "vp9"; "vp8"] encoders
             else None) with
      | Some cand => Some cand
      | None => if String.eqb out_fmt "gif" then Some "gif" else None
      end
  end.

Definition _pick_audio_encoder (out_fmt : string) (encoders : list string)
  : option string :=
  match (if mem out_fmt ["mp4"; "mov"; "mkv"]
         then first_available ["aac"; "libfdk_aac"] encoders
         else None) with
  | Some cand => Some cand
  | None =>
      if String.eqb out_fmt "webm"
      then first_available ["libopus"; "libvorbis"; "opus"; "vorbis"] encoders
      else None
  end.

(** [if x: cmd += [flag, x]] for an optional string. *)
Definition opt_flag (flag : string) (x : option string) : list string :=
  match x with
  | Some v => if is_empty v then [] else [flag; v]
  | None => []
  end.

Definition decode_error (codec : string) : string :=
  "Your FFmpeg build cannot decode '" ++ codec
  ++ "'. Install a full FFmpeg build or disable trim/FPS change.".

Definition build_command (h : Host) (values : Values) (in_path out_path : string)
    (encoders decoders : list string) : result (list string) :=
  let out_fmt := strip (format values) in
  let fps := strip (fps values) in
  let trim_enabled := trim_enabled values in
  let fps_enabled := fps_enabled values in
  if negb (isfile h in_path) then ValueError "Input file does not exist."
  else if is_empty out_fmt then ValueError "Output format is required."
  else
    let cmd := ["ffmpeg"; "-y"] in
    cmd <- (if trim_enabled then
              let start := trim_start values in
              let end_ := trim_end values in
              match start with
              | None => ValueError "Trim start time is required when Trim is enabled."
              | Some start =>
                  let cmd := cmd ++ ["-ss"; PyFloat.format_3f start] in
                  let cmd := cmd ++ ["-i"; in_path] in
                  match end_ with
                  | Some e =>
                      if PyFloat.gtb e start
                      then Ok (cmd ++ ["-to"; PyFloat.format_3f e])
                      else Ok cmd
                  | None => Ok cmd
                  end
              end
            else Ok (cmd ++ ["-i"; in_path])) ;;
    filters <- (if fps_enabled then
                  if is_empty fps
                  then ValueError "Target FPS is required when FPS change is enabled."
                  else
                    match PyFloat.of_string fps with
                    | None => ValueError "Target FPS must be a number."
                    | Some _ => Ok [("fps=" ++ fps)%string]
                    end
                else Ok []) ;;
    let codec := _get_video_codec h in_path in
    let needs_decode :=
      negb (Nat.eqb (List.length filters) 0) || trim_enabled
      || String.eqb out_fmt "gif" in
    match (match codec with
           | Some c =>
               if negb (is_empty c) && needs_decode && negb (mem c decoders)
               then Some c else None
           | None => None
           end) with
    | Some c => ValueError (decode_error c)
    | None =>
        let cmd :=
          if String.eqb out_fmt "gif" then
            let gif_fps := if fps_enabled then fps else "10" in
            let gif_filters :=
              [("fps=" ++ gif_fps)%string; "scale=640:-1:flags=lanczos"] in
            cmd ++ ["-vf"; join "," gif_filters; "-an"]
          else
            let cmd :=
              if Nat.eqb (List.length filters) 0 && negb trim_enabled
                 && mem out_fmt ["mp4"; "mov"; "mkv"]
              then cmd ++ ["-c"; "copy"]
              else
                let cmd :=
                  if negb (Nat.eqb (List.length filters) 0)
                  then cmd ++ ["-filter:v"; join "," filters]
                  else cmd in
                let v_encoder := _pick_video_encoder out_fmt encoders in
                let a_encoder := _pick_audio_encoder out_fmt encoders in
                let cmd := cmd ++ opt_flag "-c:v" v_encoder in
                cmd ++ opt_flag "-c:a" a_encoder in
            if mem out_fmt ["mp4"; "mov"] then cmd ++ ["-movflags"; "+faststart"]
            else cmd in
        Ok (cmd ++ [out_path])
    end.

End Engine.

(** ** The progress tracker *)

Module Tracker.
Import PyStr.

(** [self.total_duration] and [self.progress["value"]]. *)
Record Progress : Type := {
  total_duration : option PyFloat.float;
  progress_value : PyFloat.float
}.

(** [float(x)] of a string, [None] when it raises. *)
Definition float_ (x : string) : option PyFloat.float := PyFloat.of_string x.

(** [_parse_time_to_seconds(value)].  The outer [option] is [None] when
    the call raises (a part that [float] rejects); the inner one is the
    value returned, [None] for an empty string. *)
Definition _parse_time_to_seconds (value : string) : option (option PyFloat.float) :=
  let value := strip value in
  if is_empty value then Some None
  else
    let hms (h : option PyFloat.float) (m s : string) :=
      match h, float_ m, float_ s with
      | Some h, Some m, Some s =>
          Some (Some (PyFloat.add
                        (PyFloat.add (PyFloat.mul h (PyFloat.of_Z 3600))
                                     (PyFloat.mul m (PyFloat.of_Z 60)))
                        s))
      | _, _, _ => None
      end in
    match split ":" value with
    | [h; m; s] => hms (float_ h) m s
    | [m; s] => hms (Some (PyFloat.of_Z 0)) m s
    | _ => match float_ value with
           | Some v => Some (Some v)
           | None => None
           end
    end.

(** [line.split(marker)[1].split(stop)[0].strip()], [None] when an index
    is out of range. *)
Definition token_after (marker stop line : string) : option string :=
  match nth_error (split marker line) 1 with
  | Some rest =>
      match nth_error (split stop rest) 0 with
      | Some t => Some (strip t)
      | None => None
      end
  | None => None
  end.

(** [bool(self.total_duration)] *)
Definition known (d : option PyFloat.float) : bool :=
  match d with
  | Some x => PyFloat.truthy x
  | None => false
  end.

(** [max(0, min(100, x))] *)
Definition clamp_percent (x : PyFloat.float) : PyFloat.float :=
  let lo := if PyFloat.ltb x (PyFloat.of_Z 100) then x else PyFloat.of_Z 100 in
  if PyFloat.gtb lo (PyFloat.of_Z 0) then lo else PyFloat.of_Z 0.

Definition _set_progress_from_line (st : Progress) (line : string) : Progress :=
  let st :=
    if contains "Duration:" line then
      let total :=
        match token_after "Duration:" "," line with
        | Some dur =>
            match _parse_time_to_seconds dur with
            | Some r => r
            | None => None          (* except Exception *)
            end
        | None => None
        end in
      {| total_duration := total; progress_value := progress_value st |}
    else st in
  if contains "time=" line && known (total_duration st) then
    match token_after "time=" " " line, total_duration st with
    | Some t, Some total =>
        match _parse_time_to_seconds t with
        | Some (Some current) =>
            match PyFloat.div current total with
            | Some q =>
                let pct := clamp_percent (PyFloat.mul q (PyFloat.of_Z 100)) in
                {| total_duration := total_duration st; progress_value := pct |}
            | None => st
            end
        | Some None => st           (* current is None: return *)
        | None => st                (* except Exception: pass *)
        end
    | _, _ => st
    end
  else st.

(** [self._set_progress(value)] *)
Definition _set_progress (st : Progress) (value : PyFloat.float) : Progress :=
  {| total_duration := total_duration st; progress_value := value |}.

End Tracker.

(** ** The batch worker of [App._run] *)

(** The attributes of [App] that [_run] reads. *)
Record App : Type := {
  self_encoders : list string;
  self_decoders : list string;
  self_input_list : list string;
  self_input_path : string;
  self_output_dir : string;
  self_output_name : string;
  self_format_var : string;
  self_fps_var : string;
  self_trim_enabled : bool;
  self_trim_start_sec : PyFloat.float;
  self_trim_end_sec : PyFloat.float;
  self_fps_enabled : bool;
  self_keep_names : bool
}.

(** What the worker thread does, in order: the calls it hands to the
    interface thread through [self.after(0, ...)], and the subprocess it
    starts.  [Iteration] is a ghost event that marks the entry of the loop
    body for an input. *)
Inductive event : Type :=
| Iteration (in_path : string)
| UiMessage (kind title msg : string)
| SetProgress (value : PyFloat.float)
| AppendLog (line : string)
| Popen (cmd : list string).

Module Batch.
Import PyStr Engine.

Definition _build_output_path (h : Host) (app : App) (in_path : string)
    (values : Values) : result string :=
  let out_dir := strip (output_dir values) in
  let out_name := strip (output_name values) in
  let out_fmt := strip (format values) in
  if is_empty out_dir then ValueError "Choose an output folder."
  else if negb (isdir h out_dir) then ValueError "Output folder does not exist."
  else
    let out_name :=
      if (1 <? List.length (self_input_list app))%nat && keep_names values
      then PyPath.splitext_root (PyPath.basename in_path)
      else out_name in
    if is_empty out_name then ValueError "Output filename is required."
    else
      let out_name :=
        if negb (endswith out_name ("." ++ out_fmt)%string)
        then (out_name ++ "." ++ out_fmt)%string
        else out_name in
      Ok (PyPath.join out_dir out_name).

Definition nl : string := String "010"%char EmptyString.

(** [run_ffmpeg(cmd, on_line)]: the calls of [on_line] around the start of
    the process, and the return code. *)
Definition run_ffmpeg (h : Host) (cmd : list string)
    (on_line : option (string -> event)) : list event * Z :=
  let say (line : string) : list event :=
    match on_line with
    | Some f => [f line]
    | None => []
    end in
  let '(lines, returncode) := ffmpeg h cmd in
  (say (nl ++ "$ " ++ join " " (map PyPath.quote cmd) ++ nl)%string
     ++ [Popen cmd] ++ flat_map say lines,
   returncode).

(** Lines 900 to 911: the trim bounds read from the sliders are checked
    against the duration probed for this input and stored in [values]. *)
Definition sanitize_trim (h : Host) (app : App) (values : Values)
    (in_path : string) : result Values :=
  if trim_enabled values then
    let start := self_trim_start_sec app in
    let end_ := Some (self_trim_end_sec app) in
    let duration := _get_duration_seconds h in_path in
    if match duration with
       | Some d => PyFloat.truthy d && PyFloat.geb start d
       | None => false
       end
    then ValueError "Trim start must be within the video duration."
    else
      let end_ :=
        match duration, end_ with
        | Some d, Some e =>
            if PyFloat.truthy d && PyFloat.geb e (PyFloat.sub d PyFloat.lit_0_01)
            then None else end_
        | _, _ => end_
        end in
      let end_ :=
        match end_ with
        | Some e =>
            if PyFloat.leb e (PyFloat.add start PyFloat.lit_0_01)
            then None else end_
        | None => None
        end in
      Ok (set_trim values (Some start) end_)
  else Ok values.

(** Lines 899 to 914: the body of the [try]. *)
Definition worker_try (h : Host) (app : App) (values : Values)
    (in_path : string) : result (Values * list string) :=
  values <- sanitize_trim h app values in_path ;;
  out_path <- _build_output_path h app in_path values ;;
  cmd <- build_command h values in_path out_path
           (self_encoders app) (self_decoders app) ;;
  Ok (values, cmd).

Definition done_message : event := UiMessage "info" "Done" "All jobs finished.".
Definition ffmpeg_failed : event :=
  UiMessage "error" "FFmpeg error" "FFmpeg finished with errors. Check the log.".

(** The loop of [worker]; [values] is the one dict shared by all
    iterations. *)
Fixpoint worker (h : Host) (app : App) (values : Values) (inputs : list string)
  : list event :=
  match inputs with
  | [] => [done_message]
  | in_path :: rest =>
      Iteration in_path ::
      match worker_try h app values in_path with
      | ValueError e => [UiMessage "error" "Input error" e]
      | Ok (values, cmd) =>
          let '(said, code) := run_ffmpeg h cmd (Some AppendLog) in
          SetProgress (PyFloat.of_Z 0) :: said
          ++ (if negb (code =? 0)%Z then [ffmpeg_failed]
              else worker h app values rest)
      end
  end.

Definition _run (h : Host) (app : App) : list event :=
  let values :=
    {| input_path := self_input_path app;
       output_dir := self_output_dir app;
       output_name := self_output_name app;
       format := self_format_var app;
       fps := self_fps_var app;
       trim_enabled := self_trim_enabled app;
       trim_start := None;
       trim_end := None;
       fps_enabled := self_fps_enabled app;
       keep_names := self_keep_names app |} in
  match self_input_list app with
  | _ :: _ => worker h app values (self_input_list app)
  | [] =>
      if negb (is_empty (strip (input_path values)))
      then worker h app values [strip (input_path values)]
      else [UiMessage "error" "Input error" "Choose an input file."]
  end.

(** The interface thread runs the queued calls in order. *)
Definition ui_step (st : Tracker.Progress) (e : event) : Tracker.Progress :=
  match e with
  | SetProgress v => Tracker._set_progress st v
  | AppendLog line => Tracker._set_progress_from_line st line
  | _ => st
  end.

End Batch.

(** ** The preview cache *)

Module Preview.

Section Cache.

(** A [tk.PhotoImage]. *)
Variable Image : Type.

(** [tk.PhotoImage(file=path)], [None] when it raises. *)
Variable photo_image : string -> option Image.

(** [(path, int(t * 2))] *)
Definition key : Type := (string * Z)%type.

Definition key_eqb (a b : key) : bool :=
  String.eqb (fst a) (fst b) && Z.eqb (snd a) (snd b).

(** [self.preview_cache], a dict in insertion order,
    [self.preview_cache_order] and [self.preview_image]. *)
Record Cache : Type := {
  preview_cache : list (key * Image);
  preview_cache_order : list key;
  preview_image : option Image
}.

(** [k in d] *)
Definition dict_mem (k : key) (d : list (key * Image)) : bool :=
  existsb (fun kv => key_eqb k (fst kv)) d.

(** [d[k] = v]: a key already present keeps its place. *)
Fixpoint dict_set (k : key) (v : Image) (d : list (key * Image))
  : list (key * Image) :=
  match d with
  | [] => [(k, v)]
  | (k', v') :: d' =>
      if key_eqb k k' then (k, v) :: d' else (k', v') :: dict_set k v d'
  end.

(** [del d[k]] *)
Definition dict_del (k : key) (d : list (key * Image)) : list (key * Image) :=
  filter (fun kv => negb (key_eqb k (fst kv))) d.

(** [_cache_preview_image(key, path)]; the state is returned with the key
    deleted from the dict by this call, if any.  When [PhotoImage] raises
    nothing is assigned. *)
Definition _cache_preview_image (st : Cache) (k : key) (path : string)
  : Cache * option key :=
  match photo_image path with
  | None => (st, None)
  | Some img =>
      let cache := dict_set k img (preview_cache st) in
      let order := preview_cache_order st ++ [k] in
      if (20 <? List.length order)%nat then
        match order with
        | old :: order' =>
            if dict_mem old cache
            then ({| preview_cache := dict_del old cache;
                     preview_cache_order := order';
                     preview_image := Some img |}, Some old)
            else ({| preview_cache := cache;
                     preview_cache_order := order';
                     preview_image := Some img |}, None)
        | [] => ({| preview_cache := cache;
                    preview_cache_order := order;
                    preview_image := Some img |}, None)
        end
      else ({| preview_cache := cache;
               preview_cache_order := order;
               preview_image := Some img |}, None)
  end.

(** [App.__init__]: both containers empty. *)
Definition empty : Cache :=
  {| preview_cache := []; preview_cache_order := []; preview_image := None |}.

(** Successive calls, with the keys deleted along the way in order. *)
Fixpoint insert_all (st : Cache) (reqs : list (key * string))
  : Cache * list key :=
  match reqs with
  | [] => (st, [])
  | (k, path) :: reqs' =>
      let '(st', ev) := _cache_preview_image st k path in
      let '(st'', evs) := insert_all st' reqs' in
      (st'', match ev with Some old => old :: evs | None => evs end)
  end.

End Cache.

End Preview.

(** ** Dropped files and the capability listings *)

Module Intake.
Import PyStr.

(** [App._parse_drop_files(data)]: the loop over the characters, with the
    list [files], the buffer [buf] and the flag [in_brace]. *)
Fixpoint parse_drop_loop (files : list string) (buf : string) (in_brace : bool)
    (data : string) : list string :=
  match data with
  | EmptyString => if negb (is_empty buf) then files ++ [buf] else files
  | String ch data' =>
      if Ascii.eqb ch "{" then parse_drop_loop files EmptyString true data'
      else if Ascii.eqb ch "}" then
        if negb (is_empty buf)
        then parse_drop_loop (files ++ [buf]) EmptyString false data'
        else parse_drop_loop files buf false data'
      else if Ascii.eqb ch " " && negb in_brace then
        if negb (is_empty buf)
        then parse_drop_loop (files ++ [buf]) EmptyString in_brace data'
        else parse_drop_loop files buf in_brace data'
      else parse_drop_loop files (buf ++ String ch EmptyString) in_brace data'
  end.

Definition _parse_drop_files (data : string) : list string :=
  if is_empty data then [] else parse_drop_loop [] EmptyString false data.

(** [s.splitlines()]: the line boundaries among the code points below 256
    are LF, CR, CR LF, VT, FF, FS, GS, RS and NEL; no empty line is added
    after a final boundary. *)
Definition is_line_break (c : ascii) : bool :=
  let n := N_of_ascii c in
  ((n =? 10) || (n =? 13) || (n =? 11) || (n =? 12) || (n =? 28) || (n =? 29)
   || (n =? 30) || (n =? 133))%N.

Fixpoint splitlines_loop (cur : string) (started : bool) (s : string) : list string :=
  match s with
  | EmptyString => if started then [cur] else []
  | String c s' =>
      if is_line_break c then
        match s' with
        | String d s'' =>
            if Ascii.eqb c "013" && Ascii.eqb d "010"
            then cur :: splitlines_loop EmptyString false s''
            else cur :: splitlines_loop EmptyString false s'
        | EmptyString => [cur]
        end
      else splitlines_loop (cur ++ String c EmptyString) true s'
  end.

Definition splitlines (s : string) : list string :=
  splitlines_loop EmptyString false s.

(** [s.split()]: the maximal runs of characters that are not white
    space. *)
Fixpoint split_ws_loop (cur : string) (s : string) : list string :=
  match s with
  | EmptyString => if is_empty cur then [] else [cur]
  | String c s' =>
      if is_space c
      then (if is_empty cur then [] else [cur]) ++ split_ws_loop EmptyString s'
      else split_ws_loop (cur ++ String c EmptyString) s'
  end.

Definition split_ws (s : string) : list string := split_ws_loop EmptyString s.

(** What [ffmpeg -hide_banner -encoders] and [-decoders] print, [None]
    when the process could not be started. *)
Record Listings : Type := {
  encoders_stdout : option string;
  decoders_stdout : option string
}.

(** [names.add(x)] on a set kept as a list without repetition. *)
Definition set_add (x : string) (names : list string) : list string :=
  if mem x names then names else names ++ [x].

(** The body of the loop over the lines, the same in both probes but for
    the word of the header line: the name the line adds, if any. *)
Definition listed_name (header line : string) : option string :=
  let line := strip line in
  if is_empty line || startswith line "--" || startswith line header then None
  else if (String.length line <? 6)%nat then None
  else
    match split_ws line with
    | _ :: name :: _ => Some name
    | _ => None
    end.

Definition listed_names (header stdout : string) : list string :=
  fold_left
    (fun names line =>
       match listed_name header line with
       | Some name => set_add name names
       | None => names
       end)
    (splitlines stdout) [].

Definition _get_ffmpeg_encoders (l : Listings) : list string :=
  match encoders_stdout l with
  | None => []
  | Some stdout => listed_names "Encoders" stdout
  end.

Definition _get_ffmpeg_decoders (l : Listings) : list string :=
  match decoders_stdout l with
  | None => []
  | Some stdout => listed_names "Decoders" stdout
  end.

End Intake.

(** ** Floor division, remainder and [int] of floats; [_format_seconds] *)

Module PyNum.
Import PyFloat.

Definition zero : float := of_Z 0.
Definition one : float := of_Z 1.
Definition half : float := SFdiv prec emax (of_Z 1) (of_Z 2).

(** The sign bit, and a zero with the sign of [y]: [copysign(0.0, y)]. *)
Definition sign_bit (x : float) : bool :=
  match x with
  | S754_zero s | S754_infinity s | S754_finite s _ _ => s
  | S754_nan => false
  end.

Definition zero_like (y : float) : float := S754_zero (sign_bit y).

(** C [fmod(x, y)]: the remainder of the exact quotient truncated towards
    zero, with the sign of [x]; exact. *)
Definition fmod (x y : float) : float :=
  match x, y with
  | S754_nan, _ | _, S754_nan => S754_nan
  | S754_infinity _, _ => S754_nan
  | _, S754_zero _ => S754_nan
  | S754_zero _, _ => x
  | S754_finite _ _ _, S754_infinity _ => x
  | S754_finite sx mx ex, S754_finite _ my ey =>
      let e := Z.min ex ey in
      let r := ((Zpos mx * 2 ^ (ex - e)) mod (Zpos my * 2 ^ (ey - e)))%Z in
      match r with
      | Z0 => S754_zero sx
      | _ => binary_normalize prec emax (if sx then (- r)%Z else r) e false
      end
  end.

(** C [floor(x)] *)
Definition floor (x : float) : float :=
  match x with
  | S754_finite s m e =>
      if (0 <=? e)%Z then x
      else
        let q := (Zpos m / 2 ^ (- e))%Z in
        let exact := ((Zpos m mod 2 ^ (- e)) =? 0)%Z in
        if s then
          binary_normalize prec emax (- (if exact then q else q + 1))%Z 0 true
        else binary_normalize prec emax q 0 false
  | _ => x
  end.

(** [x % y] on floats; [None] stands for [ZeroDivisionError]. *)
Definition float_rem (x y : float) : option float :=
  if eqb y zero then None
  else
    let m := fmod x y in
    Some (if truthy m then
            if xorb (ltb y zero) (ltb m zero) then add m y else m
          else zero_like y).

(** [x // y] on floats, as [_float_div_mod] computes it; [None] stands
    for [ZeroDivisionError]. *)
Definition float_floor_div (x y : float) : option float :=
  if eqb y zero then None
  else
    let m := fmod x y in
    let div := SFdiv prec emax (sub x m) y in
    let div :=
      if truthy m && xorb (ltb y zero) (ltb m zero) then sub div one else div in
    Some (if truthy div then
            let f := floor div in
            if gtb (sub div f) half then add f one else f
          else zero_like (SFdiv prec emax x y)).

(** [int(x)]: truncation towards zero; [None] stands for the error
    raised on an infinity or a NaN. *)
Definition int_of_float (x : float) : option Z :=
  match x with
  | S754_zero _ => Some 0%Z
  | S754_finite s m e =>
      let q := if (0 <=? e)%Z then (Zpos m * 2 ^ e)%Z else (Zpos m / 2 ^ (- e))%Z in
      Some (if s then (- q)%Z else q)
  | _ => None
  end.

(** [f"{n:02d}"] *)
Definition format_02d (n : Z) : string :=
  if (n <? 0)%Z then "-" ++ decimal (- n)
  else if (n <? 10)%Z then "0" ++ decimal n
  else decimal n.

(** [int(x // y)] and [int(x % y)] with an integer [y] taken as a float. *)
Definition int_floor_div (x : float) (y : Z) : option Z :=
  match float_floor_div x (of_Z y) with
  | Some q => int_of_float q
  | None => None
  end.

(** [_format_seconds(seconds)]; the result is [None] when [int] raises.
    [max(0, float(seconds))] is the integer 0 unless the float is above 0,
    and on the integer 0 the three fields are 0. *)
Definition _format_seconds (seconds : option float) : option string :=
  match seconds with
  | None => Some "--:--"
  | Some x =>
      if gtb x zero then
        match int_floor_div x 3600 with
        | None => None
        | Some h =>
            match (match float_rem x (of_Z 3600) with
                   | Some r => int_floor_div r 60
                   | None => None
                   end) with
            | None => None
            | Some m =>
                match (match float_rem x (of_Z 60) with
                       | Some r => int_of_float r
                       | None => None
                       end) with
                | None => None
                | Some s =>
                    if (0 <? h)%Z
                    then Some (format_02d h ++ ":" ++ format_02d m ++ ":"
                               ++ format_02d s)%string
                    else Some (format_02d m ++ ":" ++ format_02d s)%string
                end
            end
        end
      else Some "00:00"
  end.

End PyNum.

(** ** The state of the window and the callbacks that change it *)

Module Gui.
Import PyStr Engine Intake.

(** A callback returns, or raises and leaves the state as it stood. *)
Inductive outcome (S : Type) : Type :=
| Returned (s : S)
| Raised (s : S).
Arguments Returned {S} s.
Arguments Raised {S} s.

Definition state_of {S : Type} (o : outcome S) : S :=
  match o with Returned s | Raised s => s end.

Definition and_then {S T : Type} (o : outcome S) (lift : S -> T)
    (k : S -> outcome T) : outcome T :=
  match o with
  | Returned s => k s
  | Raised s => Raised (lift s)
  end.

(** What the desktop answers: [sys.platform], [shutil.which] as a test,
    the home folder, the return code and output of a dialog tool, and the
    time stamp and size of a file ([None] for [OSError]). *)
Record Desktop : Type := {
  platform : string;
  which : string -> bool;
  home : string;
  run_tool : list string -> Z * string;
  getmtime : string -> option PyFloat.float;
  getsize : string -> option Z
}.

Definition video_filter : string :=
  "--file-filter=Videos | *.mp4 *.mkv *.mov *.webm *.avi *.m4v *.mpg *.mpeg *.gif".

Definition _native_pick_files (d : Desktop) (multiple : bool)
  : option (list string) :=
  if startswith (platform d) "linux" then
    let zenity :=
      if which d "zenity" then
        let cmd := ["zenity"; "--file-selection"] in
        let cmd := if multiple then cmd ++ ["--multiple"; "--separator=|"] else cmd in
        let cmd := cmd ++ [video_filter; "--file-filter=All files | *"] in
        let '(returncode, stdout) := run_tool d cmd in
        if (returncode =? 0)%Z then
          let out := strip stdout in
          if is_empty out then Some []
          else Some (if multiple then split "|" out else [out])
        else None
      else None in
    match zenity with
    | Some files => Some files
    | None =>
        if which d "kdialog" then
          let cmd :=
            if multiple
            then ["kdialog"; "--getopenfilename"; home d; "--multiple";
                  "--separate-output"]
            else ["kdialog"; "--getopenfilename"; home d] in
          let '(returncode, stdout) := run_tool d cmd in
          if (returncode =? 0)%Z then
            let out := strip stdout in
            if is_empty out then Some []
            else Some (if multiple then splitlines out else [out])
          else None
        else None
    end
  else None.

Definition _native_pick_dir (d : Desktop) : option string :=
  if startswith (platform d) "linux" then
    let zenity :=
      if which d "zenity" then
        let '(returncode, stdout) :=
          run_tool d ["zenity"; "--file-selection"; "--directory"] in
        if (returncode =? 0)%Z then Some (strip stdout) else None
      else None in
    match zenity with
    | Some out => if is_empty out then None else Some out
    | None =>
        if which d "kdialog" then
          let '(returncode, stdout) :=
            run_tool d ["kdialog"; "--getexistingdirectory"; home d] in
          if (returncode =? 0)%Z then
            let out := strip stdout in
            if is_empty out then None else Some out
          else None
        else None
    end
  else None.

(** [_pick_output]: [asked] is what the Tk dialog would answer, the empty
    string when it is cancelled; the result is [self.output_dir]. *)
Definition _pick_output (d : Desktop) (asked : string) (output_dir : string)
  : string :=
  let path :=
    match _native_pick_dir d with
    | Some path => path
    | None => asked
    end in
  if is_empty path then output_dir else path.

(** The file fields: [self.input_path], [self.input_list] and the items of
    the list box [self.batch_list]. *)
Record Files : Type := {
  input_path_var : string;
  input_list : list string;
  batch_list : list string
}.

(** The trim fields: [self.total_duration], the duration label, the upper
    bounds of the two trim scales (their lower bound is always 0), the two
    slider variables and their labels. *)
Record TrimUi : Type := {
  total_duration : option PyFloat.float;
  duration_label : string;
  start_scale_to : PyFloat.float;
  end_scale_to : PyFloat.float;
  trim_start_sec : PyFloat.float;
  trim_end_sec : PyFloat.float;
  trim_start_label : string;
  trim_end_label : string
}.

(** [self._sync_trim_labels()]: [_format_seconds] raises on an infinite
    slider value, after the end was moved. *)
Definition _sync_trim_labels (t : TrimUi) : outcome TrimUi :=
  let start := trim_start_sec t in
  let end_ := trim_end_sec t in
  let end_ := if PyFloat.ltb end_ start then start else end_ in
  let moved (start_label end_label : string) : TrimUi :=
    {| total_duration := total_duration t;
       duration_label := duration_label t;
       start_scale_to := start_scale_to t;
       end_scale_to := end_scale_to t;
       trim_start_sec := start;
       trim_end_sec := end_;
       trim_start_label := start_label;
       trim_end_label := end_label |} in
  match PyNum._format_seconds (Some start) with
  | None => Raised (moved (trim_start_label t) (trim_end_label t))
  | Some start_label =>
      match PyNum._format_seconds (Some end_) with
      | None => Raised (moved start_label (trim_end_label t))
      | Some end_label => Returned (moved start_label end_label)
      end
  end.

Section Window.

(** A [tk.PhotoImage]. *)
Variable Image : Type.
Variable photo_image : string -> option Image.

(** The preview fields: the upper bound of the preview scale, the slider
    variable and its label, the pending timer [self.preview_job] (by its
    delay in milliseconds), the image the preview label shows, and the
    cache with [self.preview_image]. *)
Record PreviewUi : Type := {
  preview_scale_to : PyFloat.float;
  preview_time : PyFloat.float;
  preview_label : string;
  preview_job : option nat;
  shown : option Image;
  cache : Preview.Cache Image
}.

Record Ui : Type := {
  files : Files;
  trim : TrimUi;
  pv : PreviewUi
}.

Definition with_trim (u : Ui) (t : TrimUi) : Ui :=
  {| files := files u; trim := t; pv := pv u |}.

Definition with_pv (u : Ui) (p : PreviewUi) : Ui :=
  {| files := files u; trim := trim u; pv := p |}.

Definition with_files (u : Ui) (f : Files) : Ui :=
  {| files := f; trim := trim u; pv := pv u |}.

(** The preview scale, slider and label set together. *)
Definition set_preview (p : PreviewUi) (to time : PyFloat.float)
    (label : string) : PreviewUi :=
  {| preview_scale_to := to;
     preview_time := time;
     preview_label := label;
     preview_job := preview_job p;
     shown := shown p;
     cache := cache p |}.

(** [self._schedule_preview(force)]: a pending timer is cancelled and
    replaced. *)
Definition _schedule_preview (force : bool) (u : Ui) : Ui :=
  with_pv u
    {| preview_scale_to := preview_scale_to (pv u);
       preview_time := preview_time (pv u);
       preview_label := preview_label (pv u);
       preview_job := Some (if negb force then 200 else 0)%nat;
       shown := shown (pv u);
       cache := cache (pv u) |}.

(** [self._load_duration(path)] *)
Definition _load_duration (h : Host) (path : string) (u : Ui) : outcome Ui :=
  let duration := _get_duration_seconds h path in
  let t := trim u in
  let unknown :=
    match duration with
    | None => true
    | Some d => negb (PyFloat.truthy d) || PyFloat.leb d PyNum.zero
    end in
  match duration with
  | Some d =>
      if unknown then
        and_then
          (_sync_trim_labels
             {| total_duration := duration;
                duration_label := "Duration: --:--";
                start_scale_to := PyNum.one;
                end_scale_to := PyNum.one;
                trim_start_sec := PyNum.zero;
                trim_end_sec := PyNum.zero;
                trim_start_label := trim_start_label t;
                trim_end_label := trim_end_label t |})
          (with_trim u)
          (fun t' =>
             Returned
               {| files := files u;
                  trim := t';
                  pv := set_preview (pv u) PyNum.one PyNum.zero "Preview: --:--" |})
      else
        match PyNum._format_seconds duration with
        | None =>
            Raised
              (with_trim u
                 {| total_duration := duration;
                    duration_label := duration_label t;
                    start_scale_to := start_scale_to t;
                    end_scale_to := end_scale_to t;
                    trim_start_sec := trim_start_sec t;
                    trim_end_sec := trim_end_sec t;
                    trim_start_label := trim_start_label t;
                    trim_end_label := trim_end_label t |})
        | Some label =>
            let end_ := trim_end_sec t in
            let end_ := if PyFloat.leb end_ PyNum.zero then d else end_ in
            let start := trim_start_sec t in
            let start := if PyFloat.gtb start d then PyNum.zero else start in
            let end_ := if PyFloat.gtb end_ d then d else end_ in
            and_then
              (_sync_trim_labels
                 {| total_duration := duration;
                    duration_label := ("Duration: " ++ label)%string;
                    start_scale_to := d;
                    end_scale_to := d;
                    trim_start_sec := start;
                    trim_end_sec := end_;
                    trim_start_label := trim_start_label t;
                    trim_end_label := trim_end_label t |})
              (fun t' =>
                 {| files := files u;
                    trim := t';
                    pv := set_preview (pv u) d (preview_time (pv u))
                            (preview_label (pv u)) |})
              (fun t' =>
                 let time :=
                   if PyFloat.ltb d (preview_time (pv u)) then d
                   else preview_time (pv u) in
                 match PyNum._format_seconds (Some time) with
                 | None =>
                     Raised
                       {| files := files u;
                          trim := t';
                          pv := set_preview (pv u) d time (preview_label (pv u)) |}
                 | Some l =>
                     Returned
                       {| files := files u;
                          trim := t';
                          pv := set_preview (pv u) d time ("Preview: " ++ l)%string |}
                 end)
        end
  | None =>
      and_then
        (_sync_trim_labels
           {| total_duration := duration;
              duration_label := "Duration: --:--";
              start_scale_to := PyNum.one;
              end_scale_to := PyNum.one;
              trim_start_sec := PyNum.zero;
              trim_end_sec := PyNum.zero;
              trim_start_label := trim_start_label t;
              trim_end_label := trim_end_label t |})
        (with_trim u)
        (fun t' =>
           Returned
             {| files := files u;
                trim := t';
                pv := set_preview (pv u) PyNum.one PyNum.zero "Preview: --:--" |})
  end.

(** The three lines that end [_pick_input] and the two adding callbacks:
    the path is shown as the input, its duration loaded and a preview
    scheduled at once. *)
Definition show_input (h : Host) (path : string) (u : Ui) : outcome Ui :=
  let u :=
    with_files u
      {| input_path_var := path;
         input_list := input_list (files u);
         batch_list := batch_list (files u) |} in
  and_then (_load_duration h path u) (fun u' => u')
    (fun u' => Returned (_schedule_preview true u')).

(** [_pick_input]: [asked] is what the Tk dialog would answer, the empty
    string when it is cancelled. *)
Definition _pick_input (h : Host) (d : Desktop) (asked : string) (u : Ui)
  : outcome Ui :=
  let native :=
    match _native_pick_files d false with
    | Some files => files
    | None => [asked]
    end in
  match native with
  | path :: _ => if is_empty path then Returned u else show_input h path u
  | [] => Returned u
  end.

(** [for p in paths: if <test> and p not in self.input_list: append],
    with the list box filled alongside. *)
Fixpoint add_paths (test : string -> bool) (paths : list string) (f : Files)
  : Files :=
  match paths with
  | [] => f
  | p :: paths' =>
      add_paths test paths'
        (if test p && negb (mem p (input_list f))
         then {| input_path_var := input_path_var f;
                 input_list := input_list f ++ [p];
                 batch_list := batch_list f ++ [p] |}
         else f)
  end.

(** [_add_to_batch]: [asked] is what the Tk dialog would answer. *)
Definition _add_to_batch (h : Host) (d : Desktop) (asked : list string)
    (u : Ui) : outcome Ui :=
  let paths :=
    match _native_pick_files d true with
    | Some files => files
    | None => asked
    end in
  match paths with
  | [] => Returned u
  | first :: _ =>
      let u := with_files u (add_paths (fun _ => true) paths (files u)) in
      if is_empty (input_path_var (files u)) then show_input h first u
      else Returned u
  end.

(** [list.remove(x)]: the first occurrence. *)
Fixpoint remove_first (x : string) (l : list string) : list string :=
  match l with
  | [] => []
  | y :: l' => if String.eqb x y then l' else y :: remove_first x l'
  end.

(** [listbox.delete(idx)] *)
Fixpoint delete_at (idx : nat) (l : list string) : list string :=
  match idx, l with
  | _, [] => []
  | O, _ :: l' => l'
  | S i, y :: l' => y :: delete_at i l'
  end.

(** [_remove_selected]: [sel] is [self.batch_list.curselection()], the
    selected indices in increasing order. *)
Definition _remove_selected (sel : list nat) (f : Files) : Files :=
  fold_left
    (fun f idx =>
       let path := nth idx (batch_list f) EmptyString in
       {| input_path_var := input_path_var f;
          input_list :=
            if mem path (input_list f) then remove_first path (input_list f)
            else input_list f;
          batch_list := delete_at idx (batch_list f) |})
    (rev sel) f.

(** [s.lower()] on code points below 256: the capital letters of ASCII
    and of Latin-1. *)
Definition lower_char (c : ascii) : ascii :=
  let n := N_of_ascii c in
  if (((65 <=? n) && (n <=? 90))
      || ((192 <=? n) && (n <=? 222) && negb (n =? 215)))%N
  then ascii_of_N (n + 32) else c.

Fixpoint lower (s : string) : string :=
  match s with
  | EmptyString => EmptyString
  | String c s' => String (lower_char c) (lower s')
  end.

(** [a < b] on strings: by code points, a proper prefix first. *)
Fixpoint str_ltb (a b : string) : bool :=
  match a, b with
  | _, EmptyString => false
  | EmptyString, String _ _ => true
  | String x a', String y b' =>
      if (N_of_ascii x <? N_of_ascii y)%N then true
      else if (N_of_ascii y <? N_of_ascii x)%N then false
      else str_ltb a' b'
  end.

(** [items.sort(key=...)]: the stable sort, as insertion from the right
    end: an item goes before the first item whose key is not smaller. *)
Section Sort.
Variable K : Type.
Variable key_ltb : K -> K -> bool.

Fixpoint insert_by (x : K * string) (l : list (K * string)) : list (K * string) :=
  match l with
  | [] => [x]
  | y :: l' => if key_ltb (fst y) (fst x) then y :: insert_by x l' else x :: l
  end.

Definition stable_sort (l : list (K * string)) : list (K * string) :=
  fold_right insert_by [] l.

(** The keys of all items, [None] when one raises. *)
Fixpoint keyed (key : string -> option K) (items : list string)
  : option (list (K * string)) :=
  match items with
  | [] => Some []
  | p :: items' =>
      match key p, keyed key items' with
      | Some k, Some l => Some ((k, p) :: l)
      | _, _ => None
      end
  end.

Definition sort_by (key : string -> option K) (reversed : bool)
    (items : list string) : option (list string) :=
  match keyed key items with
  | Some l =>
      let sorted := map snd (stable_sort l) in
      Some (if reversed then rev sorted else sorted)
  | None => None
  end.

End Sort.

(** [_sort_batch]: [mode] is [self.sort_var.get()]. *)
Definition _sort_batch (d : Desktop) (mode : string) (f : Files) : outcome Files :=
  if match input_list f with [] => true | _ => false end then Returned f
  else
    let items := input_list f in
    let sorted :=
      if mem mode ["Name A-Z"; "Name Z-A"] then
        sort_by string str_ltb (fun p => Some (lower (PyPath.basename p)))
          (String.eqb mode "Name Z-A") items
      else if mem mode ["Date Newest"; "Date Oldest"] then
        sort_by PyFloat.float PyFloat.ltb (getmtime d)
          (String.eqb mode "Date Newest") items
      else if mem mode ["Size Largest"; "Size Smallest"] then
        sort_by Z Z.ltb (getsize d) (String.eqb mode "Size Largest") items
      else Some items in
    match sorted with
    | Some items =>
        Returned {| input_path_var := input_path_var f;
                    input_list := items;
                    batch_list := items |}
    | None => Raised f
    end.

(** [_on_drop_files(event)]: [data] is [event.data]. *)
Definition _on_drop_files (h : Host) (data : string) (u : Ui) : outcome Ui :=
  match _parse_drop_files data with
  | [] => Returned u
  | paths =>
      let u := with_files u (add_paths (isfile h) paths (files u)) in
      match input_list (files u) with
      | first :: _ =>
          if is_empty (input_path_var (files u)) then show_input h first u
          else Returned u
      | [] => Returned u
      end
  end.

(** [self.preview_cache[key]] *)
Definition dict_get (k : Preview.key) (d : list (Preview.key * Image))
  : option Image :=
  option_map snd (find (fun kv => Preview.key_eqb k (fst kv)) d).

(** What [_generate_preview] leaves to its worker thread: the frame to
    extract. *)
Inductive preview_request : Type :=
| NoRequest
| Extract (k : Preview.key) (t : PyFloat.float) (path : string).

Definition with_label_and_shown (p : PreviewUi) (label : string)
    (img : option Image) (c : Preview.Cache Image) : PreviewUi :=
  {| preview_scale_to := preview_scale_to p;
     preview_time := preview_time p;
     preview_label := label;
     preview_job := None;
     shown := img;
     cache := c |}.

(** [self._set_preview_image(img)] *)
Definition _set_preview_image (c : Preview.Cache Image) (img : Image)
  : Preview.Cache Image :=
  {| Preview.preview_cache := Preview.preview_cache Image c;
     Preview.preview_cache_order := Preview.preview_cache_order Image c;
     Preview.preview_image := Some img |}.

(** [self._generate_preview()], up to the start of the worker thread. *)
Definition _generate_preview (h : Host) (decoders : list string) (u : Ui)
  : outcome Ui * preview_request :=
  let p := pv u in
  let idle := with_label_and_shown p (preview_label p) (shown p) (cache p) in
  let path := strip (input_path_var (files u)) in
  if is_empty path || negb (isfile h path) then (Returned (with_pv u idle), NoRequest)
  else
    let t := preview_time p in
    match PyNum._format_seconds (Some t) with
    | None => (Raised (with_pv u idle), NoRequest)
    | Some l =>
        let label := ("Preview: " ++ l)%string in
        let codec := _get_video_codec h path in
        if match codec with
           | Some c => negb (is_empty c) && negb (mem c decoders)
           | None => false
           end
        then (Returned
                (with_pv u
                   (with_label_and_shown p "Preview: decoder missing" None
                      (cache p))),
              NoRequest)
        else
          match PyNum.int_of_float (PyFloat.mul t (PyFloat.of_Z 2)) with
          | None =>
              (Raised (with_pv u (with_label_and_shown p label (shown p) (cache p))),
               NoRequest)
          | Some bucket =>
              let k := (path, bucket) in
              if Preview.dict_mem Image k (Preview.preview_cache Image (cache p))
              then
                match dict_get k (Preview.preview_cache Image (cache p)) with
                | Some img =>
                    (Returned
                       (with_pv u
                          (with_label_and_shown p label (Some img)
                             (_set_preview_image (cache p) img))),
                     NoRequest)
                | None =>
                    (Raised
                       (with_pv u (with_label_and_shown p label (shown p) (cache p))),
                     NoRequest)
                end
              else
                (Returned
                   (with_pv u (with_label_and_shown p label (shown p) (cache p))),
                 Extract k t path)
          end
    end.

(** [_cache_preview_image(key, path)] on the window: the image loaded is
    also the one the preview label shows. *)
Definition cache_and_show (k : Preview.key) (tmp_path : string) (u : Ui) : Ui :=
  match photo_image tmp_path with
  | None => u
  | Some img =>
      with_pv u
        {| preview_scale_to := preview_scale_to (pv u);
           preview_time := preview_time (pv u);
           preview_label := preview_label (pv u);
           preview_job := preview_job (pv u);
           shown := Some img;
           cache :=
             fst (Preview._cache_preview_image Image photo_image (cache (pv u))
                    k tmp_path) |}
  end.

End Window.

End Gui.

(** * Vocabulary of the properties *)

(** ** The planner as the specification words it *)

Module PlannerSpec.
Import PyStr Engine.

(** A pixel-level transform is required: fps change, trim, or gif output. *)
Definition needs_full_decode (values : Values) : bool :=
  fps_enabled values || trim_enabled values
  || String.eqb (strip (format values)) "gif".

(** The validation checks in their stated order, each with the message of
    its error; check 4 has one message for an absent and one for a
    non-numeric target.  A check is [true] when it fails. *)
Definition validation_checks (h : Host) (values : Values) (in_path : string)
    (decoders : list string) : list (bool * string) :=
  [ (negb (isfile h in_path), "Input file does not exist.");
    (is_empty (strip (format values)), "Output format is required.");
    (trim_enabled values
     && match trim_start values with None => true | Some _ => false end,
     "Trim start time is required when Trim is enabled.");
    (fps_enabled values && is_empty (strip (fps values)),
     "Target FPS is required when FPS change is enabled.");
    (fps_enabled values
     && match PyFloat.of_string (strip (fps values)) with
        | None => true
        | Some _ => false
        end,
     "Target FPS must be a number.");
    (match _get_video_codec h in_path with
     | Some codec => needs_full_decode values && negb (mem codec decoders)
     | None => false
     end,
     match _get_video_codec h in_path with
     | Some codec => decode_error codec
     | None => ""
     end) ].

(** The message of the first failing check. *)
Definition first_failure (checks : list (bool * string)) : option string :=
  option_map snd (find fst checks).

(** The arguments up to the input: overwrite, seek, input, end bound. *)
Definition end_bound (s : PyFloat.float) (e : option PyFloat.float) : list string :=
  match e with
  | Some e => if PyFloat.gtb e s then ["-to"; PyFloat.format_3f e] else []
  | None => []
  end.

Definition input_args (values : Values) (in_path : string) : list string :=
  if trim_enabled values then
    match trim_start values with
    | Some s =>
        ["ffmpeg"; "-y"; "-ss"; PyFloat.format_3f s; "-i"; in_path]
        ++ end_bound s (trim_end values)
    | None => ["ffmpeg"; "-y"]
    end
  else ["ffmpeg"; "-y"; "-i"; in_path].

(** The encoding policy of the target format. *)
Definition gif_filter (values : Values) : string :=
  "fps=" ++ (if fps_enabled values then strip (fps values) else "10")
  ++ ",scale=640:-1:flags=lanczos".

Definition stream_copy (values : Values) : bool :=
  negb (fps_enabled values) && negb (trim_enabled values)
  && mem (strip (format values)) ["mp4"; "mov"; "mkv"].

Definition encoding_args (values : Values) (encoders : list string) : list string :=
  let out_fmt := strip (format values) in
  if String.eqb out_fmt "gif" then ["-vf"; gif_filter values; "-an"]
  else
    (if stream_copy values then ["-c"; "copy"]
     else
       (if fps_enabled values
        then ["-filter:v"; ("fps=" ++ strip (fps values))%string] else [])
       ++ opt_flag "-c:v" (_pick_video_encoder out_fmt encoders)
       ++ opt_flag "-c:a" (_pick_audio_encoder out_fmt encoders))
    ++ (if mem out_fmt ["mp4"; "mov"] then ["-movflags"; "+faststart"] else []).

(** The option words of the encoding policy, and the encoder names of the
    preference lists. *)
Definition option_words : list string :=
  ["-vf"; "-an"; "-c"; "copy"; "-filter:v"; "-c:v"; "-c:a"; "-movflags";
   "+faststart"].

Definition encoder_names : list string :=
  ["libx264"; "libopenh264"; "h264_v4l2m2m"; "h264_vaapi"; "h264_nvenc";
   "mpeg4"; "libvpx-vp9"; "libvpx"; "vp9"; "vp8"; "gif"; "aac"; "libfdk_aac";
   "libopus"; "libvorbis"; "opus"; "vorbis"].

End PlannerSpec.

(** ** What a trace of the worker shows *)

Module Trace.
Import PyStr Engine Batch.

(** What a trace shows: the inputs whose loop body was entered, the
    commands started, and the message boxes. *)
Definition iterations (tr : list event) : list string :=
  flat_map (fun e => match e with Iteration p => [p] | _ => [] end) tr.

Definition spawned (tr : list event) : list (list string) :=
  flat_map (fun e => match e with Popen cmd => [cmd] | _ => [] end) tr.

Definition messages (tr : list event) : list event :=
  filter (fun e => match e with UiMessage _ _ _ => true | _ => false end) tr.

Section Run.

Variable h : Host.
Variable app : App.

(** The events of an input whose command [cmd] was planned and started. *)
Definition item_events (in_path : string) (cmd : list string) : list event :=
  Iteration in_path :: SetProgress (PyFloat.of_Z 0)
  :: fst (run_ffmpeg h cmd (Some AppendLog)).

(** [all_succeed values inputs tr values']: from the dict [values], every
    input of [inputs] is planned and its process returns 0; [tr] is the
    trace of these iterations and [values'] the dict after them. *)
Inductive all_succeed : Values -> list string -> list event -> Values -> Prop :=
| succeed_nil (values : Values) : all_succeed values [] [] values
| succeed_cons (values values1 values2 : Values) (in_path : string)
    (cmd : list string) (rest : list string) (tr : list event) :
    worker_try h app values in_path = Ok (values1, cmd) ->
    snd (ffmpeg h cmd) = 0%Z ->
    all_succeed values1 rest tr values2 ->
    all_succeed values (in_path :: rest) (item_events in_path cmd ++ tr) values2.

End Run.

(** The dict [_run] builds from [app]. *)
Definition values_of (app : App) : Values :=
  {| input_path := self_input_path app;
     output_dir := self_output_dir app;
     output_name := self_output_name app;
     format := self_format_var app;
     fps := self_fps_var app;
     trim_enabled := self_trim_enabled app;
     trim_start := None;
     trim_end := None;
     fps_enabled := self_fps_enabled app;
     keep_names := self_keep_names app |}.

End Trace.

(** ** Keys of the preview cache *)

Module CacheSpec.
Import Preview.

(** The keys of a dict, in insertion order. *)
Definition keys {Image : Type} (d : list (key * Image)) : list key :=
  map fst d.

(** Keys checked for repetition by computation. *)
Fixpoint distinct (l : list key) : bool :=
  match l with
  | [] => true
  | k :: l' => negb (existsb (key_eqb k) l') && distinct l'
  end.

End CacheSpec.

(** ** Concrete hosts and requests *)

Module Scenarios.
Import PyStr Engine Tracker Batch Preview.

(** A plain remux to mp4. *)
Definition remux_host : Host :=
  {| isfile := fun p => String.eqb p "in.mkv";
     isdir := fun _ => true;
     ffprobe_duration := fun _ => Some "12.5";
     ffprobe_codec := fun _ => Some "h264";
     ffmpeg := fun _ => ([], 0%Z) |}.

Definition remux_values : Values :=
  {| input_path := "in.mkv"; output_dir := "/out"; output_name := "clip";
     format := "mp4"; fps := ""; trim_enabled := false; trim_start := None;
     trim_end := None; fps_enabled := false; keep_names := false |}.

(** The scenario of the specification: codec h264, a decoder set without
    it, fps change enabled. *)
Definition h264_host : Host :=
  {| isfile := fun _ => true;
     isdir := fun _ => true;
     ffprobe_duration := fun _ => Some "60.0";
     ffprobe_codec := fun _ => Some "h264";
     ffmpeg := fun _ => ([], 0%Z) |}.

Definition fps30_values : Values :=
  {| input_path := "in.mp4"; output_dir := "/out"; output_name := "clip";
     format := "mp4"; fps := "30"; trim_enabled := false; trim_start := None;
     trim_end := None; fps_enabled := true; keep_names := false |}.

(** A trim from 1.5 s to 7.25 s. *)
Definition trim_values : Values :=
  {| input_path := "in.mp4"; output_dir := "/out"; output_name := "clip";
     format := "mkv"; fps := ""; trim_enabled := true;
     trim_start := PyFloat.of_string "1.5";
     trim_end := PyFloat.of_string "7.25";
     fps_enabled := false; keep_names := false |}.

(** A target fps that is not a number. *)
Definition fps_fast_values : Values :=
  {| input_path := "in.mp4"; output_dir := "/out"; output_name := "clip";
     format := "mp4"; fps := "fast"; trim_enabled := false; trim_start := None;
     trim_end := None; fps_enabled := true; keep_names := false |}.

(** A gif request with fps change disabled. *)
Definition gif_values : Values :=
  {| input_path := "in.mp4"; output_dir := "/out"; output_name := "clip";
     format := "gif"; fps := ""; trim_enabled := false; trim_start := None;
     trim_end := None; fps_enabled := false; keep_names := false |}.

(** A progress state with a known total of 100 s at 50 percent, and a line
    that announces no duration, as the engine prints it for a stream of
    unknown length. *)
Definition halfway : Progress :=
  {| total_duration := Some (PyFloat.of_Z 100);
     progress_value := PyFloat.of_Z 50 |}.

Definition duration_na : string :=
  "  Duration: N/A, start: 0.000000, bitrate: N/A".

(** Three inputs of which the second is not a file. *)
Definition batch_host : Host :=
  {| isfile := fun p => negb (String.eqb p "b.mp4");
     isdir := fun _ => true;
     ffprobe_duration := fun _ => Some "10.000000";
     ffprobe_codec := fun _ => Some "h264";
     ffmpeg := fun _ => (["Duration: 00:00:10.00, start: 0.000000"], 0%Z) |}.

Definition batch_app : App :=
  {| self_encoders := ["libx264"; "aac"];
     self_decoders := ["h264"];
     self_input_list := ["a.mp4"; "b.mp4"; "c.mp4"];
     self_input_path := "";
     self_output_dir := "/out";
     self_output_name := "clip";
     self_format_var := "mkv";
     self_fps_var := "";
     self_trim_enabled := false;
     self_trim_start_sec := PyFloat.of_Z 0;
     self_trim_end_sec := PyFloat.of_Z 0;
     self_fps_enabled := false;
     self_keep_names := true |}.

(** An app with trim enabled and the two sliders at the given times. *)
Definition trim_app (start end_ : string) : App :=
  {| self_encoders := ["libx264"; "aac"];
     self_decoders := ["h264"];
     self_input_list := ["a.mp4"];
     self_input_path := "";
     self_output_dir := "/out";
     self_output_name := "clip";
     self_format_var := "mkv";
     self_fps_var := "";
     self_trim_enabled := true;
     self_trim_start_sec :=
       match PyFloat.of_string start with Some x => x | None => PyFloat.of_Z 0 end;
     self_trim_end_sec :=
       match PyFloat.of_string end_ with Some x => x | None => PyFloat.of_Z 0 end;
     self_fps_enabled := false;
     self_keep_names := false |}.

(** A host whose duration probe prints [stdout]. *)
Definition host_of_duration (stdout : string) : Host :=
  {| isfile := fun _ => true;
     isdir := fun _ => true;
     ffprobe_duration := fun _ => Some stdout;
     ffprobe_codec := fun _ => Some "h264";
     ffmpeg := fun _ => ([], 0%Z) |}.

(** 25 previews of one file, at 0 s, 0.5 s and so on, the image being the
    path it was loaded from. *)
Definition frames25 : list (key * string) :=
  map (fun n => (("a.mp4", Z.of_nat n), "/tmp/preview.png")) (seq 0 25).

End Scenarios.

(** ** The range of the progress bar *)

Module ProgressSpec.

(** A value between 0 and 100, both included. *)
Definition in_range (v : PyFloat.float) : bool :=
  PyFloat.leb (PyFloat.of_Z 0) v && PyFloat.leb v (PyFloat.of_Z 100).

End ProgressSpec.

(** ** More concrete states *)

Module MoreScenarios.
Import PyStr Engine Tracker Batch Preview.

(** The progress state at the start of a job, and two lines of the engine
    that carry a time marker and no duration. *)
Definition fresh_progress : Progress :=
  {| total_duration := None; progress_value := PyFloat.of_Z 0 |}.

Definition time_lines : list string :=
  ["frame=   10 fps=0.0 time=00:00:00.40 bitrate=N/A";
   "frame=   25 fps= 24 time=00:00:01.00 bitrate=N/A"].

End MoreScenarios.

(** ** The state the preview cache keeps *)

Module CacheInvariant.
Import Preview CacheSpec.

(** The state the cache keeps under calls of any kind: the dict has no
    repeated key, each of its keys stands in the order list, and the
    order list holds at most twenty keys. *)
Definition well_kept {Image : Type} (st : Cache Image) : Prop :=
  NoDup (keys (preview_cache Image st))
  /\ incl (keys (preview_cache Image st)) (preview_cache_order Image st)
  /\ (List.length (preview_cache_order Image st) <= 20)%nat.

End CacheInvariant.

(** ** Dropped files and listings *)

Module IntakeSpec.
Import PyStr.

(** The character [c] occurs in [s]. *)
Fixpoint has_char (c : ascii) (s : string) : bool :=
  match s with
  | EmptyString => false
  | String d s' => Ascii.eqb c d || has_char c s'
  end.

(** A file name that a drop can carry: not empty, without braces. *)
Definition droppable (p : string) : Prop :=
  p <> EmptyString /\ has_char "{" p = false /\ has_char "}" p = false.

(** A list of names as the drop event words it: names separated by a
    space, a name that holds a space wrapped in braces. *)
Definition drop_item (p : string) : string :=
  if has_char " " p then "{" ++ p ++ "}" else p.

Definition drop_data (ps : list string) : string := join " " (map drop_item ps).


(** The first lines of the encoder listing of an engine build. *)
Definition encoders_listing : string :=
  "Encoders:" ++ String "010" (
  " V..... = Video" ++ String "010" (
  " ------" ++ String "010" (
  " V....D libx264              libx264 H.264 / AVC" ++ String "010" (
  " A....D aac                  AAC (Advanced Audio Coding)" ++ String "010" ""
  )))).

End IntakeSpec.

(** ** The sliders of the window *)

Module SliderSpec.
Import PyFloat Gui.

(** No slider stands above the upper bound of its scale, and the end of
    the trim does not stand before its start. *)
Definition within_scales {Image : Type} (u : Ui Image) : Prop :=
  gtb (trim_start_sec (trim Image u)) (start_scale_to (trim Image u)) = false
  /\ gtb (trim_end_sec (trim Image u)) (end_scale_to (trim Image u)) = false
  /\ ltb (trim_end_sec (trim Image u)) (trim_start_sec (trim Image u)) = false
  /\ gtb (preview_time Image (pv Image u)) (preview_scale_to Image (pv Image u))
     = false.

(** A window as [App.__init__] leaves it. *)
Definition fresh_window : Ui unit :=
  {| files := {| input_path_var := ""; input_list := []; batch_list := [] |};
     trim := {| total_duration := None;
                duration_label := "Duration: --:--";
                start_scale_to := PyNum.one;
                end_scale_to := PyNum.one;
                trim_start_sec := PyNum.zero;
                trim_end_sec := PyNum.zero;
                trim_start_label := "00:00";
                trim_end_label := "00:00" |};
     pv := {| preview_scale_to := PyNum.one;
              preview_time := PyNum.zero;
              preview_label := "Preview: 00:00";
              preview_job := None;
              shown := None;
              cache := Preview.empty unit |} |}.

End SliderSpec.
(** ** The batch list of the window *)

Module FilesSpec.
Import Gui.

(** The list box shows [self.input_list], and no file is listed twice. *)
Definition mirrored (f : Files) : Prop :=
  batch_list f = input_list f /\ NoDup (input_list f).

(** A selection of a list box of [n] items: indices in increasing order,
    each from [lo] on and below [n]. *)
Fixpoint increasing_from (lo : nat) (sel : list nat) (n : nat) : bool :=
  match sel with
  | [] => true
  | i :: sel' => (lo <=? i)%nat && (i <? n)%nat && increasing_from (S i) sel' n
  end.

Definition selection (sel : list nat) (n : nat) : Prop :=
  increasing_from 0 sel n = true.

(** The items at the indices not selected, [i] being the index of the
    first item. *)
Fixpoint unselected (i : nat) (sel : list nat) (l : list string) : list string :=
  match l with
  | [] => []
  | x :: l' =>
      if existsb (Nat.eqb i) sel then unselected (S i) sel l'
      else x :: unselected (S i) sel l'
  end.

(** One step of [_remove_selected]. *)
Definition remove_step (f : Files) (idx : nat) : Files :=
  let path := nth idx (batch_list f) EmptyString in
  {| input_path_var := input_path_var f;
     input_list :=
       if PyStr.mem path (input_list f) then remove_first path (input_list f)
       else input_list f;
     batch_list := delete_at idx (batch_list f) |}.

(** Three files listed. *)
Definition three_files : Files :=
  {| input_path_var := "/v/a.mp4";
     input_list := ["/v/a.mp4"; "/v/b.mkv"; "/v/c.mov"];
     batch_list := ["/v/a.mp4"; "/v/b.mkv"; "/v/c.mov"] |}.

End FilesSpec.
(** ** The order of a sorted batch list *)

Module SortSpec.
Import Gui.

(** [p] is not larger than [q], both sizes being readable. *)
Definition size_le (d : Desktop) (p q : string) : Prop :=
  match getsize d p, getsize d q with
  | Some a, Some b => (a <= b)%Z
  | _, _ => False
  end.

(** Under the comparison [key_ltb] of keys, [x] goes before [y]: [y] is
    not smaller. *)
Definition before (K : Type) (key_ltb : K -> K -> bool) (x y : K * string)
  : Prop :=
  key_ltb (fst y) (fst x) = false.

(** A desktop that knows the sizes of three files. *)
Definition sized_desktop : Desktop :=
  {| platform := "linux";
     which := fun _ => false;
     home := "/home/u";
     run_tool := fun _ => (1%Z, "");
     getmtime := fun _ => None;
     getsize := fun p =>
       if String.eqb p "/v/a.mp4" then Some 700%Z
       else if String.eqb p "/v/b.mkv" then Some 50%Z
       else if String.eqb p "/v/c.mov" then Some 300%Z
       else None |}.

End SortSpec.
(** ** The clock of a number of seconds *)

Module ClockSpec.
Import PyFloat PyNum.

(** A whole number of seconds as the labels show it: [MM:SS], from an
    hour on [HH:MM:SS]. *)
Definition clock (n : Z) : string :=
  let h := (n / 3600)%Z in
  let m := ((n mod 3600) / 60)%Z in
  let s := (n mod 60)%Z in
  if (0 <? h)%Z
  then (format_02d h ++ ":" ++ format_02d m ++ ":" ++ format_02d s)%string
  else (format_02d m ++ ":" ++ format_02d s)%string.

(** [_format_seconds] gives the clock of [n]. *)
Definition agrees (n : Z) : bool :=
  match _format_seconds (Some (of_Z n)) with
  | Some t => String.eqb t (clock n)
  | None => false
  end.

(** [agrees] on the [k] integers from [n] on. *)
Fixpoint all_from (k : nat) (n : Z) : bool :=
  match k with
  | O => true
  | S k' => agrees n && all_from k' (n + 1)
  end.

End ClockSpec.

(** ** A window with a file chosen *)

Module WindowScenarios.
Import Gui SliderSpec.

(** The fresh window with [clip.mp4] typed as the input. *)
Definition clip_window : Ui unit :=
  with_files unit fresh_window
    {| input_path_var := "clip.mp4"; input_list := []; batch_list := [] |}.

(** Every image file loads. *)
Definition any_image (path : string) : option unit := Some tt.

(** A desktop without dialog tools. *)
Definition bare_desktop : Desktop :=
  {| platform := "linux";
     which := fun _ => false;
     home := "/home/u";
     run_tool := fun _ => (1%Z, "");
     getmtime := fun _ => None;
     getsize := fun _ => None |}.

End WindowScenarios.

(** ** A desktop with a dialog tool *)

Module DesktopScenarios.
Import Gui.

(** A Linux desktop where [zenity] is installed and the user picks
    [/home/u/out]. *)
Definition zenity_desktop : Desktop :=
  {| platform := "linux";
     which := fun tool => String.eqb tool "zenity";
     home := "/home/u";
     run_tool := fun _ => (0%Z, "/home/u/out" ++ String "010" "")%string;
     getmtime := fun _ => None;
     getsize := fun _ => None |}.

End DesktopScenarios.

(** * Properties *)

(** ** The Python layer on known values *)

Module ModelChecks.
Import PyStr.

Example strip_both_ends : strip "  00:01:40.00 " = "00:01:40.00".
Proof. reflexivity. Qed.

Example split_time : split ":" "00:01:40.00" = ["00"; "01"; "40.00"].
Proof. reflexivity. Qed.

Example split_marker :
  split "Duration:" "  Duration: 00:01:40.00, start: 0.0"
  = ["  "; " 00:01:40.00, start: 0.0"].
Proof. reflexivity. Qed.

Example split_trailing_separator : split ":" "a:" = ["a"; ""].
Proof. reflexivity. Qed.

Example contains_marker : contains "time=" "frame=  10 time=00:00:01.00" = true.
Proof. reflexivity. Qed.

(** The literal [0.01] is [0x1.47ae147ae147bp-7]. *)
Example literal_0_01 :
  PyFloat.lit_0_01 = S754_finite false 5764607523034235 (-59).
Proof. vm_compute. reflexivity. Qed.

(** [float("0.1")] is [0x1.999999999999ap-4]. *)
Example float_of_tenth :
  PyFloat.of_string "0.1" = Some (S754_finite false 7205759403792794 (-56)).
Proof. vm_compute. reflexivity. Qed.

Example float_of_grouped_digits :
  PyFloat.of_string " 1_0.5e1 " = Some (PyFloat.of_Z 105).
Proof. vm_compute. reflexivity. Qed.

Example float_accepts :
  map PyFloat.of_string ["1."; ".5"; "-inf"; "Infinity"; "nAn"; "1e400"; "1e-400"]
  = [Some (PyFloat.of_Z 1); Some (S754_finite false 4503599627370496 (-53));
     Some (S754_infinity true); Some (S754_infinity false); Some S754_nan;
     Some (S754_infinity false); Some (S754_zero false)].
Proof. vm_compute. reflexivity. Qed.

Example float_rejects :
  map PyFloat.of_string
    [""; "."; "N/A"; "fast"; "1__0"; "1_"; "_1"; "1e"; "1 e5"; "+-1"; "1._5";
     "0x10"; "1:30"]
  = [None; None; None; None; None; None; None; None; None; None; None; None;
     None].
Proof. vm_compute. reflexivity. Qed.

(** Three decimals of the exact value, ties to even: 1.0005 and 0.0625 go
    down, a large float prints all its digits. *)
Example format_three_decimals :
  map (fun s => option_map PyFloat.format_3f (PyFloat.of_string s))
    ["0.01"; "1.0005"; "2.5"; "0.0625"; "1234567.8915"; "-0.0001"; "1e22";
     "0.9996"; "nan"; "-inf"]
  = [Some "0.010"; Some "1.000"; Some "2.500"; Some "0.062";
     Some "1234567.891"; Some "-0.000"; Some "10000000000000000000000.000";
     Some "1.000"; Some "nan"; Some "-inf"].
Proof. vm_compute. reflexivity. Qed.

Example path_functions :
  (PyPath.basename "/videos/a.b.mkv", PyPath.splitext_root "a.b.mkv",
   PyPath.splitext_root ".hidden", PyPath.join "/out" "clip.mp4",
   PyPath.join "/out/" "clip.mp4", PyPath.join "/out" "/abs.mp4")
  = ("a.b.mkv", "a.b", ".hidden", "/out/clip.mp4", "/out/clip.mp4", "/abs.mp4").
Proof. reflexivity. Qed.

Example quote_words :
  map PyPath.quote ["ffmpeg"; "a b.mkv"; ""; "/out/clip.mp4"]
  = ["ffmpeg"; "'a b.mkv'"; "''"; "/out/clip.mp4"].
Proof. reflexivity. Qed.

(** [_parse_time_to_seconds]: clock times, bare seconds, the empty string,
    and strings [float] rejects. *)
Example parse_times :
  map Tracker._parse_time_to_seconds
    ["00:01:40.00"; "1:40"; "12.5"; ""; "1:2:3:4"; "N/A"]
  = [Some (Some (PyFloat.of_Z 100)); Some (Some (PyFloat.of_Z 100));
     Some (PyFloat.of_string "12.5"); Some None; None; None].
Proof. vm_compute. reflexivity. Qed.

End ModelChecks.

(** ** Comparison of floats *)

Module FloatFacts.
Import PyFloat.

Lemma SFcompare_antisym (x y : float) :
  SFcompare y x = option_map CompOpp (SFcompare x y).
Proof.
  destruct x as [sx|sx| |sx mx ex], y as [sy|sy| |sy my ey]; simpl;
    try reflexivity;
    try (destruct sx; reflexivity);
    try (destruct sy; reflexivity);
    try (destruct sx, sy; reflexivity).
  destruct sx, sy; simpl; try reflexivity;
    rewrite (Z.compare_antisym ex ey);
    destruct (ex ?= ey)%Z; simpl; try reflexivity;
    rewrite (Pos.compare_cont_antisym mx my Eq); simpl;
    try rewrite CompOpp_involutive; reflexivity.
Qed.

(** [e <= s] excludes [e > s]. *)
Lemma leb_not_gtb (e s : float) : leb e s = true -> gtb e s = false.
Proof.
  unfold leb, gtb, ltb, SFleb, SFltb.
  rewrite (SFcompare_antisym e s).
  destruct (SFcompare e s) as [[ | | ]|]; simpl; congruence.
Qed.

(** [e > s] excludes [e <= s]. *)
Lemma gtb_not_leb (e s : float) : gtb e s = true -> leb e s = false.
Proof.
  intros H. destruct (leb e s) eqn:E; [|reflexivity].
  apply leb_not_gtb in E. congruence.
Qed.

End FloatFacts.

(** ** The command planner *)

Module PlannerFacts.
Import PyStr Engine PlannerSpec Scenarios.

(** *** The code against the specification *)

Lemma codec_nonempty (h : Host) (path c : string) :
  _get_video_codec h path = Some c -> is_empty c = false.
Proof.
  unfold _get_video_codec.
  destruct (ffprobe_codec h path) as [out|]; [|discriminate].
  destruct (is_empty (strip out)) eqn:E; [discriminate|].
  intros H. injection H as <-. exact E.
Qed.

Ltac planner_step :=
  cbn [bind find fst snd option_map andb orb negb List.length Nat.eqb app
       join String.concat String.append];
  try reflexivity.

(** [build_command] raises the error of the first failing check, and
    returns the planned arguments when none fails. *)
Lemma build_command_normal_form (h : Host) (values : Values)
    (in_path out_path : string) (encoders decoders : list string) :
  build_command h values in_path out_path encoders decoders
  = match first_failure (validation_checks h values in_path decoders) with
    | Some msg => ValueError msg
    | None =>
        Ok (input_args values in_path ++ encoding_args values encoders
            ++ [out_path])
    end.
Proof.
  unfold build_command, first_failure, validation_checks, input_args,
    encoding_args, needs_full_decode, stream_copy, gif_filter, end_bound.
  destruct (isfile h in_path); planner_step.
  destruct (is_empty (strip (format values))); planner_step.
  destruct (trim_enabled values); planner_step;
    [destruct (trim_start values) as [s|]; planner_step;
     destruct (trim_end values) as [e|]; planner_step;
     [destruct (PyFloat.gtb e s); planner_step|] |].
  all: destruct (fps_enabled values); planner_step.
  all: try (destruct (is_empty (strip (fps values))); planner_step;
            destruct (PyFloat.of_string (strip (fps values))); planner_step).
  all: destruct (_get_video_codec h in_path) as [c|] eqn:Ec;
    try (rewrite (codec_nonempty _ _ _ Ec)); planner_step.
  all: try (destruct (mem c decoders); planner_step).
  all: destruct (String.eqb (strip (format values)) "gif"); planner_step.
  all: try (destruct (mem (strip (format values)) ["mp4"; "mov"; "mkv"]);
            planner_step).
  all: destruct (mem (strip (format values)) ["mp4"; "mov"]); planner_step.
  all: repeat rewrite <- app_assoc; reflexivity.
Qed.

Lemma first_available_in (cands encoders : list string) (c : string) :
  first_available cands encoders = Some c -> In c cands.
Proof.
  unfold first_available. intros H. apply find_some in H. tauto.
Qed.

Ltac pick_cases :=
  repeat match goal with
         | |- context [first_available ?l ?e] =>
             let E := fresh "E" in
             destruct (first_available l e) eqn:E;
             [apply first_available_in in E|]
         | |- context [if ?b then _ else _] => destruct b
         end;
  intros H; try discriminate H; injection H as <-;
  unfold encoder_names; simpl in *; tauto.

Lemma pick_video_encoder_name (out_fmt : string) (encoders : list string) (c : string) :
  _pick_video_encoder out_fmt encoders = Some c -> In c encoder_names.
Proof. unfold _pick_video_encoder. pick_cases. Qed.

Lemma pick_audio_encoder_name (out_fmt : string) (encoders : list string) (c : string) :
  _pick_audio_encoder out_fmt encoders = Some c -> In c encoder_names.
Proof. unfold _pick_audio_encoder. pick_cases. Qed.

Lemma opt_flag_tokens (flag : string) (x : option string) (t : string) :
  In t (opt_flag flag x) -> t = flag \/ x = Some t.
Proof.
  unfold opt_flag. destruct x as [v|]; [|contradiction].
  destruct (is_empty v); [contradiction|].
  simpl. intros [<-|[<-|[]]]; auto.
Qed.

Lemma prefix_empty (s : string) : String.prefix "" s = true.
Proof. destruct s; reflexivity. Qed.

Ltac token_word :=
  first [ solve [left; unfold option_words; simpl; auto 20]
        | solve [right; right; simpl; apply prefix_empty] ].

Lemma encoding_args_tokens (values : Values) (encoders : list string) (t : string) :
  In t (encoding_args values encoders) ->
  In t option_words \/ In t encoder_names \/ String.prefix "fps=" t = true.
Proof.
  unfold encoding_args, gif_filter.
  destruct (String.eqb (strip (format values)) "gif").
  - simpl. intros [<-|[<-|[<-|[]]]]; token_word.
  - rewrite in_app_iff. intros [H|H].
    + destruct (stream_copy values).
      * simpl in H. destruct H as [<-|[<-|[]]]; token_word.
      * rewrite !in_app_iff in H. destruct H as [H|[H|H]].
        -- destruct (fps_enabled values); [|contradiction].
           simpl in H. destruct H as [<-|[<-|[]]]; token_word.
        -- apply opt_flag_tokens in H. destruct H as [->|H]; [token_word|].
           right; left. eapply pick_video_encoder_name; eassumption.
        -- apply opt_flag_tokens in H. destruct H as [->|H]; [token_word|].
           right; left. eapply pick_audio_encoder_name; eassumption.
    + destruct (mem (strip (format values)) ["mp4"; "mov"]); [|contradiction].
      simpl in H. destruct H as [<-|[<-|[]]]; token_word.
Qed.

(** The encoding policy never emits a seek or an end bound. *)
Lemma encoding_args_no_to (values : Values) (encoders : list string) :
  ~ In "-to" (encoding_args values encoders).
Proof.
  intros H. apply encoding_args_tokens in H.
  destruct H as [H|[H|H]]; [| |discriminate H];
    simpl in H; repeat (destruct H as [H|H]; [discriminate H|]); exact H.
Qed.

(** A request that passes validation with trim enabled has a start. *)
Lemma passes_trim_start (h : Host) (values : Values) (in_path : string)
    (decoders : list string) :
  first_failure (validation_checks h values in_path decoders) = None ->
  trim_enabled values = true ->
  exists s, trim_start values = Some s.
Proof.
  unfold first_failure, validation_checks. intros H Ht. rewrite Ht in H.
  cbn [find fst snd option_map andb] in H.
  destruct (negb (isfile h in_path)); [discriminate|].
  destruct (is_empty (strip (format values))); [discriminate|].
  destruct (trim_start values) as [s|]; [eauto|discriminate].
Qed.

(** A request that passes validation is planned as [input_args], the
    encoding policy, and the destination. *)
Lemma build_command_ok (h : Host) (values : Values) (in_path out_path : string)
    (encoders decoders : list string) (cmd : list string) :
  build_command h values in_path out_path encoders decoders = Ok cmd ->
  first_failure (validation_checks h values in_path decoders) = None
  /\ cmd = input_args values in_path ++ encoding_args values encoders ++ [out_path].
Proof.
  rewrite build_command_normal_form.
  destruct (first_failure _); [discriminate|].
  intros H. injection H as <-. split; reflexivity.
Qed.

(** C1. With trim and fps change disabled, an existing input and a target
    format among mp4, mov and mkv (hence not empty), [build_command]
    returns the input arguments followed by options that start with
    [-c copy] and hold none of [-c:v], [-c:a], [-filter:v], followed by the
    destination. *)
Theorem remux_selects_stream_copy (h : Host) (values : Values)
    (in_path out_path : string) (encoders decoders : list string) :
  isfile h in_path = true ->
  trim_enabled values = false ->
  fps_enabled values = false ->
  In (strip (format values)) ["mp4"; "mov"; "mkv"] ->
  exists opts,
    build_command h values in_path out_path encoders decoders
    = Ok (["ffmpeg"; "-y"; "-i"; in_path] ++ opts ++ [out_path])
    /\ (exists rest, opts = "-c" :: "copy" :: rest)
    /\ ~ In "-c:v" opts /\ ~ In "-c:a" opts /\ ~ In "-filter:v" opts.
Proof.
  intros Hfile Htrim Hfps Hfmt.
  rewrite build_command_normal_form.
  unfold first_failure, validation_checks, needs_full_decode, input_args,
    encoding_args, stream_copy.
  rewrite Hfile, Htrim, Hfps.
  destruct Hfmt as [E|[E|[E|[]]]]; rewrite <- E;
    cbn [find fst snd option_map negb andb orb is_empty String.eqb Ascii.eqb
         Bool.eqb mem existsb];
    destruct (_get_video_codec h in_path); cbn [find fst snd option_map andb];
    eexists; (split; [reflexivity|]);
    (split; [eexists; reflexivity|]);
    repeat split; simpl; intros H;
    repeat (destruct H as [H|H]; [discriminate H|]); exact H.
Qed.

Lemma remux_selects_stream_copy_witness :
  exists opts,
    build_command remux_host remux_values "in.mkv" "/out/clip.mp4" [] []
    = Ok (["ffmpeg"; "-y"; "-i"; "in.mkv"] ++ opts ++ ["/out/clip.mp4"])
    /\ (exists rest, opts = "-c" :: "copy" :: rest)
    /\ ~ In "-c:v" opts /\ ~ In "-c:a" opts /\ ~ In "-filter:v" opts.
Proof.
  apply (remux_selects_stream_copy remux_host remux_values "in.mkv"
           "/out/clip.mp4" [] []).
  - reflexivity.
  - reflexivity.
  - reflexivity.
  - simpl. left. reflexivity.
Defined.

(** When checks 1 to 4 pass, the decoder check alone decides. *)
Lemma first_failure_after_four (h : Host) (values : Values) (in_path : string)
    (decoders : list string) :
  isfile h in_path = true ->
  is_empty (strip (format values)) = false ->
  (trim_enabled values = true -> trim_start values <> None) ->
  (fps_enabled values = true ->
   is_empty (strip (fps values)) = false
   /\ PyFloat.of_string (strip (fps values)) <> None) ->
  first_failure (validation_checks h values in_path decoders)
  = match _get_video_codec h in_path with
    | Some codec =>
        if needs_full_decode values && negb (mem codec decoders)
        then Some (decode_error codec) else None
    | None => None
    end.
Proof.
  intros Hfile Hfmt Htrim Hfps.
  unfold first_failure, validation_checks. rewrite Hfile, Hfmt.
  cbn [find fst snd negb].
  assert (E3 : trim_enabled values
               && match trim_start values with None => true | Some _ => false end
               = false).
  { destruct (trim_enabled values); [|reflexivity].
    destruct (trim_start values); [reflexivity|].
    exfalso. apply Htrim; reflexivity. }
  assert (E4 : fps_enabled values && is_empty (strip (fps values)) = false).
  { destruct (fps_enabled values); [|reflexivity].
    destruct Hfps as [-> _]; reflexivity. }
  assert (E5 : fps_enabled values
               && match PyFloat.of_string (strip (fps values)) with
                  | None => true
                  | Some _ => false
                  end = false).
  { destruct (fps_enabled values); [|reflexivity].
    destruct Hfps as [_ Hnum]; [reflexivity|].
    destruct (PyFloat.of_string (strip (fps values))); [reflexivity|].
    exfalso. apply Hnum; reflexivity. }
  rewrite E3, E4, E5.
  destruct (_get_video_codec h in_path) as [codec|]; [|reflexivity].
  destruct (needs_full_decode values && negb (mem codec decoders)); reflexivity.
Qed.

(** C3. For a request that passes checks 1 to 4: when a full decode is
    needed (fps change, trim, or gif output) and the probed codec is known
    and absent from the decoders, [build_command] raises the error whose
    message quotes that codec; when the codec is unknown, or among the
    decoders, or no full decode is needed, a command is returned. *)
Theorem decoder_check_names_codec (h : Host) (values : Values)
    (in_path out_path : string) (encoders decoders : list string) :
  isfile h in_path = true ->
  is_empty (strip (format values)) = false ->
  (trim_enabled values = true -> trim_start values <> None) ->
  (fps_enabled values = true ->
   is_empty (strip (fps values)) = false
   /\ PyFloat.of_string (strip (fps values)) <> None) ->
  (forall codec,
      _get_video_codec h in_path = Some codec ->
      needs_full_decode values = true ->
      mem codec decoders = false ->
      build_command h values in_path out_path encoders decoders
      = ValueError
          ("Your FFmpeg build cannot decode '" ++ codec
           ++ "'. Install a full FFmpeg build or disable trim/FPS change."))
  /\ (_get_video_codec h in_path = None
      \/ (exists codec,
             _get_video_codec h in_path = Some codec
             /\ mem codec decoders = true)
      \/ needs_full_decode values = false ->
      exists cmd,
        build_command h values in_path out_path encoders decoders = Ok cmd).
Proof.
  intros Hfile Hfmt Htrim Hfps.
  pose proof (first_failure_after_four h values in_path decoders
                Hfile Hfmt Htrim Hfps) as E.
  split.
  - intros codec Hc Hneed Hmem.
    rewrite build_command_normal_form, E, Hc, Hneed, Hmem. reflexivity.
  - intros Hpass. rewrite build_command_normal_form, E.
    destruct Hpass as [Hc|[[codec [Hc Hmem]]|Hneed]].
    + rewrite Hc. eexists; reflexivity.
    + rewrite Hc, Hmem, andb_false_r. eexists; reflexivity.
    + rewrite Hneed. destruct (_get_video_codec h in_path); eexists; reflexivity.
Qed.

Lemma decoder_check_names_codec_witness :
  build_command h264_host fps30_values "in.mp4" "/out/clip.mp4"
    ["libx264"; "aac"] ["mpeg4"; "vp9"]
  = ValueError
      "Your FFmpeg build cannot decode 'h264'. Install a full FFmpeg build or disable trim/FPS change.".
Proof.
  refine (proj1 (decoder_check_names_codec h264_host fps30_values "in.mp4"
                   "/out/clip.mp4" ["libx264"; "aac"] ["mpeg4"; "vp9"]
                   _ _ _ _) "h264" _ _ _).
  - reflexivity.
  - reflexivity.
  - intros H; discriminate H.
  - intros _. split; [reflexivity|]. vm_compute. intros H; discriminate H.
  - reflexivity.
  - reflexivity.
  - reflexivity.
Defined.

(** C5. A trim-enabled request that passes validation has a start [s];
    the command begins [ffmpeg -y -ss <s to three decimals> -i <input>],
    then holds the end bound [-to <e to three decimals>] exactly when an
    end [e] is present with [e > s], and nothing after it is a [-to].  The
    bound is absent whenever [e <= s]. *)
Theorem trim_seeks_before_input (h : Host) (values : Values)
    (in_path out_path : string) (encoders decoders cmd : list string) :
  trim_enabled values = true ->
  build_command h values in_path out_path encoders decoders = Ok cmd ->
  exists s bound opts,
    trim_start values = Some s
    /\ cmd = ["ffmpeg"; "-y"; "-ss"; PyFloat.format_3f s; "-i"; in_path]
             ++ bound ++ opts ++ [out_path]
    /\ ~ In "-to" opts
    /\ ((exists e, trim_end values = Some e /\ PyFloat.gtb e s = true
                   /\ bound = ["-to"; PyFloat.format_3f e])
        \/ (bound = []
            /\ forall e, trim_end values = Some e -> PyFloat.gtb e s = false))
    /\ (forall e, trim_end values = Some e -> PyFloat.leb e s = true ->
                  bound = []).
Proof.
  intros Htrim Hok.
  apply build_command_ok in Hok. destruct Hok as [Hpass ->].
  destruct (passes_trim_start _ _ _ _ Hpass Htrim) as [s Hs].
  exists s, (end_bound s (trim_end values)), (encoding_args values encoders).
  split; [exact Hs|].
  split; [unfold input_args; rewrite Htrim, Hs, <- app_assoc; reflexivity|].
  split; [apply encoding_args_no_to|].
  unfold end_bound. split.
  - destruct (trim_end values) as [e|].
    + destruct (PyFloat.gtb e s) eqn:Egt.
      * left. exists e. auto.
      * right. split; [reflexivity|]. intros e' He'. injection He' as <-. exact Egt.
    + right. split; [reflexivity|]. intros e' He'. discriminate He'.
  - intros e He Hle. rewrite He.
    rewrite (FloatFacts.leb_not_gtb e s Hle). reflexivity.
Qed.

Lemma trim_seeks_before_input_witness :
  exists s bound opts,
    trim_start trim_values = Some s
    /\ ["ffmpeg"; "-y"; "-ss"; "1.500"; "-i"; "in.mp4"; "-to"; "7.250";
        "-c:v"; "libx264"; "-c:a"; "aac"; "/out/clip.mkv"]
       = ["ffmpeg"; "-y"; "-ss"; PyFloat.format_3f s; "-i"; "in.mp4"]
         ++ bound ++ opts ++ ["/out/clip.mkv"]
    /\ ~ In "-to" opts
    /\ ((exists e, trim_end trim_values = Some e /\ PyFloat.gtb e s = true
                   /\ bound = ["-to"; PyFloat.format_3f e])
        \/ (bound = []
            /\ forall e, trim_end trim_values = Some e ->
                         PyFloat.gtb e s = false))
    /\ (forall e, trim_end trim_values = Some e -> PyFloat.leb e s = true ->
                  bound = []).
Proof.
  apply (trim_seeks_before_input h264_host trim_values "in.mp4" "/out/clip.mkv"
           ["libx264"; "aac"] ["h264"]).
  - reflexivity.
  - vm_compute. reflexivity.
Defined.

(** C6. [build_command] raises the error of the first failing check of
    [validation_checks] (input exists, format not empty, trim start
    present, target fps present and numeric, decoder available) and no
    other, and returns a command when no check fails.  In particular an
    fps-enabled request with a non-numeric target that passes checks 1 to
    3 is refused with one of the two errors of check 4. *)
Theorem validation_first_failure_wins (h : Host) (values : Values)
    (in_path out_path : string) (encoders decoders : list string) :
  build_command h values in_path out_path encoders decoders
  = match first_failure (validation_checks h values in_path decoders) with
    | Some msg => ValueError msg
    | None =>
        Ok (input_args values in_path ++ encoding_args values encoders
            ++ [out_path])
    end
  /\ (isfile h in_path = true ->
      is_empty (strip (format values)) = false ->
      (trim_enabled values = true -> trim_start values <> None) ->
      fps_enabled values = true ->
      PyFloat.of_string (strip (fps values)) = None ->
      build_command h values in_path out_path encoders decoders
      = ValueError
          (if is_empty (strip (fps values))
           then "Target FPS is required when FPS change is enabled."
           else "Target FPS must be a number.")).
Proof.
  split; [apply build_command_normal_form|].
  intros Hfile Hfmt Htrim Hfps Hnum.
  rewrite build_command_normal_form.
  unfold first_failure, validation_checks.
  rewrite Hfile, Hfmt, Hfps, Hnum. cbn [find fst snd negb andb].
  replace (trim_enabled values
           && match trim_start values with None => true | Some _ => false end)
    with false.
  - destruct (is_empty (strip (fps values))); reflexivity.
  - destruct (trim_enabled values); [|reflexivity].
    destruct (trim_start values); [reflexivity|].
    exfalso. apply Htrim; reflexivity.
Qed.

Lemma validation_first_failure_wins_witness :
  build_command h264_host fps_fast_values "in.mp4" "/out/clip.mp4" [] []
  = ValueError "Target FPS must be a number.".
Proof.
  refine (proj2 (validation_first_failure_wins h264_host fps_fast_values
                   "in.mp4" "/out/clip.mp4" [] []) _ _ _ _ _).
  - reflexivity.
  - reflexivity.
  - intros H; discriminate H.
  - reflexivity.
  - reflexivity.
Defined.

(** C8. A gif request that passes validation is planned as the input
    arguments, then [-vf fps=<F>,scale=640:-1:flags=lanczos -an] with [F]
    the stripped target fps when fps change is enabled and [10] otherwise,
    then the destination; these options hold no [-c:a]. *)
Theorem gif_filter_chain_and_no_audio (h : Host) (values : Values)
    (in_path out_path : string) (encoders decoders cmd : list string) :
  strip (format values) = "gif" ->
  build_command h values in_path out_path encoders decoders = Ok cmd ->
  exists opts,
    cmd = input_args values in_path ++ opts ++ [out_path]
    /\ opts = ["-vf";
               ("fps=" ++ (if fps_enabled values then strip (fps values) else "10")
                ++ ",scale=640:-1:flags=lanczos")%string;
               "-an"]
    /\ ~ In "-c:a" opts.
Proof.
  intros Hgif Hok.
  apply build_command_ok in Hok. destruct Hok as [_ ->].
  exists (encoding_args values encoders).
  assert (E : encoding_args values encoders
              = ["-vf"; gif_filter values; "-an"])
    by (unfold encoding_args; rewrite Hgif; reflexivity).
  split; [reflexivity|]. split; [exact E|].
  rewrite E. unfold gif_filter. simpl.
  intros [H|[H|[H|[]]]]; discriminate H.
Qed.

Lemma gif_filter_chain_and_no_audio_witness :
  exists opts,
    ["ffmpeg"; "-y"; "-i"; "in.mp4"; "-vf";
     "fps=10,scale=640:-1:flags=lanczos"; "-an"; "/out/clip.gif"]
    = input_args gif_values "in.mp4" ++ opts ++ ["/out/clip.gif"]
    /\ opts = ["-vf";
               ("fps="
                ++ (if fps_enabled gif_values then strip (fps gif_values)
                    else "10")
                ++ ",scale=640:-1:flags=lanczos")%string;
               "-an"]
    /\ ~ In "-c:a" opts.
Proof.
  apply (gif_filter_chain_and_no_audio h264_host gif_values "in.mp4"
           "/out/clip.gif" ["libx264"; "aac"] ["h264"]).
  - reflexivity.
  - reflexivity.
Defined.

End PlannerFacts.

(** ** The progress tracker *)

Module TrackerFacts.
Import PyStr Tracker Scenarios.

(** The token of [duration_na] is not a time: [float] rejects it. *)
Example duration_na_token :
  token_after "Duration:" "," duration_na = Some "N/A"
  /\ _parse_time_to_seconds "N/A" = None.
Proof. split; reflexivity. Qed.

(** C2, as stated, fails: a malformed duration token does not leave the
    state unchanged, the known total is forgotten. *)
Lemma malformed_duration_changes_state :
  ~ (forall (st : Progress) (line tok : string),
        contains "Duration:" line = true ->
        token_after "Duration:" "," line = Some tok ->
        _parse_time_to_seconds tok = None ->
        _set_progress_from_line st line = st).
Proof.
  intros H.
  specialize (H halfway duration_na "N/A" eq_refl eq_refl eq_refl).
  apply (f_equal total_duration) in H.
  vm_compute in H. discriminate H.
Qed.

(** C2, amended.  When a line announces a duration whose token does not
    parse to a number of seconds ([float] raises, or the token is empty),
    the total duration becomes unknown and the progress value keeps its
    prior value. *)
Theorem malformed_duration_resets_total (st : Progress) (line tok : string) :
  contains "Duration:" line = true ->
  token_after "Duration:" "," line = Some tok ->
  (forall v, _parse_time_to_seconds tok <> Some (Some v)) ->
  _set_progress_from_line st line
  = {| total_duration := None; progress_value := progress_value st |}.
Proof.
  intros Hin Htok Hbad. unfold _set_progress_from_line.
  rewrite Hin, Htok.
  assert (E : match _parse_time_to_seconds tok with
              | Some r => r
              | None => None
              end = None).
  { destruct (_parse_time_to_seconds tok) as [[v|]|]; try reflexivity.
    exfalso. apply (Hbad v). reflexivity. }
  rewrite E. cbn [total_duration known].
  rewrite andb_false_r. reflexivity.
Qed.

Lemma malformed_duration_resets_total_witness :
  _set_progress_from_line halfway duration_na
  = {| total_duration := None; progress_value := PyFloat.of_Z 50 |}.
Proof.
  apply (malformed_duration_resets_total halfway duration_na "N/A").
  - reflexivity.
  - reflexivity.
  - intros v H. vm_compute in H. discriminate H.
Defined.

(** The scenario of the specification: a total of 1 min 40 s, then time
    markers at 50 s, 60 s and 100 s give 50, 60 and 100 percent. *)
Example progress_percentages :
  let st0 := {| total_duration := None; progress_value := PyFloat.of_Z 0 |} in
  let st1 := _set_progress_from_line st0 "  Duration: 00:01:40.00, start: 0.000000" in
  let st2 := _set_progress_from_line st1 "frame=  1 time=00:00:50.00 bitrate=1" in
  let st3 := _set_progress_from_line st2 "frame=  2 time=00:01:00.00 bitrate=1" in
  let st4 := _set_progress_from_line st3 "frame=  3 time=00:01:40.00 bitrate=1" in
  map progress_value [st2; st3; st4]
  = [PyFloat.of_Z 50; PyFloat.of_Z 60; PyFloat.of_Z 100].
Proof. vm_compute. reflexivity. Qed.

End TrackerFacts.

(** ** The batch worker *)

Module BatchFacts.
Import PyStr Engine Batch PlannerSpec Trace Scenarios PlannerFacts.

Section Run.

Variable h : Host.
Variable app : App.

Lemma run_ffmpeg_code (cmd : list string) (on_line : option (string -> event)) :
  snd (run_ffmpeg h cmd on_line) = snd (ffmpeg h cmd).
Proof. unfold run_ffmpeg. destruct (ffmpeg h cmd); reflexivity. Qed.

Lemma run_ffmpeg_said (cmd : list string) :
  iterations (fst (run_ffmpeg h cmd (Some AppendLog))) = []
  /\ spawned (fst (run_ffmpeg h cmd (Some AppendLog))) = [cmd]
  /\ messages (fst (run_ffmpeg h cmd (Some AppendLog))) = [].
Proof.
  unfold run_ffmpeg. destruct (ffmpeg h cmd) as [lines code]. cbn [fst].
  assert (Hlines : forall l : list string,
             iterations (flat_map (fun line => [AppendLog line]) l) = []
             /\ spawned (flat_map (fun line => [AppendLog line]) l) = []
             /\ messages (flat_map (fun line => [AppendLog line]) l) = []).
  { induction l as [|x l IH]; [repeat split|]. simpl. exact IH. }
  destruct (Hlines lines) as (H1 & H2 & H3).
  unfold iterations, spawned, messages in *. simpl.
  rewrite H1, H2, H3. repeat split.
Qed.

(** The three ways one iteration goes. *)
Lemma worker_planning_fails (values : Values) (x msg : string) (rest : list string) :
  worker_try h app values x = ValueError msg ->
  worker h app values (x :: rest)
  = [Iteration x; UiMessage "error" "Input error" msg].
Proof. intros H. simpl. rewrite H. reflexivity. Qed.

Lemma worker_process_fails (values values1 : Values) (x : string)
    (cmd rest : list string) :
  worker_try h app values x = Ok (values1, cmd) ->
  snd (ffmpeg h cmd) <> 0%Z ->
  worker h app values (x :: rest) = item_events h x cmd ++ [ffmpeg_failed].
Proof.
  intros H Hcode. simpl. rewrite H. unfold item_events.
  rewrite <- (run_ffmpeg_code cmd (Some AppendLog)) in Hcode.
  destruct (run_ffmpeg h cmd (Some AppendLog)) as [said code]. simpl in *.
  apply Z.eqb_neq in Hcode. rewrite Hcode. reflexivity.
Qed.

Lemma worker_process_succeeds (values values1 : Values) (x : string)
    (cmd rest : list string) :
  worker_try h app values x = Ok (values1, cmd) ->
  snd (ffmpeg h cmd) = 0%Z ->
  worker h app values (x :: rest)
  = item_events h x cmd ++ worker h app values1 rest.
Proof.
  intros H Hcode. simpl. rewrite H. unfold item_events.
  rewrite <- (run_ffmpeg_code cmd (Some AppendLog)) in Hcode.
  destruct (run_ffmpeg h cmd (Some AppendLog)) as [said code]. simpl in *.
  rewrite Hcode. reflexivity.
Qed.

(** After a prefix of inputs that all succeed, the worker goes on with the
    rest from the dict they left. *)
Lemma worker_after_successes (values values' : Values) (pre : list string)
    (tr : list event) (rest : list string) :
  all_succeed h app values pre tr values' ->
  worker h app values (pre ++ rest) = tr ++ worker h app values' rest.
Proof.
  induction 1 as [values|values values1 values2 x cmd pre tr Htry Hcode _ IH].
  - reflexivity.
  - rewrite <- app_comm_cons.
    rewrite (worker_process_succeeds _ _ _ _ _ Htry Hcode), IH.
    rewrite app_assoc. reflexivity.
Qed.

Lemma iterations_app (a b : list event) :
  iterations (a ++ b) = iterations a ++ iterations b.
Proof. apply flat_map_app. Qed.

Lemma spawned_app (a b : list event) : spawned (a ++ b) = spawned a ++ spawned b.
Proof. apply flat_map_app. Qed.

Lemma messages_app (a b : list event) : messages (a ++ b) = messages a ++ messages b.
Proof. apply filter_app. Qed.

Lemma item_events_shown (x : string) (cmd : list string) :
  iterations (item_events h x cmd) = [x]
  /\ spawned (item_events h x cmd) = [cmd]
  /\ messages (item_events h x cmd) = [].
Proof.
  destruct (run_ffmpeg_said cmd) as (H1 & H2 & H3).
  unfold item_events, iterations, spawned, messages in *. simpl.
  rewrite H1, H2, H3. repeat split.
Qed.

(** The trace of inputs that all succeed enters each input once, in
    order, starts one process per input, each of which returns 0, and
    shows no message. *)
Lemma all_succeed_shown (values values' : Values) (pre : list string)
    (tr : list event) :
  all_succeed h app values pre tr values' ->
  iterations tr = pre
  /\ List.length (spawned tr) = List.length pre
  /\ Forall (fun cmd => snd (ffmpeg h cmd) = 0%Z) (spawned tr)
  /\ messages tr = [].
Proof.
  induction 1 as [values|values values1 values2 x cmd pre tr Htry Hcode _ IH].
  - repeat split. constructor.
  - destruct IH as (I1 & I2 & I3 & I4).
    destruct (item_events_shown x cmd) as (H1 & H2 & H3).
    rewrite iterations_app, spawned_app, messages_app, H1, H2, H3, I1, I4.
    simpl. rewrite I2. repeat split. constructor; assumption.
Qed.

(** A run that reports success was a run of successes. *)
Lemma done_only_after_successes (inputs : list string) :
  forall values,
    In done_message (worker h app values inputs) ->
    exists tr values',
      all_succeed h app values inputs tr values'
      /\ worker h app values inputs = tr ++ [done_message].
Proof.
  induction inputs as [|x rest IH]; intros values Hdone.
  - exists [], values. split; [constructor|reflexivity].
  - destruct (worker_try h app values x) as [[values1 cmd]|msg] eqn:Htry.
    + destruct (Z.eq_dec (snd (ffmpeg h cmd)) 0) as [Hcode|Hcode].
      * rewrite (worker_process_succeeds _ _ _ _ rest Htry Hcode) in Hdone |- *.
        apply in_app_or in Hdone. destruct Hdone as [Hdone|Hdone].
        -- exfalso.
           assert (Hm : In done_message (messages (item_events h x cmd)))
             by (apply filter_In; split; [exact Hdone|reflexivity]).
           destruct (item_events_shown x cmd) as (_ & _ & H3).
           rewrite H3 in Hm. exact Hm.
        -- destruct (IH values1 Hdone) as (tr & values' & Hall & Eq).
           exists (item_events h x cmd ++ tr), values'. split.
           ++ econstructor; eassumption.
           ++ rewrite Eq, app_assoc. reflexivity.
      * exfalso.
        rewrite (worker_process_fails _ _ _ _ rest Htry Hcode) in Hdone.
        apply in_app_or in Hdone. destruct Hdone as [Hdone|Hdone].
        -- assert (Hm : In done_message (messages (item_events h x cmd)))
             by (apply filter_In; split; [exact Hdone|reflexivity]).
           destruct (item_events_shown x cmd) as (_ & _ & H3).
           rewrite H3 in Hm. exact Hm.
        -- destruct Hdone as [Hdone|[]]. discriminate Hdone.
    + exfalso. rewrite (worker_planning_fails _ _ _ rest Htry) in Hdone.
      destruct Hdone as [Hdone|[Hdone|[]]]; discriminate Hdone.
Qed.

(** [_run] starts the worker on the input list, or on the single input. *)
Lemma run_starts_worker :
  (self_input_list app <> [] ->
   _run h app = worker h app (values_of app) (self_input_list app))
  /\ (self_input_list app = [] ->
      is_empty (strip (self_input_path app)) = false ->
      _run h app = worker h app (values_of app) [strip (self_input_path app)]).
Proof.
  unfold _run, values_of. cbn [input_path]. split.
  - intros Hne. destruct (self_input_list app); [contradiction|reflexivity].
  - intros -> ->. reflexivity.
Qed.

(** C4. The worker takes the inputs in order and stops at the first
    failure: after inputs that all succeeded, an input whose planning
    raises ends the trace with its single error message, and an input
    whose process returns a non-zero code ends it with the engine error,
    whatever inputs follow.  A trace that reports success entered every
    input and started one process per input, each returning 0.  For three
    inputs of which the second fails validation, the loop body is entered
    for the first two only, the first command alone is started, and the
    one message shown is the error of the second. *)
Theorem batch_stops_at_first_failure :
  (forall values pre tr values' x msg rest,
      all_succeed h app values pre tr values' ->
      worker_try h app values' x = ValueError msg ->
      worker h app values (pre ++ x :: rest)
      = tr ++ [Iteration x; UiMessage "error" "Input error" msg])
  /\ (forall values pre tr values' x values'' cmd rest,
         all_succeed h app values pre tr values' ->
         worker_try h app values' x = Ok (values'', cmd) ->
         snd (ffmpeg h cmd) <> 0%Z ->
         worker h app values (pre ++ x :: rest)
         = tr ++ item_events h x cmd ++ [ffmpeg_failed])
  /\ (forall values inputs,
         In done_message (worker h app values inputs) ->
         iterations (worker h app values inputs) = inputs
         /\ List.length (spawned (worker h app values inputs))
            = List.length inputs
         /\ Forall (fun cmd => snd (ffmpeg h cmd) = 0%Z)
              (spawned (worker h app values inputs)))
  /\ (forall values a b c values1 cmd_a msg,
         worker_try h app values a = Ok (values1, cmd_a) ->
         snd (ffmpeg h cmd_a) = 0%Z ->
         worker_try h app values1 b = ValueError msg ->
         iterations (worker h app values [a; b; c]) = [a; b]
         /\ spawned (worker h app values [a; b; c]) = [cmd_a]
         /\ messages (worker h app values [a; b; c])
            = [UiMessage "error" "Input error" msg]).
Proof.
  split; [|split; [|split]].
  - intros values pre tr values' x msg rest Hall Htry.
    rewrite (worker_after_successes _ _ _ _ _ Hall).
    rewrite (worker_planning_fails _ _ _ _ Htry). reflexivity.
  - intros values pre tr values' x values'' cmd rest Hall Htry Hcode.
    rewrite (worker_after_successes _ _ _ _ _ Hall).
    rewrite (worker_process_fails _ _ _ _ _ Htry Hcode). reflexivity.
  - intros values inputs Hdone.
    destruct (done_only_after_successes inputs values Hdone)
      as (tr & values' & Hall & ->).
    destruct (all_succeed_shown _ _ _ _ Hall) as (I1 & I2 & I3 & _).
    rewrite iterations_app, spawned_app, I1. simpl.
    rewrite !app_nil_r. auto.
  - intros values a b c values1 cmd_a msg Ha Hcode Hb.
    rewrite (worker_process_succeeds _ _ _ _ _ Ha Hcode).
    rewrite (worker_planning_fails _ _ _ _ Hb).
    destruct (item_events_shown a cmd_a) as (H1 & H2 & H3).
    rewrite iterations_app, spawned_app, messages_app, H1, H2, H3.
    repeat split.
Qed.

(** What the body of the [try] returns was planned from the dict it
    returns, and that dict is the sanitized one. *)
Lemma worker_try_ok (values values' : Values) (x : string) (cmd : list string) :
  worker_try h app values x = Ok (values', cmd) ->
  sanitize_trim h app values x = Ok values'
  /\ exists out_path,
      _build_output_path h app x values' = Ok out_path
      /\ build_command h values' x out_path (self_encoders app)
           (self_decoders app) = Ok cmd.
Proof.
  unfold worker_try.
  destruct (sanitize_trim h app values x) as [v1|]; [|discriminate].
  cbn [bind].
  destruct (_build_output_path h app x v1) as [out_path|] eqn:Eout;
    [|discriminate].
  cbn [bind].
  destruct (build_command h v1 x out_path _ _) as [cmd'|] eqn:E; [|discriminate].
  cbn [bind]. intros H. injection H as <- <-.
  split; [reflexivity|]. exists out_path. split; [exact Eout|exact E].
Qed.

(** C9, amended.  For a trim-enabled input whose planning succeeds, the
    command is planned from the dict in which the start is the slider's
    and the end is the slider's or dropped.  The end is dropped when the
    probed duration is known and not zero and the end is at least the
    duration minus 0.01, and when the end is at most the start plus
    0.01.  Once the end is dropped, and also whenever the end is at most
    the start, the command holds no [-to]. *)
Theorem trim_end_resanitized (values values' : Values) (x : string)
    (cmd : list string) :
  trim_enabled values = true ->
  worker_try h app values x = Ok (values', cmd) ->
  (exists out_path,
      build_command h values' x out_path (self_encoders app)
        (self_decoders app) = Ok cmd)
  /\ trim_start values' = Some (self_trim_start_sec app)
  /\ (trim_end values' = None
      \/ trim_end values' = Some (self_trim_end_sec app))
  /\ (forall d,
         _get_duration_seconds h x = Some d ->
         PyFloat.truthy d = true ->
         PyFloat.geb (self_trim_end_sec app) (PyFloat.sub d PyFloat.lit_0_01)
         = true ->
         trim_end values' = None)
  /\ (PyFloat.leb (self_trim_end_sec app)
        (PyFloat.add (self_trim_start_sec app) PyFloat.lit_0_01) = true ->
      trim_end values' = None)
  /\ (trim_end values' = None
      \/ PyFloat.leb (self_trim_end_sec app) (self_trim_start_sec app) = true ->
      exists opts out_path,
        cmd = ["ffmpeg"; "-y"; "-ss";
               PyFloat.format_3f (self_trim_start_sec app); "-i"; x]
              ++ opts ++ [out_path]
        /\ ~ In "-to" opts).
Proof.
  intros Htrim Htry.
  destruct (worker_try_ok _ _ _ _ Htry) as (Hsan & out_path & _ & Hcmd).
  unfold sanitize_trim in Hsan. rewrite Htrim in Hsan.
  set (start := self_trim_start_sec app) in *.
  set (e := self_trim_end_sec app) in *.
  destruct (match _get_duration_seconds h x with
            | Some d => PyFloat.truthy d && PyFloat.geb start d
            | None => false
            end); [discriminate|].
  injection Hsan as <-. cbn [trim_start trim_end set_trim].
  split; [exists out_path; exact Hcmd|].
  split; [reflexivity|].
  (* the end after both tests *)
  set (e1 := match _get_duration_seconds h x with
             | Some d =>
                 if PyFloat.truthy d
                    && PyFloat.geb e (PyFloat.sub d PyFloat.lit_0_01)
                 then None else Some e
             | None => Some e
             end) in *.
  set (e2 := match e1 with
             | Some e0 =>
                 if PyFloat.leb e0 (PyFloat.add start PyFloat.lit_0_01)
                 then None else e1
             | None => None
             end) in *.
  assert (He1 : e1 = None \/ e1 = Some e)
    by (unfold e1; destruct (_get_duration_seconds h x) as [d|];
        [destruct (_ && _)|]; auto).
  assert (He2 : e2 = None \/ e2 = Some e)
    by (unfold e2; destruct He1 as [->| ->]; [|destruct (PyFloat.leb _ _)];
        auto).
  split; [exact He2|].
  split; [|split].
  - intros d Hd Ht Hge. unfold e2, e1. rewrite Hd, Ht, Hge. reflexivity.
  - intros Hle. unfold e2. destruct He1 as [->| ->]; [reflexivity|].
    rewrite Hle. reflexivity.
  - intros Hdrop.
    apply build_command_ok in Hcmd. destruct Hcmd as [_ ->].
    exists (encoding_args (set_trim values (Some start) e2) (self_encoders app)),
      out_path.
    split; [|apply encoding_args_no_to].
    unfold input_args. cbn [trim_enabled trim_start trim_end set_trim].
    rewrite Htrim.
    assert (Hb : end_bound start e2 = []).
    { unfold end_bound. destruct He2 as [->| ->]; [reflexivity|].
      destruct Hdrop as [Hdrop|Hle]; [discriminate Hdrop|].
      rewrite (FloatFacts.leb_not_gtb _ _ Hle). reflexivity. }
    rewrite Hb. reflexivity.
Qed.

(** C10, amended.  After inputs that all succeeded, a trim-enabled input
    whose probed duration is known and not zero and whose start is at least
    that duration ends the trace with the error about the trim start; no
    process is started for it or for the inputs after it. *)
Theorem trim_start_beyond_duration_aborts (values values' : Values)
    (pre : list string) (tr : list event) (x : string) (d : PyFloat.float)
    (rest : list string) :
  all_succeed h app values pre tr values' ->
  trim_enabled values' = true ->
  _get_duration_seconds h x = Some d ->
  PyFloat.truthy d = true ->
  PyFloat.geb (self_trim_start_sec app) d = true ->
  worker h app values (pre ++ x :: rest)
  = tr ++ [Iteration x;
           UiMessage "error" "Input error"
             "Trim start must be within the video duration."]
  /\ spawned (worker h app values (pre ++ x :: rest)) = spawned tr
  /\ List.length (spawned (worker h app values (pre ++ x :: rest)))
     = List.length pre.
Proof.
  intros Hall Htrim Hd Ht Hge.
  assert (Htry : worker_try h app values' x
                 = ValueError "Trim start must be within the video duration.").
  { unfold worker_try, sanitize_trim. rewrite Htrim, Hd, Ht, Hge. reflexivity. }
  rewrite (worker_after_successes _ _ _ _ _ Hall).
  rewrite (worker_planning_fails _ _ _ _ Htry).
  destruct (all_succeed_shown _ _ _ _ Hall) as (_ & I2 & _).
  rewrite spawned_app. simpl. rewrite app_nil_r. auto.
Qed.

End Run.

(** *** Concrete runs *)

Lemma batch_stops_at_first_failure_witness :
  iterations (worker batch_host batch_app (values_of batch_app)
                ["a.mp4"; "b.mp4"; "c.mp4"]) = ["a.mp4"; "b.mp4"]
  /\ spawned (worker batch_host batch_app (values_of batch_app)
                ["a.mp4"; "b.mp4"; "c.mp4"])
     = [["ffmpeg"; "-y"; "-i"; "a.mp4"; "-c"; "copy"; "/out/a.mkv"]]
  /\ messages (worker batch_host batch_app (values_of batch_app)
                 ["a.mp4"; "b.mp4"; "c.mp4"])
     = [UiMessage "error" "Input error" "Input file does not exist."].
Proof.
  refine (proj2 (proj2 (proj2 (batch_stops_at_first_failure batch_host batch_app)))
            (values_of batch_app) "a.mp4" "b.mp4" "c.mp4"
            (values_of batch_app)
            ["ffmpeg"; "-y"; "-i"; "a.mp4"; "-c"; "copy"; "/out/a.mkv"]
            "Input file does not exist." _ _ _).
  - vm_compute. reflexivity.
  - reflexivity.
  - vm_compute. reflexivity.
Defined.

(** The same run through [_run]. *)
Example run_three_inputs :
  _run batch_host batch_app
  = [Iteration "a.mp4"; SetProgress (PyFloat.of_Z 0);
     AppendLog (nl ++ "$ ffmpeg -y -i a.mp4 -c copy /out/a.mkv" ++ nl);
     Popen ["ffmpeg"; "-y"; "-i"; "a.mp4"; "-c"; "copy"; "/out/a.mkv"];
     AppendLog "Duration: 00:00:10.00, start: 0.000000";
     Iteration "b.mp4";
     UiMessage "error" "Input error" "Input file does not exist."].
Proof. vm_compute. reflexivity. Qed.

Lemma trim_end_resanitized_witness :
  exists values' cmd,
    worker_try (host_of_duration "10.000000") (trim_app "1.5" "10")
      (values_of (trim_app "1.5" "10")) "a.mp4" = Ok (values', cmd)
    /\ trim_end values' = None
    /\ cmd = ["ffmpeg"; "-y"; "-ss"; "1.500"; "-i"; "a.mp4"; "-c:v"; "libx264";
              "-c:a"; "aac"; "/out/clip.mkv"].
Proof.
  eexists. eexists. split; [vm_compute; reflexivity|].
  split; [|reflexivity].
  refine (proj1 (proj2 (proj2 (proj2
            (trim_end_resanitized (host_of_duration "10.000000")
               (trim_app "1.5" "10") (values_of (trim_app "1.5" "10"))
               _ "a.mp4" _ _ _))))
            (PyFloat.of_Z 10) _ _ _).
  - reflexivity.
  - vm_compute. reflexivity.
  - vm_compute. reflexivity.
  - reflexivity.
  - reflexivity.
Defined.

(** C9, as stated, fails when the probe answers a duration of zero: the
    end slider at 5 s is beyond that duration, yet the end is kept and the
    command bounds the clip with [-to 5.000]. *)
Lemma zero_duration_keeps_trim_end :
  trim_enabled (values_of (trim_app "0" "5")) = true
  /\ _get_duration_seconds (host_of_duration "0.000000") "a.mp4"
     = Some (PyFloat.of_Z 0)
  /\ PyFloat.geb (self_trim_end_sec (trim_app "0" "5"))
       (PyFloat.sub (PyFloat.of_Z 0) PyFloat.lit_0_01) = true
  /\ (exists values',
         sanitize_trim (host_of_duration "0.000000") (trim_app "0" "5")
           (values_of (trim_app "0" "5")) "a.mp4" = Ok values'
         /\ trim_end values' = Some (PyFloat.of_Z 5))
  /\ spawned (_run (host_of_duration "0.000000") (trim_app "0" "5"))
     = [["ffmpeg"; "-y"; "-ss"; "0.000"; "-i"; "a.mp4"; "-to"; "5.000";
         "-c:v"; "libx264"; "-c:a"; "aac"; "/out/clip.mkv"]].
Proof.
  split; [reflexivity|]. split; [vm_compute; reflexivity|].
  split; [vm_compute; reflexivity|].
  split; [eexists; split; vm_compute; reflexivity|].
  vm_compute. reflexivity.
Qed.

Lemma trim_start_beyond_duration_aborts_witness :
  worker (host_of_duration "10.000000") (trim_app "12" "15")
    (values_of (trim_app "12" "15")) (["a.mp4"] ++ ["b.mp4"])
  = [Iteration "a.mp4";
     UiMessage "error" "Input error"
       "Trim start must be within the video duration."]
  /\ spawned (worker (host_of_duration "10.000000") (trim_app "12" "15")
                (values_of (trim_app "12" "15")) (["a.mp4"] ++ ["b.mp4"]))
     = []
  /\ List.length
       (spawned (worker (host_of_duration "10.000000") (trim_app "12" "15")
                   (values_of (trim_app "12" "15")) (["a.mp4"] ++ ["b.mp4"])))
     = 0%nat.
Proof.
  refine (trim_start_beyond_duration_aborts (host_of_duration "10.000000")
            (trim_app "12" "15") (values_of (trim_app "12" "15"))
            (values_of (trim_app "12" "15")) [] [] "a.mp4" (PyFloat.of_Z 10)
            ["b.mp4"] _ _ _ _ _).
  - constructor.
  - reflexivity.
  - vm_compute. reflexivity.
  - reflexivity.
  - vm_compute. reflexivity.
Defined.

(** C10, as stated, fails when the probe answers a duration of zero: the
    start slider at 0 s is at least that duration, yet no error is raised,
    the process is started and the run reports success. *)
Lemma zero_duration_start_not_refused :
  trim_enabled (values_of (trim_app "0" "5")) = true
  /\ _get_duration_seconds (host_of_duration "0.000000") "a.mp4"
     = Some (PyFloat.of_Z 0)
  /\ PyFloat.geb (self_trim_start_sec (trim_app "0" "5")) (PyFloat.of_Z 0) = true
  /\ List.length (spawned (_run (host_of_duration "0.000000") (trim_app "0" "5")))
     = 1%nat
  /\ messages (_run (host_of_duration "0.000000") (trim_app "0" "5"))
     = [done_message].
Proof.
  split; [reflexivity|]. split; [vm_compute; reflexivity|].
  split; [vm_compute; reflexivity|].
  split; vm_compute; reflexivity.
Qed.

End BatchFacts.

(** ** The preview cache *)

Module PreviewFacts.
Import Preview CacheSpec Scenarios.

Section CacheFacts.

Variable Image : Type.
Variable photo_image : string -> option Image.

Abbreviation Cache := (Cache Image).
Abbreviation cache_image := (_cache_preview_image Image photo_image).
Abbreviation insert_all := (insert_all Image photo_image).

Lemma key_eqb_eq (a b : key) : key_eqb a b = true <-> a = b.
Proof.
  unfold key_eqb. destruct a as [p n], b as [q m]. cbn [fst snd].
  rewrite andb_true_iff, String.eqb_eq, Z.eqb_eq.
  split; [intros [-> ->]; reflexivity|intros H; injection H; auto].
Qed.

Lemma key_eqb_refl (a : key) : key_eqb a a = true.
Proof. apply key_eqb_eq. reflexivity. Qed.

Lemma key_eqb_neq (a b : key) : a <> b -> key_eqb a b = false.
Proof.
  intros H. destruct (key_eqb a b) eqn:E; [|reflexivity].
  apply key_eqb_eq in E. contradiction.
Qed.

Lemma dict_mem_keys (k : key) (d : list (key * Image)) :
  dict_mem Image k d = true <-> In k (keys d).
Proof.
  unfold dict_mem, keys. rewrite existsb_exists, in_map_iff. split.
  - intros [kv [Hin Heq]]. apply key_eqb_eq in Heq. exists kv. auto.
  - intros [kv [Heq Hin]]. exists kv. split; [exact Hin|].
    apply key_eqb_eq. auto.
Qed.

(** Assigning a fresh key appends it. *)
Lemma dict_set_fresh (k : key) (v : Image) (d : list (key * Image)) :
  ~ In k (keys d) -> keys (dict_set Image k v d) = keys d ++ [k].
Proof.
  induction d as [|[k' v'] d IH]; intros Hk; [reflexivity|].
  simpl in Hk |- *. rewrite key_eqb_neq by (intros ->; apply Hk; auto).
  simpl. rewrite IH by (intros Hin; apply Hk; auto). reflexivity.
Qed.

(** Deleting the first key of a dict without repeated keys leaves the
    others in place. *)
Lemma dict_del_first (k : key) (v : Image) (d : list (key * Image)) :
  ~ In k (keys d) -> dict_del Image k ((k, v) :: d) = d.
Proof.
  intros Hk. unfold dict_del. cbn [filter fst]. rewrite key_eqb_refl. cbn [negb].
  induction d as [|[k' v'] d IH]; [reflexivity|].
  simpl in Hk |- *. rewrite key_eqb_neq by (intros ->; apply Hk; auto).
  simpl. rewrite IH by (intros Hin; apply Hk; auto). reflexivity.
Qed.

(** One call on a cache whose dict and order list agree, with a key that
    is not cached: below twenty entries the key is appended; at twenty the
    oldest key leaves both containers. *)
Lemma cache_image_step (st : Cache) (k : key) (path : string) (img : Image) :
  photo_image path = Some img ->
  keys (preview_cache Image st) = preview_cache_order Image st ->
  NoDup (preview_cache_order Image st ++ [k]) ->
  (List.length (preview_cache_order Image st) <= 20)%nat ->
  let st' := fst (cache_image st k path) in
  let ev := snd (cache_image st k path) in
  keys (preview_cache Image st') = preview_cache_order Image st'
  /\ ((List.length (preview_cache_order Image st) < 20)%nat ->
      preview_cache_order Image st' = preview_cache_order Image st ++ [k]
      /\ ev = None)
  /\ ((List.length (preview_cache_order Image st) = 20)%nat ->
      exists old rest,
        preview_cache_order Image st = old :: rest
        /\ preview_cache_order Image st' = rest ++ [k]
        /\ ev = Some old).
Proof.
  intros Himg Hkeys Hnodup Hlen. unfold _cache_preview_image. rewrite Himg.
  destruct st as [cache order img0]. cbn [preview_cache preview_cache_order] in *.
  assert (Hfresh : ~ In k (keys cache)).
  { rewrite Hkeys. intros Hin.
    apply NoDup_remove_2 in Hnodup. rewrite app_nil_r in Hnodup. contradiction. }
  pose proof (dict_set_fresh k img cache Hfresh) as Hset. rewrite Hkeys in Hset.
  rewrite length_app. cbn [List.length].
  destruct (20 <? List.length order + 1)%nat eqn:Efull.
  - apply Nat.ltb_lt in Efull.
    destruct order as [|old rest]; [simpl in Efull; lia|].
    cbn [app].
    assert (Hmem : dict_mem Image old (dict_set Image k img cache) = true)
      by (apply dict_mem_keys; rewrite Hset; left; reflexivity).
    rewrite Hmem. cbn [fst snd preview_cache preview_cache_order].
    split; [|split].
    + destruct cache as [|[k0 v0] cache]; [discriminate Hkeys|].
      simpl in Hkeys. injection Hkeys as -> Hrest.
      simpl in Hset |- *.
      assert (Hne : key_eqb k old = false).
      { apply key_eqb_neq. intros ->. apply Hfresh. left; reflexivity. }
      rewrite Hne in Hset |- *. simpl in Hset. injection Hset as Hset.
      rewrite dict_del_first; [exact Hset|].
      rewrite Hset. simpl in Hnodup. apply NoDup_cons_iff in Hnodup. tauto.
    + cbn [List.length] in *. intros Hlt. lia.
    + intros _. exists old, rest. auto.
  - apply Nat.ltb_ge in Efull.
    cbn [fst snd preview_cache preview_cache_order].
    split; [exact Hset|]. split.
    + intros _. auto.
    + intros Heq. lia.
Qed.

(** Successive calls with distinct keys that are not cached.  [gone]
    stands for the keys already deleted: while the cache is not full
    nothing was deleted. *)
Lemma insert_all_window (reqs : list (key * string)) :
  forall (st : Cache) (gone : list key),
    keys (preview_cache Image st) = preview_cache_order Image st ->
    (List.length (preview_cache_order Image st) <= 20)%nat ->
    ((List.length (preview_cache_order Image st) < 20)%nat -> gone = []) ->
    NoDup (preview_cache_order Image st ++ map fst reqs) ->
    (forall r, In r reqs -> photo_image (snd r) <> None) ->
    let st' := fst (insert_all st reqs) in
    let ev := snd (insert_all st reqs) in
    gone ++ preview_cache_order Image st ++ map fst reqs
    = (gone ++ ev) ++ preview_cache_order Image st'
    /\ keys (preview_cache Image st') = preview_cache_order Image st'
    /\ (List.length (preview_cache_order Image st') <= 20)%nat
    /\ ((List.length (preview_cache_order Image st') < 20)%nat -> gone ++ ev = []).
Proof.
  induction reqs as [|[k path] reqs IH]; intros st gone Hkeys Hlen Hgone Hnodup Hload.
  - cbn [insert_all Preview.insert_all fst snd map].
    rewrite !app_nil_r. auto.
  - cbn [Preview.insert_all map fst] in *.
    destruct (photo_image path) as [img|] eqn:Himg;
      [|exfalso; apply (Hload (k, path)); [left; reflexivity|exact Himg]].
    assert (Hnd1 : NoDup (preview_cache_order Image st ++ [k])).
    { replace (preview_cache_order Image st ++ k :: map fst reqs)
        with ((preview_cache_order Image st ++ [k]) ++ map fst reqs) in Hnodup
        by (rewrite <- app_assoc; reflexivity).
      apply NoDup_app_remove_r in Hnodup. exact Hnodup. }
    pose proof (cache_image_step st k path img Himg Hkeys Hnd1 Hlen)
      as (Hk' & Hlt & Hfull).
    destruct (cache_image st k path) as [st1 ev1] eqn:Estep.
    cbn [fst snd] in Hk', Hlt, Hfull.
    assert (Hcases : (List.length (preview_cache_order Image st) < 20)%nat
                     \/ List.length (preview_cache_order Image st) = 20%nat) by lia.
    destruct Hcases as [Hc|Hc].
    + destruct (Hlt Hc) as [Horder ->]. rewrite (Hgone Hc) in *.
      specialize (IH st1 [] Hk').
      destruct (insert_all st1 reqs) as [st2 ev2] eqn:Erest.
      cbn [fst snd app] in IH |- *.
      rewrite Horder in IH. rewrite length_app in IH. cbn [List.length] in IH.
      rewrite <- app_assoc in IH. cbn [app] in IH.
      apply IH; auto.
      * lia.
      * intros r Hr. apply Hload. right; exact Hr.
    + destruct (Hfull Hc) as (old & rest & Horder & Horder1 & ->).
      specialize (IH st1 (gone ++ [old]) Hk').
      destruct (insert_all st1 reqs) as [st2 ev2] eqn:Erest.
      cbn [fst snd] in IH |- *.
      rewrite Horder in *. rewrite Horder1 in IH.
      rewrite length_app in IH. cbn [List.length] in IH, Hc.
      rewrite <- !app_assoc in IH. cbn [app] in IH |- *.
      rewrite <- !app_assoc. cbn [app].
      apply IH.
      * lia.
      * intros Hl. lia.
      * cbn [app] in Hnodup. apply NoDup_cons_iff in Hnodup. tauto.
      * intros r Hr. apply Hload. right; exact Hr.
Qed.

(** A list cut into the keys deleted and a window of at most twenty. *)
Lemma window_split (l gone window : list key) :
  l = gone ++ window ->
  (List.length window <= 20)%nat ->
  ((List.length window < 20)%nat -> gone = []) ->
  window = skipn (List.length l - 20) l
  /\ gone = firstn (List.length l - 20) l.
Proof.
  intros -> Hlen Hgone.
  assert (Hcases : (List.length window < 20)%nat \/ List.length window = 20%nat)
    by lia.
  destruct Hcases as [Hc|Hc].
  - rewrite (Hgone Hc). cbn [app].
    replace (List.length window - 20)%nat with 0%nat by lia.
    split; reflexivity.
  - rewrite length_app.
    replace (List.length gone + List.length window - 20)%nat
      with (List.length gone) by lia.
    rewrite skipn_app, firstn_app, skipn_all, firstn_all, Nat.sub_diag.
    cbn [skipn firstn app]. rewrite app_nil_r. split; reflexivity.
Qed.

Lemma nodup_app_disjoint (A : Type) (l1 l2 : list A) :
  NoDup (l1 ++ l2) -> forall a, In a l1 -> ~ In a l2.
Proof.
  induction l1 as [|x l1 IH]; intros Hnd a Hin; [contradiction|].
  cbn [app] in Hnd. apply NoDup_cons_iff in Hnd. destruct Hnd as [Hx Hnd].
  destruct Hin as [->|Hin].
  - intros H2. apply Hx. apply in_or_app. right; exact H2.
  - apply IH; assumption.
Qed.

Lemma in_firstn (A : Type) (n : nat) (l : list A) (x : A) :
  In x (firstn n l) -> In x l.
Proof.
  intros H. rewrite <- (firstn_skipn n l). apply in_or_app. left; exact H.
Qed.

(** C7.  From the empty cache, calls with distinct keys whose images load
    leave the last twenty keys, in insertion order, in the order list and
    in the dict; the keys deleted are the earlier ones, in insertion
    order, and none of them is cached; the dict holds at most twenty
    entries after the calls and after every prefix of them.  After 25
    calls it holds exactly 20 entries, the first five keys were deleted
    and the last twenty are cached. *)
Theorem preview_cache_keeps_last_twenty (reqs : list (key * string)) :
  NoDup (map fst reqs) ->
  (forall r, In r reqs -> photo_image (snd r) <> None) ->
  preview_cache_order Image (fst (insert_all (empty Image) reqs))
  = skipn (List.length reqs - 20) (map fst reqs)
  /\ keys (preview_cache Image (fst (insert_all (empty Image) reqs)))
     = skipn (List.length reqs - 20) (map fst reqs)
  /\ snd (insert_all (empty Image) reqs)
     = firstn (List.length reqs - 20) (map fst reqs)
  /\ (forall k, In k (snd (insert_all (empty Image) reqs)) ->
                dict_mem Image k
                  (preview_cache Image (fst (insert_all (empty Image) reqs)))
                = false)
  /\ (forall n,
         (List.length
            (preview_cache Image
               (fst (insert_all (empty Image) (firstn n reqs)))) <= 20)%nat)
  /\ (List.length reqs = 25%nat ->
      List.length (preview_cache Image (fst (insert_all (empty Image) reqs)))
      = 20%nat
      /\ snd (insert_all (empty Image) reqs) = firstn 5 (map fst reqs)
      /\ keys (preview_cache Image (fst (insert_all (empty Image) reqs)))
         = skipn 5 (map fst reqs)).
Proof.
  intros Hnodup Hload.
  assert (Hrun : forall rs : list (key * string),
             NoDup (map fst rs) ->
             (forall r, In r rs -> photo_image (snd r) <> None) ->
             map fst rs
             = snd (insert_all (empty Image) rs)
               ++ preview_cache_order Image (fst (insert_all (empty Image) rs))
             /\ keys (preview_cache Image (fst (insert_all (empty Image) rs)))
                = preview_cache_order Image (fst (insert_all (empty Image) rs))
             /\ (List.length
                   (preview_cache_order Image
                      (fst (insert_all (empty Image) rs))) <= 20)%nat
             /\ ((List.length
                    (preview_cache_order Image
                       (fst (insert_all (empty Image) rs))) < 20)%nat ->
                 snd (insert_all (empty Image) rs) = [])).
  { intros rs Hnd Hld.
    exact (insert_all_window rs (empty Image) [] eq_refl
             (Nat.le_0_l 20) (fun _ => eq_refl) Hnd Hld). }
  destruct (Hrun reqs Hnodup Hload) as (Hall & Hkeys & Hlen & Hsmall).
  destruct (window_split _ _ _ Hall Hlen Hsmall) as [Hwin Hgone].
  rewrite length_map in Hwin, Hgone.
  split; [exact Hwin|].
  split; [rewrite Hkeys; exact Hwin|].
  split; [exact Hgone|].
  split; [|split].
  - intros k Hk.
    destruct (dict_mem Image k _) eqn:E; [|reflexivity].
    apply dict_mem_keys in E. rewrite Hkeys in E.
    rewrite Hall in Hnodup. exfalso.
    exact (nodup_app_disjoint _ _ _ Hnodup k Hk E).
  - intros n.
    assert (Hnd : NoDup (map fst (firstn n reqs))).
    { rewrite <- firstn_map.
      rewrite <- (firstn_skipn n (map fst reqs)) in Hnodup.
      apply NoDup_app_remove_r in Hnodup. exact Hnodup. }
    destruct (Hrun (firstn n reqs) Hnd
                (fun r Hr => Hload r (in_firstn _ n reqs r Hr)))
      as (_ & Hk & Hl & _).
    unfold keys in Hk.
    rewrite <- (length_map fst), Hk. exact Hl.
  - intros H25. rewrite H25 in Hwin, Hgone. cbn [Nat.sub] in Hwin, Hgone.
    split; [|split].
    + unfold keys in Hkeys. rewrite <- (length_map fst), Hkeys, Hwin.
      rewrite length_skipn, length_map, H25. reflexivity.
    + exact Hgone.
    + rewrite Hkeys. exact Hwin.
Qed.

End CacheFacts.

Lemma distinct_NoDup (l : list key) : distinct l = true -> NoDup l.
Proof.
  induction l as [|k l IH]; [constructor|].
  cbn [distinct]. rewrite andb_true_iff, negb_true_iff. intros [Hk Hl].
  constructor; [|apply IH; exact Hl].
  intros Hin.
  assert (E : existsb (key_eqb k) l = true)
    by (apply existsb_exists; exists k; split; [exact Hin|apply key_eqb_refl]).
  congruence.
Qed.

Lemma preview_cache_keeps_last_twenty_witness :
  List.length
    (preview_cache string (fst (Preview.insert_all string Some (empty string) frames25)))
  = 20%nat
  /\ snd (Preview.insert_all string Some (empty string) frames25)
     = firstn 5 (map fst frames25)
  /\ keys
       (preview_cache string
          (fst (Preview.insert_all string Some (empty string) frames25)))
     = skipn 5 (map fst frames25).
Proof.
  refine (proj2 (proj2 (proj2 (proj2 (proj2
            (preview_cache_keeps_last_twenty string Some frames25 _ _))))) _).
  - apply distinct_NoDup. vm_compute. reflexivity.
  - intros r _ H. discriminate H.
  - reflexivity.
Defined.

End PreviewFacts.

(** * Further properties of the engine *)

(** ** The planned command *)

Module PlannerMore.
Import PyStr Engine PlannerSpec Scenarios PlannerFacts.

(** X1. Every planned command starts [ffmpeg -y], names the input after [-i]
    and ends with the destination. *)
Theorem command_frame (h : Host) (values : Values) (in_path out_path : string)
    (encoders decoders cmd : list string) :
  build_command h values in_path out_path encoders decoders = Ok cmd ->
  firstn 2 cmd = ["ffmpeg"; "-y"]
  /\ last cmd "" = out_path
  /\ exists seek rest,
      cmd = ["ffmpeg"; "-y"] ++ seek ++ ["-i"; in_path] ++ rest
      /\ (seek = [] \/ exists t, seek = ["-ss"; t]).
Proof.
  intros Hok. apply build_command_ok in Hok. destruct Hok as [Hpass ->].
  split; [|split].
  - unfold input_args. destruct (trim_enabled values);
      [destruct (trim_start values)|]; reflexivity.
  - rewrite app_assoc. apply last_last.
  - unfold input_args. destruct (trim_enabled values) eqn:Et.
    + destruct (passes_trim_start _ _ _ _ Hpass Et) as [s ->].
      exists ["-ss"; PyFloat.format_3f s],
        (end_bound s (trim_end values) ++ encoding_args values encoders
         ++ [out_path]).
      split; [reflexivity|]. right. eexists; reflexivity.
    + exists [], (encoding_args values encoders ++ [out_path]).
      split; [reflexivity|]. left; reflexivity.
Qed.

Lemma command_frame_witness :
  firstn 2 ["ffmpeg"; "-y"; "-i"; "in.mp4"; "-vf";
            "fps=10,scale=640:-1:flags=lanczos"; "-an"; "/out/clip.gif"]
  = ["ffmpeg"; "-y"]
  /\ last ["ffmpeg"; "-y"; "-i"; "in.mp4"; "-vf";
           "fps=10,scale=640:-1:flags=lanczos"; "-an"; "/out/clip.gif"] ""
     = "/out/clip.gif"
  /\ exists seek rest,
      ["ffmpeg"; "-y"; "-i"; "in.mp4"; "-vf";
       "fps=10,scale=640:-1:flags=lanczos"; "-an"; "/out/clip.gif"]
      = ["ffmpeg"; "-y"] ++ seek ++ ["-i"; "in.mp4"] ++ rest
      /\ (seek = [] \/ exists t, seek = ["-ss"; t]).
Proof.
  apply (command_frame h264_host gif_values "in.mp4" "/out/clip.gif"
           ["libx264"; "aac"] ["h264"]).
  reflexivity.
Defined.

(** The format of a request in the mp4 family is not gif. *)
Lemma mem_not_gif (fmt : string) (l : list string) :
  mem fmt l = true -> ~ In "gif" l -> String.eqb fmt "gif" = false.
Proof.
  unfold mem. intros Hm Hn. destruct (String.eqb fmt "gif") eqn:E; [|reflexivity].
  apply String.eqb_eq in E. subst fmt. exfalso. apply Hn.
  apply existsb_exists in Hm. destruct Hm as [x [Hin Hx]].
  apply String.eqb_eq in Hx. subst x. exact Hin.
Qed.

(** The tokens of the re-encoding options: a filter, the two encoder
    flags and the names picked for them. *)
Lemma reencode_tokens (values : Values) (encoders : list string) (t : string) :
  In t ((if fps_enabled values
         then ["-filter:v"; ("fps=" ++ strip (fps values))%string] else [])
        ++ opt_flag "-c:v"
             (_pick_video_encoder (strip (format values)) encoders)
        ++ opt_flag "-c:a"
             (_pick_audio_encoder (strip (format values)) encoders)) ->
  In t ["-filter:v"; "-c:v"; "-c:a"] \/ In t encoder_names
  \/ String.prefix "fps=" t = true.
Proof.
  rewrite !in_app_iff. intros [H|[H|H]].
  - destruct (fps_enabled values); [|contradiction].
    simpl in H. destruct H as [<-|[<-|[]]].
    + left. simpl. auto.
    + right; right. simpl. apply prefix_empty.
  - apply opt_flag_tokens in H. destruct H as [->|H]; [left; simpl; auto|].
    right; left. eapply pick_video_encoder_name; eassumption.
  - apply opt_flag_tokens in H. destruct H as [->|H]; [left; simpl; auto|].
    right; left. eapply pick_audio_encoder_name; eassumption.
Qed.

Ltac not_a_token H :=
  simpl in H; repeat (destruct H as [H|H]; [discriminate H|]); exact H.

(** X2. The streams are copied only on the fast path: a planned command whose
    options hold [copy] comes from a request without trim and without fps
    change, for mp4, mov or mkv. *)
Theorem copy_only_without_trim_and_fps (h : Host) (values : Values)
    (in_path out_path : string) (encoders decoders cmd : list string) :
  build_command h values in_path out_path encoders decoders = Ok cmd ->
  exists opts,
    cmd = input_args values in_path ++ opts ++ [out_path]
    /\ (In "copy" opts ->
        trim_enabled values = false /\ fps_enabled values = false
        /\ In (strip (format values)) ["mp4"; "mov"; "mkv"]).
Proof.
  intros Hok. apply build_command_ok in Hok. destruct Hok as [_ ->].
  exists (encoding_args values encoders). split; [reflexivity|].
  unfold encoding_args, gif_filter.
  destruct (String.eqb (strip (format values)) "gif").
  - intros H. exfalso. not_a_token H.
  - rewrite in_app_iff. intros [H|H].
    + destruct (stream_copy values) eqn:Ecopy.
      * unfold stream_copy in Ecopy.
        apply andb_true_iff in Ecopy. destruct Ecopy as [Ecopy Hm].
        apply andb_true_iff in Ecopy. destruct Ecopy as [Hf Ht].
        apply negb_true_iff in Hf, Ht. repeat split; try assumption.
        unfold mem in Hm. apply existsb_exists in Hm.
        destruct Hm as [x [Hin Hx]]. apply String.eqb_eq in Hx. subst x.
        exact Hin.
      * exfalso. apply reencode_tokens in H.
        destruct H as [H|[H|H]]; [| |discriminate H]; not_a_token H.
    + exfalso.
      destruct (mem (strip (format values)) ["mp4"; "mov"]); [|contradiction].
      not_a_token H.
Qed.

Lemma copy_only_without_trim_and_fps_witness :
  exists opts,
    ["ffmpeg"; "-y"; "-i"; "in.mkv"; "-c"; "copy"; "-movflags"; "+faststart";
     "/out/clip.mp4"]
    = input_args remux_values "in.mkv" ++ opts ++ ["/out/clip.mp4"]
    /\ (In "copy" opts ->
        trim_enabled remux_values = false /\ fps_enabled remux_values = false
        /\ In (strip (format remux_values)) ["mp4"; "mov"; "mkv"]).
Proof.
  apply (copy_only_without_trim_and_fps remux_host remux_values "in.mkv"
           "/out/clip.mp4" [] []).
  reflexivity.
Defined.

(** X3. An mp4 or mov output carries [-movflags +faststart] right before the
    destination; no other output carries [-movflags]. *)
Theorem faststart_for_mp4_and_mov (h : Host) (values : Values)
    (in_path out_path : string) (encoders decoders cmd : list string) :
  build_command h values in_path out_path encoders decoders = Ok cmd ->
  (In (strip (format values)) ["mp4"; "mov"] ->
   exists pre, cmd = pre ++ ["-movflags"; "+faststart"; out_path])
  /\ (~ In (strip (format values)) ["mp4"; "mov"] ->
      exists opts,
        cmd = input_args values in_path ++ opts ++ [out_path]
        /\ ~ In "-movflags" opts).
Proof.
  intros Hok. apply build_command_ok in Hok. destruct Hok as [_ ->].
  split.
  - intros Hfmt.
    assert (Hm : mem (strip (format values)) ["mp4"; "mov"] = true).
    { unfold mem. apply existsb_exists. exists (strip (format values)).
      split; [exact Hfmt|apply String.eqb_refl]. }
    assert (Hg : String.eqb (strip (format values)) "gif" = false).
    { apply (mem_not_gif _ _ Hm). simpl.
      intros [H|[H|[]]]; discriminate H. }
    unfold encoding_args. rewrite Hg, Hm.
    set (X := if stream_copy values then _ else _).
    exists (input_args values in_path ++ X).
    rewrite <- !app_assoc. reflexivity.
  - intros Hfmt.
    exists (encoding_args values encoders). split; [reflexivity|].
    assert (Hm : mem (strip (format values)) ["mp4"; "mov"] = false).
    { destruct (mem _ _) eqn:E; [|reflexivity]. exfalso. apply Hfmt.
      unfold mem in E. apply existsb_exists in E.
      destruct E as [x [Hin Hx]]. apply String.eqb_eq in Hx. subst x.
      exact Hin. }
    unfold encoding_args, gif_filter. rewrite Hm, app_nil_r.
    destruct (String.eqb (strip (format values)) "gif").
    + intros H. not_a_token H.
    + destruct (stream_copy values).
      * intros H. not_a_token H.
      * intros H. apply reencode_tokens in H.
        destruct H as [H|[H|H]]; [| |discriminate H]; not_a_token H.
Qed.

Lemma faststart_for_mp4_and_mov_witness :
  exists pre,
    ["ffmpeg"; "-y"; "-i"; "in.mkv"; "-c"; "copy"; "-movflags"; "+faststart";
     "/out/clip.mp4"]
    = pre ++ ["-movflags"; "+faststart"; "/out/clip.mp4"].
Proof.
  refine (proj1 (faststart_for_mp4_and_mov remux_host remux_values "in.mkv"
                   "/out/clip.mp4" [] [] _ _) _).
  - reflexivity.
  - simpl. left; reflexivity.
Defined.

(** X4. An encoder that is picked is one of the encoders of the installed
    build, the gif encoder of a gif output apart; with no encoder known,
    none is picked for a format other than gif. *)
Theorem picked_encoder_is_available (out_fmt : string) (encoders : list string) :
  (forall c, _pick_video_encoder out_fmt encoders = Some c ->
             mem c encoders = true \/ (out_fmt = "gif" /\ c = "gif"))
  /\ (forall c, _pick_audio_encoder out_fmt encoders = Some c ->
                mem c encoders = true)
  /\ (encoders = [] -> out_fmt <> "gif" ->
      _pick_video_encoder out_fmt encoders = None
      /\ _pick_audio_encoder out_fmt encoders = None).
Proof.
  assert (Hfind : forall cands c,
             first_available cands encoders = Some c -> mem c encoders = true).
  { intros cands c H. unfold first_available in H.
    apply find_some in H. tauto. }
  split; [|split].
  - intros c. unfold _pick_video_encoder.
    destruct (String.eqb out_fmt "gif") eqn:Eg;
      [apply String.eqb_eq in Eg|];
      repeat match goal with
             | |- context [first_available ?l encoders] =>
                 let E := fresh "E" in
                 destruct (first_available l encoders) eqn:E;
                 [apply Hfind in E|]
             | |- context [if ?b then _ else _] => destruct b
             end;
      intros H; try discriminate H; injection H as <-; auto.
  - intros c. unfold _pick_audio_encoder.
    repeat match goal with
           | |- context [first_available ?l encoders] =>
               let E := fresh "E" in
               destruct (first_available l encoders) eqn:E;
               [apply Hfind in E|]
           | |- context [if ?b then _ else _] => destruct b
           end;
      intros H; try discriminate H; injection H as <-; auto.
  - intros -> Hgif.
    assert (Eg : String.eqb out_fmt "gif" = false)
      by (apply String.eqb_neq; exact Hgif).
    unfold _pick_video_encoder, _pick_audio_encoder. rewrite Eg.
    destruct (mem out_fmt ["mp4"; "mov"; "mkv"]);
      destruct (String.eqb out_fmt "webm"); split; reflexivity.
Qed.

End PlannerMore.

(** ** The batch run *)

Module BatchMore.
Import PyStr Engine Batch PlannerSpec Trace Scenarios PlannerFacts BatchFacts.

Lemma length_append (a b : string) :
  String.length (a ++ b) = (String.length a + String.length b)%nat.
Proof. induction a as [|c a IH]; simpl; [reflexivity|rewrite IH; reflexivity]. Qed.

Lemma substring_all (b : string) : String.substring 0 (String.length b) b = b.
Proof. induction b as [|c b IH]; simpl; [reflexivity|rewrite IH; reflexivity]. Qed.

Lemma substring_suffix (a b : string) :
  String.substring (String.length a) (String.length b) (a ++ b) = b.
Proof. induction a as [|c a IH]; simpl; [apply substring_all|exact IH]. Qed.

(** [(a + b).endswith(b)] *)
Lemma endswith_append (a b : string) : endswith (a ++ b) b = true.
Proof.
  unfold endswith. rewrite length_append.
  replace (String.length b <=? String.length a + String.length b)%nat with true
    by (symmetry; apply Nat.leb_le; lia).
  replace (String.length a + String.length b - String.length b)%nat
    with (String.length a) by lia.
  rewrite substring_suffix. apply String.eqb_refl.
Qed.


(** X5. The output path is refused when no folder is chosen, when the folder
    does not exist, or when the file name is empty, in this order.
    Otherwise it is the folder joined with a file name that ends with a
    dot and the target format; the extension is not repeated on a name
    that already ends with it. *)
Theorem output_path_has_extension (h : Host) (app : App) (in_path : string)
    (values : Values) :
  match _build_output_path h app in_path values with
  | ValueError msg =>
      (is_empty (strip (output_dir values)) = true
       /\ msg = "Choose an output folder.")
      \/ (is_empty (strip (output_dir values)) = false
          /\ isdir h (strip (output_dir values)) = false
          /\ msg = "Output folder does not exist.")
      \/ (is_empty (strip (output_dir values)) = false
          /\ isdir h (strip (output_dir values)) = true
          /\ msg = "Output filename is required.")
  | Ok out =>
      isdir h (strip (output_dir values)) = true
      /\ exists name,
          out = PyPath.join (strip (output_dir values)) name
          /\ endswith name ("." ++ strip (format values)) = true
          /\ (endswith (strip (output_name values))
                ("." ++ strip (format values)) = true ->
              (1 <? List.length (self_input_list app))%nat && keep_names values
              = false ->
              name = strip (output_name values))
  end.
Proof.
  unfold _build_output_path.
  destruct (is_empty (strip (output_dir values))) eqn:Edir; [auto|].
  destruct (isdir h (strip (output_dir values))) eqn:Eis; cbn [negb]; [|auto 6].
  set (keep := (1 <? List.length (self_input_list app))%nat && keep_names values).
  set (name0 := if keep then PyPath.splitext_root (PyPath.basename in_path)
                else strip (output_name values)).
  destruct (is_empty name0) eqn:Ename; [auto 8|].
  split; [reflexivity|].
  destruct (endswith name0 ("." ++ strip (format values))) eqn:Eext; cbn [negb].
  - exists name0. split; [reflexivity|]. split; [exact Eext|].
    intros _ Hkeep. unfold name0. rewrite Hkeep. reflexivity.
  - exists (name0 ++ "." ++ strip (format values))%string.
    split; [reflexivity|]. split; [apply endswith_append|].
    intros Hext Hkeep. unfold name0 in Eext. rewrite Hkeep in Eext. congruence.
Qed.

Section Run.

Variable h : Host.
Variable app : App.





End Run.


End BatchMore.

(** ** The progress bar *)

Module TrackerMore.
Import PyStr Tracker Batch ProgressSpec Trace Scenarios MoreScenarios.

Lemma ltb_leb (x y : PyFloat.float) :
  PyFloat.ltb x y = true -> PyFloat.leb x y = true.
Proof.
  unfold PyFloat.ltb, PyFloat.leb, SFltb, SFleb.
  destruct (SFcompare x y) as [[ | | ]|]; congruence.
Qed.

(** [max(0, min(100, x))] lies between 0 and 100 for every float, a NaN
    included. *)
Lemma clamp_percent_in_range (x : PyFloat.float) :
  in_range (clamp_percent x) = true.
Proof.
  unfold clamp_percent, in_range.
  destruct (PyFloat.ltb x (PyFloat.of_Z 100)) eqn:Hlt.
  - destruct (PyFloat.gtb x (PyFloat.of_Z 0)) eqn:Hgt.
    + unfold PyFloat.gtb in Hgt.
      rewrite (ltb_leb _ _ Hgt), (ltb_leb _ _ Hlt). reflexivity.
    + reflexivity.
  - reflexivity.
Qed.

(** A line leaves the progress value or sets it between 0 and 100. *)
Lemma line_keeps_range (st : Progress) (line : string) :
  in_range (progress_value st) = true ->
  in_range (progress_value (_set_progress_from_line st line)) = true.
Proof.
  intros Hst. unfold _set_progress_from_line.
  set (st1 := if contains "Duration:" line then _ else st).
  assert (H1 : progress_value st1 = progress_value st)
    by (unfold st1; destruct (contains "Duration:" line); reflexivity).
  destruct (contains "time=" line && known (total_duration st1));
    [|rewrite H1; exact Hst].
  destruct (token_after "time=" " " line); [|rewrite H1; exact Hst].
  destruct (total_duration st1) as [total|]; [|rewrite H1; exact Hst].
  destruct (_parse_time_to_seconds s) as [[current|]|];
    try (rewrite H1; exact Hst).
  destruct (PyFloat.div current total); [|rewrite H1; exact Hst].
  cbn [progress_value]. apply clamp_percent_in_range.
Qed.

(** The worker resets the bar to 0 and to nothing else. *)
Lemma worker_sets_progress_to_zero (h : Host) (app : App) (inputs : list string) :
  forall values v,
    In (SetProgress v) (worker h app values inputs) -> v = PyFloat.of_Z 0.
Proof.
  induction inputs as [|x rest IH]; intros values v Hin.
  - destruct Hin as [H|[]]. discriminate H.
  - cbn [worker] in Hin. destruct Hin as [H|Hin]; [discriminate H|].
    destruct (worker_try h app values x) as [[values1 cmd]|e].
    + unfold run_ffmpeg in Hin. destruct (ffmpeg h cmd) as [lines code].
      destruct Hin as [H|Hin]; [injection H as <-; reflexivity|].
      rewrite <- !app_assoc in Hin. cbn [Datatypes.app] in Hin.
      destruct Hin as [H|[H|Hin]]; [discriminate H|discriminate H|].
      apply in_app_or in Hin. destruct Hin as [Hin|Hin].
      * exfalso. induction lines as [|l lines IHl]; [exact Hin|].
        destruct Hin as [H|Hin]; [discriminate H|]. exact (IHl Hin).
      * destruct (negb (code =? 0)%Z).
        -- destruct Hin as [H|[]]. discriminate H.
        -- eapply IH; exact Hin.
    + destruct Hin as [H|[]]. discriminate H.
Qed.

(** X8. Over a whole run the progress value stays between 0 and 100: the
    interface thread, fed the events of [_run] in order, never shows a
    value outside this range, whatever the engine prints. *)
Theorem progress_stays_in_range (h : Host) (app : App) (st : Progress) :
  in_range (progress_value st) = true ->
  forall n,
    in_range (progress_value (fold_left ui_step (firstn n (_run h app)) st))
    = true.
Proof.
  intros Hst n.
  assert (Hzero : forall v, In (SetProgress v) (_run h app) -> v = PyFloat.of_Z 0).
  { intros v. unfold _run. destruct (self_input_list app).
    - destruct (negb (is_empty (strip _))).
      + apply worker_sets_progress_to_zero.
      + intros [H|[]]. discriminate H.
    - apply worker_sets_progress_to_zero. }
  assert (Hfold : forall evs st0,
             (forall v, In (SetProgress v) evs -> v = PyFloat.of_Z 0) ->
             in_range (progress_value st0) = true ->
             in_range (progress_value (fold_left ui_step evs st0)) = true).
  { induction evs as [|e evs IH]; intros st0 Hz H0; [exact H0|].
    cbn [fold_left]. apply IH.
    - intros v Hv. apply Hz. right; exact Hv.
    - destruct e; cbn [ui_step]; try exact H0.
      + rewrite (Hz value (or_introl eq_refl)). reflexivity.
      + apply line_keeps_range. exact H0. }
  apply Hfold; [|exact Hst].
  intros v Hv. apply Hzero.
  rewrite <- (firstn_skipn n (_run h app)). apply in_or_app. left; exact Hv.
Qed.

(** X9. While the total duration is unknown or zero, lines that announce no
    duration change nothing, time markers included: progress is best
    effort. *)
Theorem unknown_total_disables_progress (lines : list string) (st : Progress) :
  known (total_duration st) = false ->
  (forall l, In l lines -> contains "Duration:" l = false) ->
  fold_left _set_progress_from_line lines st = st.
Proof.
  revert st. induction lines as [|l lines IH]; intros st Hk Hl; [reflexivity|].
  cbn [fold_left].
  assert (E : _set_progress_from_line st l = st).
  { unfold _set_progress_from_line.
    rewrite (Hl l (or_introl eq_refl)), Hk, andb_false_r. reflexivity. }
  rewrite E. apply IH; [exact Hk|].
  intros l' H'. apply Hl. right; exact H'.
Qed.

Lemma progress_stays_in_range_witness :
  in_range (progress_value halfway) = true
  /\ in_range
       (progress_value
          (fold_left ui_step (firstn 5 (_run batch_host batch_app)) halfway))
     = true.
Proof.
  split; [reflexivity|].
  apply (progress_stays_in_range batch_host batch_app halfway).
  reflexivity.
Defined.

Lemma unknown_total_disables_progress_witness :
  fold_left _set_progress_from_line time_lines fresh_progress = fresh_progress.
Proof.
  apply (unknown_total_disables_progress time_lines fresh_progress).
  - reflexivity.
  - intros l [<-|[<-|[]]]; reflexivity.
Defined.

End TrackerMore.

(** ** The preview cache under any calls *)

Module PreviewMore.
Import Preview CacheSpec CacheInvariant PreviewFacts.

Section AnyCalls.

Variable Image : Type.
Variable photo_image : string -> option Image.

(** Assigning a key never repeats a key of the dict. *)
Lemma keys_dict_set (k : key) (v : Image) (d : list (key * Image)) :
  (In k (keys d) -> keys (dict_set Image k v d) = keys d)
  /\ (~ In k (keys d) -> keys (dict_set Image k v d) = keys d ++ [k]).
Proof.
  split; [|apply dict_set_fresh].
  induction d as [|[k' v'] d IH]; [contradiction|].
  simpl. destruct (key_eqb k k') eqn:E.
  - apply key_eqb_eq in E. subst k'. reflexivity.
  - intros [->|Hin]; [rewrite key_eqb_refl in E; discriminate E|].
    simpl. rewrite (IH Hin). reflexivity.
Qed.

Lemma keys_dict_del (k : key) (d : list (key * Image)) :
  keys (dict_del Image k d) = filter (fun x => negb (key_eqb k x)) (keys d).
Proof.
  unfold dict_del. induction d as [|[k' v'] d IH]; [reflexivity|].
  simpl. destruct (negb (key_eqb k k')); simpl; rewrite IH; reflexivity.
Qed.

Lemma cache_image_keeps (st : Cache Image) (k : key) (path : string) :
  well_kept st ->
  well_kept (fst (_cache_preview_image Image photo_image st k path)).
Proof.
  unfold well_kept. intros (Hnd & Hincl & Hlen). unfold _cache_preview_image.
  destruct (photo_image path) as [img|]; [|repeat split; assumption].
  destruct st as [cache order img0]. cbn [preview_cache preview_cache_order] in *.
  assert (Hset : NoDup (keys (dict_set Image k img cache))
                 /\ incl (keys (dict_set Image k img cache)) (order ++ [k])).
  { destruct (keys_dict_set k img cache) as [Hin Hout].
    destruct (dict_mem Image k cache) eqn:Ek.
    - apply dict_mem_keys in Ek. rewrite (Hin Ek).
      split; [exact Hnd|]. apply incl_appl. exact Hincl.
    - assert (Hk : ~ In k (keys cache))
        by (intros Hk; apply dict_mem_keys in Hk; congruence).
      rewrite (Hout Hk). split.
      + apply NoDup_app; [exact Hnd|repeat constructor; intros []|].
        intros a Ha [<-|[]]. exact (Hk Ha).
      + apply incl_app; [apply incl_appl; exact Hincl|].
        apply incl_appr. apply incl_refl. }
  destruct Hset as [Hnd' Hincl'].
  rewrite length_app. cbn [List.length].
  destruct (20 <? List.length order + 1)%nat eqn:Efull.
  - apply Nat.ltb_lt in Efull.
    destruct order as [|old rest]; [simpl in Efull; lia|].
    cbn [Datatypes.app List.length] in *.
    assert (Hlen' : (List.length (rest ++ [k]) <= 20)%nat)
      by (rewrite length_app; simpl; lia).
    destruct (dict_mem Image old (dict_set Image k img cache)) eqn:Emem;
      cbn [fst preview_cache preview_cache_order].
    + rewrite keys_dict_del. split; [|split; [|exact Hlen']].
      * apply NoDup_filter. exact Hnd'.
      * intros a Ha.
        apply filter_In in Ha. destruct Ha as [Ha Hne].
        destruct (Hincl' a Ha) as [<-|Hin]; [|exact Hin].
        rewrite key_eqb_refl in Hne. discriminate Hne.
    + split; [exact Hnd'|split; [|exact Hlen']].
      intros a Ha. destruct (Hincl' a Ha) as [<-|Hin]; [|exact Hin].
      apply dict_mem_keys in Ha. congruence.
  - apply Nat.ltb_ge in Efull. cbn [fst preview_cache preview_cache_order].
    split; [exact Hnd'|split; [exact Hincl'|]].
    rewrite length_app. simpl. lia.
Qed.

(** X10. Whatever previews are cached, with repeated keys or images that fail
    to load, the dict never holds more than twenty images and never
    outgrows the order list. *)
Theorem preview_cache_never_exceeds_twenty (reqs : list (key * string)) :
  (List.length
     (preview_cache Image
        (fst (insert_all Image photo_image (empty Image) reqs))) <= 20)%nat
  /\ (List.length
        (preview_cache Image
           (fst (insert_all Image photo_image (empty Image) reqs)))
      <= List.length
           (preview_cache_order Image
              (fst (insert_all Image photo_image (empty Image) reqs))))%nat.
Proof.
  assert (Hall : forall rs st,
             well_kept st ->
             well_kept (fst (insert_all Image photo_image st rs))).
  { induction rs as [|[k path] rs IH]; intros st Hst; [exact Hst|].
    cbn [insert_all].
    pose proof (cache_image_keeps st k path Hst) as Hstep.
    destruct (_cache_preview_image Image photo_image st k path) as [st1 ev1].
    specialize (IH st1 Hstep).
    destruct (insert_all Image photo_image st1 rs) as [st2 ev2].
    exact IH. }
  assert (Hempty : well_kept (empty Image)).
  { repeat split; simpl; [constructor|intros a []|lia]. }
  destruct (Hall reqs (empty Image) Hempty) as (Hnd & Hincl & Hlen).
  assert (Hle : (List.length
                   (preview_cache Image
                      (fst (insert_all Image photo_image (empty Image) reqs)))
                 <= List.length
                      (preview_cache_order Image
                         (fst (insert_all Image photo_image (empty Image) reqs))))%nat).
  { rewrite <- (length_map fst). apply NoDup_incl_length; assumption. }
  split; [lia|exact Hle].
Qed.

End AnyCalls.

End PreviewMore.

(** ** Dropped files *)

Module IntakeFacts.
Import PyStr Intake IntakeSpec.

Lemma append_assoc (a b c : string) : ((a ++ b) ++ c = a ++ (b ++ c))%string.
Proof. induction a as [|x a IH]; simpl; [reflexivity|rewrite IH; reflexivity]. Qed.

Lemma append_nil_r (a : string) : (a ++ "" = a)%string.
Proof. induction a as [|x a IH]; simpl; [reflexivity|rewrite IH; reflexivity]. Qed.

Lemma has_char_append (c : ascii) (a b : string) :
  has_char c (a ++ b) = has_char c a || has_char c b.
Proof.
  induction a as [|x a IH]; simpl; [reflexivity|].
  rewrite IH, orb_assoc. reflexivity.
Qed.

Lemma is_empty_false (s : string) : is_empty s = false <-> s <> EmptyString.
Proof. destruct s; simpl; split; congruence. Qed.

(** What the loop keeps: the names stored are not empty and, like the
    buffer, hold no brace. *)
Lemma parse_drop_loop_clean (data : string) :
  forall files buf in_brace,
    (forall f, In f files -> droppable f) ->
    has_char "{" buf = false -> has_char "}" buf = false ->
    forall f, In f (parse_drop_loop files buf in_brace data) -> droppable f.
Proof.
  induction data as [|ch data IH]; intros files buf in_brace Hfiles Hb1 Hb2 f.
  - cbn [parse_drop_loop]. destruct (is_empty buf) eqn:E; cbn [negb].
    + apply Hfiles.
    + intros Hin. apply in_app_or in Hin. destruct Hin as [Hin|[<-|[]]].
      * apply Hfiles; exact Hin.
      * repeat split; try assumption. apply is_empty_false; exact E.
  - assert (Hpush : forall f0, In f0 (files ++ [buf]) ->
                               is_empty buf = false -> droppable f0).
    { intros f0 Hin E. apply in_app_or in Hin. destruct Hin as [Hin|[<-|[]]].
      - apply Hfiles; exact Hin.
      - repeat split; try assumption. apply is_empty_false; exact E. }
    cbn [parse_drop_loop].
    destruct (Ascii.eqb ch "{") eqn:E1; [apply IH; auto|].
    destruct (Ascii.eqb ch "}") eqn:E2.
    + destruct (is_empty buf) eqn:E; cbn [negb]; apply IH; auto.
    + destruct (Ascii.eqb ch " " && negb in_brace).
      * destruct (is_empty buf) eqn:E; cbn [negb]; apply IH; auto.
      * apply IH; [exact Hfiles| |];
          rewrite has_char_append, ?Hb1, ?Hb2; cbn [has_char orb];
          rewrite orb_false_r, Ascii.eqb_sym; assumption.
Qed.

(** X11. No name that [_parse_drop_files] returns is empty or holds a brace,
    whatever the dropped text. *)
Theorem dropped_names_are_clean (data f : string) :
  In f (_parse_drop_files data) ->
  f <> EmptyString /\ has_char "{" f = false /\ has_char "}" f = false.
Proof.
  unfold _parse_drop_files. destruct (is_empty data); [intros []|].
  apply parse_drop_loop_clean; [intros f0 []|reflexivity|reflexivity].
Qed.

Lemma dropped_names_are_clean_witness :
  In "b c" (_parse_drop_files "a}{b c}{ {} d")
  /\ "b c" <> EmptyString /\ has_char "{" "b c" = false
  /\ has_char "}" "b c" = false.
Proof.
  split; [simpl; auto|].
  apply (dropped_names_are_clean "a}{b c}{ {} d" "b c").
  simpl. auto.
Defined.

(** Characters that are no brace and, outside braces, no space go to the
    buffer. *)
Lemma parse_drop_loop_name (p : string) :
  forall files buf in_brace rest,
    has_char "{" p = false -> has_char "}" p = false ->
    in_brace = true \/ has_char " " p = false ->
    parse_drop_loop files buf in_brace (p ++ rest)
    = parse_drop_loop files (buf ++ p) in_brace rest.
Proof.
  induction p as [|c p IH]; intros files buf in_brace rest H1 H2 H3.
  - simpl. rewrite append_nil_r. reflexivity.
  - cbn [has_char] in H1, H2. apply orb_false_iff in H1, H2.
    destruct H1 as [E1 H1], H2 as [E2 H2].
    rewrite Ascii.eqb_sym in E1, E2.
    cbn [String.append parse_drop_loop]. rewrite E1, E2.
    assert (E3 : Ascii.eqb c " " && negb in_brace = false).
    { destruct H3 as [->|H3]; [apply andb_false_r|].
      cbn [has_char] in H3. apply orb_false_iff in H3. destruct H3 as [E3 _].
      rewrite Ascii.eqb_sym in E3. rewrite E3. reflexivity. }
    rewrite E3, IH.
    + rewrite append_assoc. reflexivity.
    + exact H1.
    + exact H2.
    + destruct H3 as [->|H3]; [left; reflexivity|].
      right. cbn [has_char] in H3. apply orb_false_iff in H3. tauto.
Qed.

(** One name of a drop list, followed by the end of the text or by a
    space and the rest of the list, is stored as it is. *)
Lemma parse_drop_loop_item (p : string) (files : list string) :
  droppable p ->
  parse_drop_loop files EmptyString false (drop_item p) = files ++ [p]
  /\ forall rest,
      parse_drop_loop files EmptyString false (drop_item p ++ " " ++ rest)
      = parse_drop_loop (files ++ [p]) EmptyString false rest.
Proof.
  intros (Hne & H1 & H2). apply is_empty_false in Hne.
  unfold drop_item. destruct (has_char " " p) eqn:Esp.
  - split.
    + cbn [String.append parse_drop_loop Ascii.eqb Bool.eqb].
      rewrite (parse_drop_loop_name p files EmptyString true "}" H1 H2
                 (or_introl eq_refl)).
      cbn [String.append parse_drop_loop Ascii.eqb Bool.eqb].
      rewrite Hne. reflexivity.
    + intros rest.
      cbn [String.append parse_drop_loop Ascii.eqb Bool.eqb].
      rewrite append_assoc.
      rewrite (parse_drop_loop_name p files EmptyString true _ H1 H2
                 (or_introl eq_refl)).
      cbn [String.append parse_drop_loop Ascii.eqb Bool.eqb andb negb is_empty].
      rewrite Hne. reflexivity.
  - split.
    + rewrite <- (append_nil_r p) at 1.
      rewrite (parse_drop_loop_name p files EmptyString false "" H1 H2
                 (or_intror Esp)).
      cbn [String.append parse_drop_loop]. rewrite Hne. reflexivity.
    + intros rest.
      rewrite (parse_drop_loop_name p files EmptyString false _ H1 H2
                 (or_intror Esp)).
      cbn [String.append parse_drop_loop Ascii.eqb Bool.eqb andb negb].
      rewrite Hne. reflexivity.
Qed.

Lemma parse_drop_loop_list (ps : list string) :
  forall files,
    Forall droppable ps ->
    parse_drop_loop files EmptyString false (drop_data ps) = files ++ ps.
Proof.
  induction ps as [|p ps IH]; intros files Hps.
  - simpl. rewrite app_nil_r. reflexivity.
  - inversion Hps as [|p' ps' Hp Hrest]; subst.
    destruct (parse_drop_loop_item p files Hp) as [Hlast Hmore].
    destruct ps as [|q ps].
    + exact Hlast.
    + unfold drop_data, join in *. cbn [map String.concat] in *.
      rewrite Hmore, (IH (files ++ [p]) Hrest), <- app_assoc. reflexivity.
Qed.

(** X12. Round trip: a list of names that are not empty and hold no brace,
    worded as a drop list (names separated by one space, a name with a
    space wrapped in braces), is parsed back to the same list. *)
Theorem drop_list_round_trip (ps : list string) :
  Forall droppable ps -> _parse_drop_files (drop_data ps) = ps.
Proof.
  intros Hps. unfold _parse_drop_files.
  destruct ps as [|p ps]; [reflexivity|].
  assert (E : is_empty (drop_data (p :: ps)) = false).
  { inversion Hps as [|p' ps' (Hne & _ & _) _]; subst.
    unfold drop_data, join, drop_item. cbn [map String.concat].
    destruct (has_char " " p); destruct ps; destruct p; try reflexivity;
      contradiction. }
  rewrite E. apply (parse_drop_loop_list (p :: ps) [] Hps).
Qed.

Lemma drop_list_round_trip_witness :
  _parse_drop_files "{/home/me/My Videos/a b.mp4} /tmp/c.mkv"
  = ["/home/me/My Videos/a b.mp4"; "/tmp/c.mkv"].
Proof.
  apply (drop_list_round_trip ["/home/me/My Videos/a b.mp4"; "/tmp/c.mkv"]).
  repeat constructor; discriminate.
Defined.

End IntakeFacts.

(** ** The capability listings *)

Module ListingFacts.
Import PyStr Intake IntakeSpec IntakeFacts.




Lemma mem_In (x : string) (l : list string) : mem x l = true <-> In x l.
Proof.
  unfold mem. rewrite existsb_exists. split.
  - intros [y [Hin Hy]]. apply String.eqb_eq in Hy. subst y. exact Hin.
  - intros Hin. exists x. split; [exact Hin|apply String.eqb_refl].
Qed.





(** The listing of an engine build: the header and the rule are skipped,
    the legend line lists its second word, and the data lines list the
    codec names. *)
Example listing_of_a_build :
  _get_ffmpeg_encoders
    {| encoders_stdout := Some encoders_listing; decoders_stdout := None |}
  = ["="; "libx264"; "aac"]
  /\ _get_ffmpeg_decoders
       {| encoders_stdout := Some encoders_listing; decoders_stdout := None |}
     = [].
Proof. split; reflexivity. Qed.

End ListingFacts.

(** * Further properties of the window *)

(** ** The labels *)

Module ClockFacts.
Import PyFloat PyNum ClockSpec.

Lemma all_from_agrees (k : nat) :
  forall n0, all_from k n0 = true ->
  forall n, (n0 <= n < n0 + Z.of_nat k)%Z -> agrees n = true.
Proof.
  induction k as [|k IH]; intros n0 H n Hn; [lia|].
  cbn [all_from] in H. apply andb_prop in H. destruct H as [H0 Hrest].
  destruct (Z.eq_dec n n0) as [->|Hne]; [exact H0|].
  apply (IH (n0 + 1)%Z Hrest). lia.
Qed.

Lemma two_hours_agree : all_from (Z.to_nat 7200) 0 = true.
Proof. vm_compute. reflexivity. Qed.

(** X14. For every whole number of seconds below two hours, the floor
    divisions and remainders of floats in [_format_seconds] give the
    clock of integer arithmetic: minutes and seconds, and hours from
    3600 seconds on. *)
Theorem format_seconds_is_the_clock (n : Z) :
  (0 <= n < 7200)%Z ->
  _format_seconds (Some (of_Z n)) = Some (clock n).
Proof.
  intros Hn.
  pose proof (all_from_agrees (Z.to_nat 7200) 0 two_hours_agree n) as H.
  rewrite Z2Nat.id in H by lia. specialize (H ltac:(lia)).
  unfold agrees in H.
  destruct (_format_seconds (Some (of_Z n))) as [t|]; [|discriminate H].
  apply String.eqb_eq in H. rewrite H. reflexivity.
Qed.

Lemma format_seconds_is_the_clock_witness :
  _format_seconds (Some (of_Z 3725)) = Some "01:02:05".
Proof. apply (format_seconds_is_the_clock 3725). lia. Defined.

End ClockFacts.

(** ** The sliders *)

Module SliderFacts.
Import PyFloat PyNum Gui SliderSpec.

Lemma ltb_irrefl (x : float) : ltb x x = false.
Proof.
  unfold ltb, SFltb.
  destruct x as [[]|[]| |[] m e]; simpl; try reflexivity;
    rewrite Z.compare_refl, Pos.compare_cont_refl; reflexivity.
Qed.

(** [_sync_trim_labels] moves nothing but the end, and only onto the
    start. *)
Lemma sync_moves_end_only (t t' : TrimUi) :
  _sync_trim_labels t = Returned t' ->
  trim_start_sec t' = trim_start_sec t
  /\ trim_end_sec t'
     = (if ltb (trim_end_sec t) (trim_start_sec t) then trim_start_sec t
        else trim_end_sec t)
  /\ start_scale_to t' = start_scale_to t
  /\ end_scale_to t' = end_scale_to t
  /\ total_duration t' = total_duration t
  /\ duration_label t' = duration_label t.
Proof.
  unfold _sync_trim_labels.
  destruct (_format_seconds (Some (trim_start_sec t))); [|discriminate].
  destruct (_format_seconds _); [|discriminate].
  intros H. injection H as <-. cbn. repeat split; reflexivity.
Qed.

Lemma sync_end_not_before_start (t t' : TrimUi) :
  _sync_trim_labels t = Returned t' ->
  ltb (trim_end_sec t') (trim_start_sec t') = false.
Proof.
  intros H. destruct (sync_moves_end_only t t' H) as (-> & -> & _).
  destruct (ltb (trim_end_sec t) (trim_start_sec t)) eqn:E;
    [apply ltb_irrefl|exact E].
Qed.

Section Window.

Variable Image : Type.

(** X15. When [_load_duration] returns, the duration found is stored, the
    three scales end at the same bound, no slider stands above it and the
    trim end does not stand before the trim start; the file fields are
    untouched. *)
Theorem load_duration_keeps_sliders_within_scales
    (h : Host) (path : string) (u u' : Ui Image) :
  _load_duration Image h path u = Returned u' ->
  within_scales u'
  /\ total_duration (trim Image u') = Engine._get_duration_seconds h path
  /\ end_scale_to (trim Image u') = start_scale_to (trim Image u')
  /\ preview_scale_to Image (pv Image u') = start_scale_to (trim Image u')
  /\ files Image u' = files Image u.
Proof.
  unfold _load_duration, within_scales.
  destruct (Engine._get_duration_seconds h path) as [d|].
  - destruct (negb (truthy d) || leb d zero) eqn:Eunknown.
    + cbn. intros H. injection H as <-. cbn. repeat split; reflexivity.
    + destruct (_format_seconds (Some d)) as [label|]; [|discriminate].
      unfold and_then.
      match goal with
      | |- context [_sync_trim_labels ?t0] =>
          destruct (_sync_trim_labels t0) as [t1|t1] eqn:Esync; [|discriminate]
      end.
      pose proof (sync_end_not_before_start _ _ Esync) as Hend.
      destruct (sync_moves_end_only _ _ Esync)
        as (Hstart & Hend' & Hsto & Heto & Htot & _).
      cbn [trim_start_sec trim_end_sec start_scale_to end_scale_to
           total_duration] in Hstart, Hend', Hsto, Heto, Htot.
      destruct (_format_seconds (Some _)) as [l|]; [|discriminate].
      intros H. injection H as <-.
      cbn [trim pv files preview_time preview_scale_to set_preview].
      rewrite Hsto, Heto, Htot. repeat split; try reflexivity.
      * rewrite Hstart.
        destruct (gtb (trim_start_sec (trim Image u)) d) eqn:E; [|exact E].
        unfold gtb.
        destruct (ltb d zero) eqn:Eneg; [|reflexivity].
        unfold ltb in Eneg. unfold leb in Eunknown.
        apply orb_false_elim in Eunknown. destruct Eunknown as [_ Hle].
        unfold SFltb in Eneg. unfold SFleb in Hle.
        destruct (SFcompare d zero) as [[ | | ]|]; discriminate.
      * rewrite Hend'.
        set (e1 := if leb (trim_end_sec (trim Image u)) zero then d
                   else trim_end_sec (trim Image u)).
        set (s1 := if gtb (trim_start_sec (trim Image u)) d then zero
                   else trim_start_sec (trim Image u)).
        assert (He2 : gtb (if gtb e1 d then d else e1) d = false).
        { destruct (gtb e1 d) eqn:E; [apply ltb_irrefl|exact E]. }
        assert (Hs1 : gtb s1 d = false).
        { subst s1.
          destruct (gtb (trim_start_sec (trim Image u)) d) eqn:E; [|exact E].
          unfold gtb.
          destruct (ltb d zero) eqn:Eneg; [|reflexivity].
          unfold ltb in Eneg. unfold leb in Eunknown.
          apply orb_false_elim in Eunknown. destruct Eunknown as [_ Hle].
          unfold SFltb in Eneg. unfold SFleb in Hle.
          destruct (SFcompare d zero) as [[ | | ]|]; discriminate. }
        destruct (ltb (if gtb e1 d then d else e1) s1); assumption.
      * exact Hend.
      * destruct (ltb d (preview_time Image (pv Image u))) eqn:E;
          [apply ltb_irrefl|exact E].
  - cbn. intros H. injection H as <-. cbn. repeat split; reflexivity.
Qed.

End Window.

Lemma load_duration_keeps_sliders_within_scales_witness :
  within_scales
    (state_of
       (_load_duration unit (Scenarios.host_of_duration "12.500000")
          "clip.mp4" fresh_window)).
Proof.
  apply (load_duration_keeps_sliders_within_scales unit
           (Scenarios.host_of_duration "12.500000") "clip.mp4" fresh_window).
  reflexivity.
Defined.

End SliderFacts.

(** ** The batch list *)

Module FilesFacts.
Import PyStr Gui FilesSpec.

Lemma add_paths_mirrored (test : string -> bool) (paths : list string) :
  forall f, mirrored f -> mirrored (add_paths test paths f).
Proof.
  induction paths as [|p paths IH]; intros f Hf; [exact Hf|].
  cbn [add_paths]. apply IH.
  destruct (test p && negb (mem p (input_list f))) eqn:E; [|exact Hf].
  apply andb_prop in E. destruct E as [_ E].
  apply negb_true_iff in E.
  destruct Hf as [Hm Hnd]. split; cbn.
  - rewrite Hm. reflexivity.
  - apply NoDup_app; [exact Hnd|repeat constructor; intros []|].
    intros a Ha [<-|[]]. apply ListingFacts.mem_In in Ha. congruence.
Qed.

(** Under [NoDup], removing the item found at an index is deleting at
    that index. *)
Lemma remove_first_at (l : list string) :
  NoDup l -> forall idx, (idx < List.length l)%nat ->
  remove_first (nth idx l EmptyString) l = delete_at idx l.
Proof.
  induction 1 as [|x l Hx Hnd IH]; intros idx Hidx; [simpl in Hidx; lia|].
  destruct idx as [|idx]; cbn.
  - rewrite String.eqb_refl. reflexivity.
  - cbn in Hidx. assert (Hlt : (idx < List.length l)%nat) by lia.
    destruct (String.eqb (nth idx l EmptyString) x) eqn:E.
    + apply String.eqb_eq in E. exfalso. apply Hx. rewrite <- E.
      apply nth_In. exact Hlt.
    + rewrite (IH idx Hlt). reflexivity.
Qed.

Lemma delete_at_NoDup (l : list string) :
  NoDup l -> forall idx, NoDup (delete_at idx l).
Proof.
  induction 1 as [|x l Hx Hnd IH]; intros idx; [destruct idx; constructor|].
  destruct idx as [|idx]; cbn; [exact Hnd|].
  constructor; [|apply IH].
  intros Hin. apply Hx. clear - Hin. revert idx Hin.
  induction l as [|y l IHl]; intros idx Hin; [destruct idx; exact Hin|].
  destruct idx as [|idx]; cbn in Hin; [right; exact Hin|].
  destruct Hin as [->|Hin]; [left; reflexivity|right; exact (IHl idx Hin)].
Qed.

Lemma delete_at_length (l : list string) :
  forall idx, (idx < List.length l)%nat ->
  S (List.length (delete_at idx l)) = List.length l.
Proof.
  induction l as [|x l IH]; intros idx Hidx; [simpl in Hidx; lia|].
  destruct idx as [|idx]; cbn; [reflexivity|].
  cbn in Hidx. rewrite IH by lia. reflexivity.
Qed.

Lemma remove_selected_steps (sel : list nat) (f : Files) :
  _remove_selected sel f = fold_right (fun idx f => remove_step f idx) f sel.
Proof.
  unfold _remove_selected. rewrite <- fold_left_rev_right.
  rewrite rev_involutive. reflexivity.
Qed.

Lemma remove_step_mirrored (f : Files) (idx : nat) :
  mirrored f -> (idx < List.length (input_list f))%nat ->
  mirrored (remove_step f idx)
  /\ input_list (remove_step f idx) = delete_at idx (input_list f).
Proof.
  intros [Hm Hnd] Hidx. unfold remove_step, mirrored. cbn. rewrite Hm.
  assert (Hin : mem (nth idx (input_list f) EmptyString) (input_list f) = true)
    by (apply ListingFacts.mem_In; apply nth_In; exact Hidx).
  rewrite Hin, (remove_first_at _ Hnd idx Hidx).
  repeat split. apply delete_at_NoDup. exact Hnd.
Qed.

Lemma increasing_from_bounds (sel : list nat) (n : nat) :
  forall lo, increasing_from lo sel n = true ->
  (forall j, In j sel -> (lo <= j < n)%nat)
  /\ ((lo <= n)%nat -> (lo + List.length sel <= n)%nat).
Proof.
  induction sel as [|i sel IH]; intros lo H.
  - split; [intros j []|simpl; lia].
  - cbn [increasing_from] in H.
    apply andb_prop in H. destruct H as [H Hrest].
    apply andb_prop in H. destruct H as [Hlo Hn].
    apply Nat.leb_le in Hlo. apply Nat.ltb_lt in Hn.
    destruct (IH (S i) Hrest) as [Hall Hlen]. split.
    + intros j [<-|Hj]; [lia|]. specialize (Hall j Hj). lia.
    + intros _. cbn [List.length]. specialize (Hlen ltac:(lia)). lia.
Qed.

Lemma unselected_skip (sel : list nat) (l : list string) :
  forall base k, (k < base)%nat ->
  unselected base (k :: sel) l = unselected base sel l.
Proof.
  induction l as [|x l IH]; intros base k Hk; [reflexivity|].
  cbn [unselected existsb].
  assert (E : Nat.eqb base k = false) by (apply Nat.eqb_neq; lia).
  rewrite E. cbn [orb]. rewrite (IH (S base) k) by lia. reflexivity.
Qed.

Lemma unselected_delete_at (sel : list nat) (l : list string) :
  forall base idx,
  (forall j, In j sel -> (base + idx < j)%nat) ->
  delete_at idx (unselected base sel l)
  = unselected base ((base + idx)%nat :: sel) l.
Proof.
  induction l as [|x l IH]; intros base idx Hsel.
  - destruct idx; reflexivity.
  - assert (Hbase : existsb (Nat.eqb base) sel = false).
    { destruct (existsb (Nat.eqb base) sel) eqn:E; [|reflexivity].
      apply existsb_exists in E. destruct E as (j & Hj & E).
      apply Nat.eqb_eq in E. subst j. specialize (Hsel base Hj). lia. }
    cbn [unselected existsb]. rewrite Hbase.
    destruct idx as [|idx].
    + rewrite Nat.add_0_r, Nat.eqb_refl. cbn [orb delete_at].
      symmetry. apply unselected_skip. lia.
    + assert (E : Nat.eqb base (base + S idx) = false)
        by (apply Nat.eqb_neq; lia).
      rewrite E. cbn [orb delete_at]. f_equal.
      rewrite (IH (S base) idx).
      * replace (S base + idx)%nat with (base + S idx)%nat by lia. reflexivity.
      * intros j Hj. specialize (Hsel j Hj). lia.
Qed.

Lemma unselected_none (l : list string) :
  forall base, unselected base [] l = l.
Proof.
  induction l as [|x l IH]; intros base; [reflexivity|].
  cbn. rewrite IH. reflexivity.
Qed.

Lemma remove_selected_from (sel : list nat) :
  forall lo f,
  mirrored f ->
  increasing_from lo sel (List.length (input_list f)) = true ->
  (lo <= List.length (input_list f))%nat ->
  let f' := fold_right (fun idx f => remove_step f idx) f sel in
  mirrored f'
  /\ input_list f' = unselected 0 sel (input_list f)
  /\ (List.length (input_list f') + List.length sel
      = List.length (input_list f))%nat.
Proof.
  induction sel as [|i sel IH]; intros lo f Hf Hsel Hlo; cbn zeta.
  - cbn [fold_right List.length]. rewrite unselected_none.
    repeat split; [apply Hf|apply Hf|lia].
  - cbn [fold_right]. cbn [increasing_from] in Hsel.
    apply andb_prop in Hsel. destruct Hsel as [H Hrest].
    apply andb_prop in H. destruct H as [Hi Hn].
    apply Nat.leb_le in Hi. apply Nat.ltb_lt in Hn.
    destruct (IH (S i) f Hf Hrest ltac:(lia)) as (Hm1 & Hl1 & Hlen1).
    destruct (increasing_from_bounds sel _ (S i) Hrest) as [Hall Hcount].
    specialize (Hcount ltac:(lia)).
    set (f1 := fold_right (fun idx f => remove_step f idx) f sel) in *.
    assert (Hidx : (i < List.length (input_list f1))%nat) by lia.
    destruct (remove_step_mirrored f1 i Hm1 Hidx) as [Hm2 Hl2].
    split; [exact Hm2|]. split.
    + rewrite Hl2, Hl1. apply (unselected_delete_at sel (input_list f) 0 i).
      intros j Hj. specialize (Hall j Hj). lia.
    + rewrite Hl2. cbn [List.length].
      pose proof (delete_at_length (input_list f1) i Hidx). lia.
Qed.

(** X16. Removing the selected items of a mirrored list leaves exactly the
    items at the indices not selected, in both the list and the list
    box. *)
Theorem remove_selected_keeps_the_rest (sel : list nat) (f : Files) :
  mirrored f ->
  selection sel (List.length (batch_list f)) ->
  mirrored (_remove_selected sel f)
  /\ input_list (_remove_selected sel f) = unselected 0 sel (input_list f)
  /\ (List.length (input_list (_remove_selected sel f)) + List.length sel
      = List.length (input_list f))%nat.
Proof.
  intros Hf Hsel. rewrite remove_selected_steps.
  unfold selection in Hsel. rewrite (proj1 Hf) in Hsel.
  exact (remove_selected_from sel 0 f Hf Hsel ltac:(lia)).
Qed.

Lemma remove_selected_keeps_the_rest_witness :
  input_list (_remove_selected [0; 2]%nat three_files) = ["/v/b.mkv"]
  /\ batch_list (_remove_selected [0; 2]%nat three_files) = ["/v/b.mkv"].
Proof.
  assert (Hf : mirrored three_files).
  { split; [reflexivity|].
    repeat constructor; simpl; intuition discriminate. }
  destruct (remove_selected_keeps_the_rest [0; 2]%nat three_files Hf
              ltac:(reflexivity)) as ([Hm _] & Hl & _).
  split; [exact Hl|]. rewrite Hm. exact Hl.
Defined.

(** What [add_paths] appends: the tested paths not yet listed, once
    each. *)
Lemma add_paths_appends (test : string -> bool) (paths : list string) :
  forall f, exists added,
    input_list (add_paths test paths f) = input_list f ++ added
    /\ batch_list (add_paths test paths f) = batch_list f ++ added
    /\ input_path_var (add_paths test paths f) = input_path_var f
    /\ (forall p, In p added <->
                  In p paths /\ test p = true /\ ~ In p (input_list f)).
Proof.
  induction paths as [|p paths IH]; intros f.
  - exists []. cbn. rewrite !app_nil_r.
    split; [reflexivity|]. split; [reflexivity|]. split; [reflexivity|].
    intros q. split; [intros []|intros [[] _]].
  - cbn [add_paths].
    destruct (test p && negb (mem p (input_list f))) eqn:E.
    + apply andb_prop in E. destruct E as [Ht Hm].
      apply negb_true_iff in Hm.
      assert (Hp : ~ In p (input_list f))
        by (intros Hp; apply ListingFacts.mem_In in Hp; congruence).
      destruct (IH {| input_path_var := input_path_var f;
                      input_list := input_list f ++ [p];
                      batch_list := batch_list f ++ [p] |})
        as (added & Hi & Hb & Hv & Hin).
      cbn [input_list batch_list input_path_var] in Hi, Hb, Hv, Hin.
      exists (p :: added). rewrite Hi, Hb, Hv, <- !app_assoc.
      split; [reflexivity|]. split; [reflexivity|]. split; [reflexivity|].
      intros q. split.
      * intros [<-|Hq]; [split; [left; reflexivity|split; assumption]|].
        apply Hin in Hq. destruct Hq as (Hq & Htq & Hnq).
        split; [right; exact Hq|]. split; [exact Htq|].
        intros Hl. apply Hnq. apply in_or_app. left. exact Hl.
      * intros (Hq & Htq & Hnq).
        destruct (string_dec p q) as [->|Hne]; [left; reflexivity|].
        right. apply Hin. destruct Hq as [Hq|Hq]; [contradiction|].
        split; [exact Hq|]. split; [exact Htq|].
        intros Hl. apply in_app_or in Hl.
        destruct Hl as [Hl|[Hl|[]]]; [exact (Hnq Hl)|exact (Hne Hl)].
    + destruct (IH f) as (added & Hi & Hb & Hv & Hin).
      exists added.
      split; [exact Hi|]. split; [exact Hb|]. split; [exact Hv|].
      intros q. split.
      * intros Hq. apply Hin in Hq. destruct Hq as (Hq & Htq & Hnq).
        split; [right; exact Hq|split; assumption].
      * intros (Hq & Htq & Hnq). apply Hin.
        destruct Hq as [<-|Hq]; [|split; [exact Hq|split; assumption]].
        exfalso. rewrite Htq in E. cbn in E.
        apply negb_false_iff in E. apply ListingFacts.mem_In in E. exact (Hnq E).
Qed.

Section Window.

Variable Image : Type.

(** [_load_duration] leaves the file fields alone, however it ends. *)
Lemma load_duration_files (h : Host) (path : string) (u : Ui Image) :
  files Image (state_of (_load_duration Image h path u)) = files Image u.
Proof.
  unfold _load_duration.
  destruct (Engine._get_duration_seconds h path) as [d|].
  - destruct (negb (PyFloat.truthy d) || PyFloat.leb d PyNum.zero).
    + unfold and_then. destruct (_sync_trim_labels _); reflexivity.
    + destruct (PyNum._format_seconds (Some d)); [|reflexivity].
      unfold and_then. destruct (_sync_trim_labels _); [|reflexivity].
      destruct (PyNum._format_seconds (Some _)); reflexivity.
  - unfold and_then. destruct (_sync_trim_labels _); reflexivity.
Qed.

Lemma show_input_files (h : Host) (path : string) (u : Ui Image) :
  files Image (state_of (show_input Image h path u))
  = {| input_path_var := path;
       input_list := input_list (files Image u);
       batch_list := batch_list (files Image u) |}.
Proof.
  unfold show_input, and_then.
  match goal with
  | |- context [_load_duration Image h path ?u0] =>
      pose proof (load_duration_files h path u0) as H;
      destruct (_load_duration Image h path u0) as [u1|u1]
  end; cbn [state_of] in *; [|exact H].
  unfold _schedule_preview, with_pv. cbn [files]. exact H.
Qed.

(** The end of the two adding callbacks: the lists stay, and so does an
    input already chosen. *)
Lemma files_after_show (h : Host) (path : string) (u : Ui Image) :
  let f' :=
    files Image
      (state_of (if is_empty (input_path_var (files Image u))
                 then show_input Image h path u else Returned u)) in
  input_list f' = input_list (files Image u)
  /\ batch_list f' = batch_list (files Image u)
  /\ (input_path_var (files Image u) <> EmptyString ->
      input_path_var f' = input_path_var (files Image u)).
Proof.
  cbn zeta. destruct (is_empty (input_path_var (files Image u))) eqn:E.
  - rewrite show_input_files. cbn. repeat split.
    intros Hne. exfalso. apply Hne.
    destruct (input_path_var (files Image u)); [reflexivity|discriminate].
  - cbn. repeat split.
Qed.

Lemma mirrored_same_lists (f f' : Files) :
  input_list f' = input_list f -> batch_list f' = batch_list f ->
  mirrored f -> mirrored f'.
Proof. unfold mirrored. intros -> ->. exact (fun H => H). Qed.

(** X17. Files added through the dialog or dropped on the window go to the
    end of the list, once each and only if not yet listed (a dropped one
    only if it exists); the list box keeps showing the list, and an input
    already chosen stays. *)
Theorem added_files_extend_the_list
    (h : Host) (d : Desktop) (asked : list string) (data : string)
    (u : Ui Image) :
  mirrored (files Image u) ->
  (let f' := files Image (state_of (_add_to_batch Image h d asked u)) in
   mirrored f'
   /\ (input_path_var (files Image u) <> EmptyString ->
       input_path_var f' = input_path_var (files Image u))
   /\ exists added,
        input_list f' = input_list (files Image u) ++ added
        /\ forall p, In p added <->
             In p (match _native_pick_files d true with
                   | Some picked => picked
                   | None => asked
                   end)
             /\ ~ In p (input_list (files Image u)))
  /\ (let f' := files Image (state_of (_on_drop_files Image h data u)) in
      mirrored f'
      /\ (input_path_var (files Image u) <> EmptyString ->
          input_path_var f' = input_path_var (files Image u))
      /\ exists added,
           input_list f' = input_list (files Image u) ++ added
           /\ forall p, In p added <->
                In p (Intake._parse_drop_files data)
                /\ isfile h p = true
                /\ ~ In p (input_list (files Image u))).
Proof.
  intros Hf.
  assert (Hnone : forall (P : string -> Prop) (l : list string),
             exists added : list string,
               l = l ++ added /\ forall p, In p added <-> False /\ P p).
  { intros P l. exists []. rewrite app_nil_r. split; [reflexivity|].
    intros p. split; [intros []|intros [[] _]]. }
  split; cbn zeta.
  - unfold _add_to_batch.
    destruct (match _native_pick_files d true with
              | Some picked => picked
              | None => asked
              end) as [|first rest].
    + cbn [state_of]. split; [exact Hf|]. split; [reflexivity|].
      apply (Hnone (fun p => ~ In p (input_list (files Image u)))).
    + pose proof (add_paths_mirrored (fun _ => true) (first :: rest) _ Hf) as Hm.
      destruct (add_paths_appends (fun _ => true) (first :: rest)
                  (files Image u)) as (added & Hi & Hb & Hv & Hin).
      destruct (files_after_show h first
                  (with_files Image u
                     (add_paths (fun _ => true) (first :: rest)
                        (files Image u))))
        as (Hl & Hbl & Hpath).
      cbn [with_files files] in Hl, Hbl, Hpath.
      cbn [with_files files].
      split; [exact (mirrored_same_lists _ _ Hl Hbl Hm)|]. split.
      * intros Hne.
        exact (eq_trans (Hpath (fun E => Hne (eq_trans (eq_sym Hv) E))) Hv).
      * exists added. rewrite Hl. split; [exact Hi|].
        intros p. rewrite Hin. tauto.
  - unfold _on_drop_files.
    destruct (Intake._parse_drop_files data) as [|p0 ps] eqn:Eparse.
    + cbn [state_of]. split; [exact Hf|]. split; [reflexivity|].
      apply (Hnone (fun p => isfile h p = true
                             /\ ~ In p (input_list (files Image u)))).
    + cbn [with_files files].
      destruct (input_list (add_paths (isfile h) (p0 :: ps) (files Image u)))
        as [|first rest];
        pose proof (add_paths_mirrored (isfile h) (p0 :: ps) _ Hf) as Hm;
        destruct (add_paths_appends (isfile h) (p0 :: ps) (files Image u))
          as (added & Hi & Hb & Hv & Hin).
      * cbn [state_of files].
        split; [exact Hm|]. split; [intros _; exact Hv|].
        exists added. split; [exact Hi|exact Hin].
      * destruct (files_after_show h first
                    (with_files Image u
                       (add_paths (isfile h) (p0 :: ps) (files Image u))))
          as (Hl & Hbl & Hpath).
        cbn [with_files files] in Hl, Hbl, Hpath.
        split; [exact (mirrored_same_lists _ _ Hl Hbl Hm)|]. split.
        -- intros Hne.
           exact (eq_trans (Hpath (fun E => Hne (eq_trans (eq_sym Hv) E))) Hv).
        -- exists added. rewrite Hl. split; [exact Hi|exact Hin].
Qed.

End Window.

Lemma added_files_extend_the_list_witness :
  input_list
    (files unit
       (state_of
          (_on_drop_files unit (Scenarios.host_of_duration "12.500000")
             "{/v/my clip.mp4} /v/a.mp4 /v/d.avi"
             (with_files unit SliderSpec.fresh_window three_files))))
  = ["/v/a.mp4"; "/v/b.mkv"; "/v/c.mov"; "/v/my clip.mp4"; "/v/d.avi"].
Proof.
  assert (Hf : mirrored
                 (files unit
                    (with_files unit SliderSpec.fresh_window three_files))).
  { split; [reflexivity|].
    repeat constructor; simpl; intuition discriminate. }
  destruct (added_files_extend_the_list unit
              (Scenarios.host_of_duration "12.500000")
              WindowScenarios.bare_desktop []
              "{/v/my clip.mp4} /v/a.mp4 /v/d.avi"
              (with_files unit SliderSpec.fresh_window three_files) Hf)
    as [_ _].
  reflexivity.
Defined.

End FilesFacts.

(** ** Sorting the batch list *)

Module SortFacts.
Import PyStr Gui FilesSpec SortSpec.

Section SortBy.

Variable K : Type.
Variable key_ltb : K -> K -> bool.

Lemma insert_by_permutes (x : K * string) (l : list (K * string)) :
  Permutation (x :: l) (insert_by K key_ltb x l).
Proof.
  induction l as [|y l IH]; [apply Permutation_refl|].
  cbn [insert_by]. destruct (key_ltb (fst y) (fst x)).
  - apply perm_trans with (y :: x :: l); [apply perm_swap|].
    apply perm_skip. exact IH.
  - apply Permutation_refl.
Qed.

Lemma stable_sort_permutes (l : list (K * string)) :
  Permutation l (stable_sort K key_ltb l).
Proof.
  induction l as [|x l IH]; [apply Permutation_refl|].
  cbn [stable_sort fold_right].
  apply perm_trans with (x :: stable_sort K key_ltb l);
    [apply perm_skip; exact IH|apply insert_by_permutes].
Qed.

Lemma keyed_items (key : string -> option K) (items : list string) :
  forall l, keyed K key items = Some l ->
  map snd l = items /\ Forall (fun kp => key (snd kp) = Some (fst kp)) l.
Proof.
  induction items as [|p items IH]; intros l H.
  - injection H as <-. split; [reflexivity|constructor].
  - cbn [keyed] in H. destruct (key p) as [k|] eqn:Ek; [|discriminate].
    destruct (keyed K key items) as [l'|]; [|discriminate].
    injection H as <-. destruct (IH l' eq_refl) as (H1 & H2).
    cbn. rewrite H1. split; [reflexivity|].
    constructor; [exact Ek|exact H2].
Qed.

Lemma sort_by_permutes (key : string -> option K) (reversed : bool)
    (items sorted : list string) :
  sort_by K key_ltb key reversed items = Some sorted ->
  Permutation items sorted.
Proof.
  unfold sort_by. destruct (keyed K key items) as [l|] eqn:E; [|discriminate].
  intros H. injection H as <-.
  destruct (keyed_items key items l E) as (Hl & _).
  assert (Hp : Permutation items (map snd (stable_sort K key_ltb l))).
  { rewrite <- Hl at 1. apply Permutation_map. apply stable_sort_permutes. }
  destruct reversed; [|exact Hp].
  apply perm_trans with (map snd (stable_sort K key_ltb l));
    [exact Hp|apply Permutation_rev].
Qed.

Lemma keyed_total (key : string -> option K) (items : list string) :
  (forall p, In p items -> key p <> None) ->
  exists l, keyed K key items = Some l.
Proof.
  induction items as [|p items IH]; intros H; [exists []; reflexivity|].
  cbn [keyed]. destruct (key p) as [k|] eqn:Ek;
    [|exfalso; exact (H p (or_introl eq_refl) Ek)].
  destruct IH as [l ->]; [intros q Hq; apply H; right; exact Hq|].
  eexists. reflexivity.
Qed.

(** The comparison is that of a total preorder. *)
Hypothesis ltb_asym : forall a b, key_ltb a b = true -> key_ltb b a = false.
Hypothesis geb_trans :
  forall a b c, key_ltb b a = false -> key_ltb c b = false ->
                key_ltb c a = false.

Lemma insert_by_sorted (x : K * string) (l : list (K * string)) :
  StronglySorted (before K key_ltb) l -> StronglySorted (before K key_ltb) (insert_by K key_ltb x l).
Proof.
  induction 1 as [|y l Hl IH Hy]; cbn [insert_by].
  - constructor; constructor.
  - destruct (key_ltb (fst y) (fst x)) eqn:E.
    + constructor; [exact IH|].
      apply (Permutation_Forall (insert_by_permutes x l)).
      constructor; [exact (ltb_asym _ _ E)|exact Hy].
    + constructor; [constructor; assumption|].
      constructor; [exact E|].
      apply Forall_forall. intros z Hz.
      apply (geb_trans (fst x) (fst y) (fst z)); [exact E|].
      exact (proj1 (Forall_forall _ _) Hy z Hz).
Qed.

Lemma stable_sort_sorted (l : list (K * string)) :
  StronglySorted (before K key_ltb) (stable_sort K key_ltb l).
Proof.
  induction l as [|x l IH]; [constructor|].
  cbn [stable_sort fold_right]. apply insert_by_sorted. exact IH.
Qed.

End SortBy.

Lemma sorted_snoc {A : Type} (R : A -> A -> Prop) (l : list A) (x : A) :
  StronglySorted R l -> Forall (fun y => R y x) l ->
  StronglySorted R (l ++ [x]).
Proof.
  induction 1 as [|y l Hl IH Hy]; intros Hx; cbn.
  - constructor; constructor.
  - apply Forall_cons_iff in Hx. destruct Hx as [Hyx Hx].
    constructor; [exact (IH Hx)|].
    apply Forall_app. split; [exact Hy|constructor; [exact Hyx|constructor]].
Qed.

Lemma sorted_rev {A : Type} (R : A -> A -> Prop) (l : list A) :
  StronglySorted R l -> StronglySorted (fun x y => R y x) (rev l).
Proof.
  induction 1 as [|y l Hl IH Hy]; cbn; [constructor|].
  apply sorted_snoc; [exact IH|].
  apply Forall_rev. exact Hy.
Qed.

Lemma sorted_map {A B : Type} (R : A -> A -> Prop) (Q : B -> B -> Prop)
    (g : A -> B) (P : A -> Prop) (l : list A) :
  (forall x y, P x -> P y -> R x y -> Q (g x) (g y)) ->
  Forall P l -> StronglySorted R l -> StronglySorted Q (map g l).
Proof.
  intros HRQ HP Hs. induction Hs as [|x l Hl IH Hx]; cbn; [constructor|].
  apply Forall_cons_iff in HP. destruct HP as [Px HP].
  constructor; [exact (IH HP)|].
  apply Forall_map. apply Forall_forall. intros y Hy.
  apply HRQ; [exact Px|exact (proj1 (Forall_forall _ _) HP y Hy)|].
  exact (proj1 (Forall_forall _ _) Hx y Hy).
Qed.

(** X18. Sorting reorders the list and never adds, drops or repeats a file,
    whatever the mode and whether or not a time stamp or a size can be
    read; the list box shows the list as sorted. *)
Theorem sort_batch_permutes (d : Desktop) (mode : string) (f : Files) :
  mirrored f ->
  mirrored (state_of (_sort_batch d mode f))
  /\ Permutation (input_list f) (input_list (state_of (_sort_batch d mode f)))
  /\ input_path_var (state_of (_sort_batch d mode f)) = input_path_var f.
Proof.
  intros Hf. unfold _sort_batch.
  destruct (input_list f) as [|p0 items] eqn:El.
  - cbn [state_of]. rewrite El.
    split; [exact Hf|]. split; [apply Permutation_refl|reflexivity].
  - rewrite <- El. clear El.
    match goal with
    | |- context [match ?s with Some _ => _ | None => _ end] =>
        assert (Hs : forall sorted, s = Some sorted ->
                       Permutation (input_list f) sorted);
        [|destruct s as [sorted|]]
    end.
    + intros sorted.
      destruct (mem mode ["Name A-Z"; "Name Z-A"]);
        [apply sort_by_permutes|].
      destruct (mem mode ["Date Newest"; "Date Oldest"]);
        [apply sort_by_permutes|].
      destruct (mem mode ["Size Largest"; "Size Smallest"]);
        [apply sort_by_permutes|].
      intros H. injection H as <-. apply Permutation_refl.
    + specialize (Hs sorted eq_refl). cbn [state_of]. unfold mirrored. cbn.
      split; [split; [reflexivity|]|split; [exact Hs|reflexivity]].
      apply (Permutation_NoDup Hs). apply Hf.
    + cbn [state_of].
      split; [exact Hf|]. split; [apply Permutation_refl|reflexivity].
Qed.

(** X19. When the size of every listed file can be read, sorting by
    [Size Smallest] lists the files from the smallest on and sorting by
    [Size Largest] from the largest on. *)
Theorem sort_by_size_orders_the_list (d : Desktop) (f : Files) :
  (forall p, In p (input_list f) -> getsize d p <> None) ->
  (exists f', _sort_batch d "Size Smallest" f = Returned f'
              /\ StronglySorted (size_le d) (input_list f'))
  /\ (exists f', _sort_batch d "Size Largest" f = Returned f'
                 /\ StronglySorted (fun p q => size_le d q p) (input_list f')).
Proof.
  intros Hsizes.
  assert (Hempty : StronglySorted (size_le d) []
                   /\ StronglySorted (fun p q => size_le d q p) [])
    by (split; constructor).
  unfold _sort_batch.
  destruct (input_list f) as [|p0 items] eqn:El.
  - split; exists f; rewrite El; split; try reflexivity; apply Hempty.
  - rewrite <- El in *. clear El Hempty. cbn [mem existsb String.eqb orb].
    cbn -[sort_by]. unfold sort_by.
    destruct (keyed_total Z (getsize d) (input_list f) Hsizes) as [l Hl].
    rewrite Hl.
    destruct (keyed_items Z (getsize d) (input_list f) l Hl) as [_ Hkeys].
    assert (Hsorted : StronglySorted (size_le d)
                        (map snd (stable_sort Z Z.ltb l))).
    { apply (sorted_map (before Z Z.ltb) (size_le d) snd
               (fun kp => getsize d (snd kp) = Some (fst kp))).
      - intros x y Hx Hy Hxy. unfold size_le, before in *.
        rewrite Hx, Hy. apply Z.ltb_ge. exact Hxy.
      - apply (Permutation_Forall (stable_sort_permutes Z Z.ltb l)).
        exact Hkeys.
      - apply stable_sort_sorted.
        + intros a b H. apply Z.ltb_lt in H. apply Z.ltb_ge. lia.
        + intros a b c H1 H2. apply Z.ltb_ge in H1, H2. apply Z.ltb_ge. lia. }
    split; eexists; (split; [reflexivity|]); cbn [input_list].
    + exact Hsorted.
    + rewrite <- map_rev in *. rewrite map_rev.
      apply (sorted_rev (size_le d)). exact Hsorted.
Qed.

Lemma sort_by_size_orders_the_list_witness :
  input_list (state_of (_sort_batch sized_desktop "Size Largest" three_files))
  = ["/v/a.mp4"; "/v/c.mov"; "/v/b.mkv"]
  /\ exists f', _sort_batch sized_desktop "Size Largest" three_files
                = Returned f'
                /\ StronglySorted (fun p q => size_le sized_desktop q p)
                     (input_list f').
Proof.
  split; [reflexivity|].
  apply (sort_by_size_orders_the_list sized_desktop three_files).
  intros p [<-|[<-|[<-|[]]]]; discriminate.
Defined.

Lemma sort_batch_permutes_witness :
  Permutation (input_list three_files)
    (input_list (state_of (_sort_batch sized_desktop "Name Z-A" three_files))).
Proof.
  apply (sort_batch_permutes sized_desktop "Name Z-A" three_files).
  split; [reflexivity|].
  repeat constructor; simpl; intuition discriminate.
Defined.

End SortFacts.

(** ** The preview of the window *)

Module PreviewRoundTrip.
Import PyStr Preview Gui PreviewFacts WindowScenarios.

Section Window.

Variable Image : Type.
Variable photo_image : string -> option Image.

Lemma dict_set_found (k : key) (img : Image) (d : list (key * Image)) :
  dict_mem Image k (dict_set Image k img d) = true
  /\ dict_get Image k (dict_set Image k img d) = Some img.
Proof.
  unfold dict_mem, dict_get.
  induction d as [|[k' v'] d IH]; cbn.
  - rewrite key_eqb_refl. split; reflexivity.
  - destruct (key_eqb k k') eqn:E; cbn.
    + rewrite key_eqb_refl. split; reflexivity.
    + rewrite E. exact IH.
Qed.

Lemma dict_del_other (old k : key) (d : list (key * Image)) :
  key_eqb old k = false ->
  dict_mem Image k (dict_del Image old d) = dict_mem Image k d
  /\ dict_get Image k (dict_del Image old d) = dict_get Image k d.
Proof.
  intros Hne. unfold dict_mem, dict_get, dict_del.
  induction d as [|[k' v'] d IH]; cbn; [split; reflexivity|].
  destruct IH as [IH1 IH2].
  destruct (key_eqb old k') eqn:E; cbn.
  - apply key_eqb_eq in E. subst k'.
    assert (E' : key_eqb k old = false).
    { destruct (key_eqb k old) eqn:E'; [|reflexivity].
      apply key_eqb_eq in E'. subst k. rewrite key_eqb_refl in Hne.
      discriminate Hne. }
    rewrite E'. cbn. split; [exact IH1|exact IH2].
  - destruct (key_eqb k k'); cbn; [split; reflexivity|].
    split; [exact IH1|exact IH2].
Qed.

(** An image cached under a key that the order list does not hold is
    found under that key. *)
Lemma cached_image_found (c : Cache Image) (k : key) (tmp : string)
    (img : Image) :
  photo_image tmp = Some img ->
  ~ In k (preview_cache_order Image c) ->
  let c' := fst (_cache_preview_image Image photo_image c k tmp) in
  dict_mem Image k (preview_cache Image c') = true
  /\ dict_get Image k (preview_cache Image c') = Some img
  /\ preview_image Image c' = Some img.
Proof.
  intros Himg Hnew. cbn zeta. unfold _cache_preview_image. rewrite Himg.
  destruct (dict_set_found k img (preview_cache Image c)) as [Hm Hg].
  destruct (20 <? List.length (preview_cache_order Image c ++ [k]))%nat
    eqn:Efull; [|cbn [fst preview_cache preview_image]; repeat split; assumption].
  destruct (preview_cache_order Image c) as [|old order'] eqn:Eorder.
  - cbn in Efull. discriminate Efull.
  - cbn [Datatypes.app].
    assert (Hne : key_eqb old k = false).
    { destruct (key_eqb old k) eqn:E; [|reflexivity].
      apply key_eqb_eq in E. subst old. exfalso. apply Hnew. left. reflexivity. }
    destruct (dict_mem Image old (dict_set Image k img (preview_cache Image c)));
      cbn [fst preview_cache preview_image]; [|repeat split; assumption].
    destruct (dict_del_other old k
                (dict_set Image k img (preview_cache Image c)) Hne)
      as [-> ->].
    repeat split; assumption.
Qed.

(** X20. When [_generate_preview] asks for a frame and the frame is
    extracted and cached under a key new to the cache, the next call for
    the same file and time asks for nothing: the image cached is the
    image shown. *)
Theorem extracted_frame_is_shown_from_the_cache
    (h : Host) (decoders : list string) (u u1 : Ui Image)
    (k : key) (t : PyFloat.float) (path tmp : string) (img : Image) :
  _generate_preview Image h decoders u = (Returned u1, Extract k t path) ->
  photo_image tmp = Some img ->
  ~ In k (preview_cache_order Image (cache Image (pv Image u))) ->
  exists u2,
    _generate_preview Image h decoders
      (cache_and_show Image photo_image k tmp u1)
    = (Returned u2, NoRequest)
    /\ shown Image (pv Image u2) = Some img
    /\ preview_image Image (cache Image (pv Image u2)) = Some img
    /\ preview_job Image (pv Image u2) = None.
Proof.
  intros Hgen Himg Hnew. unfold _generate_preview in Hgen.
  destruct (is_empty (strip (input_path_var (files Image u)))
            || negb (isfile h (strip (input_path_var (files Image u)))))
    eqn:E1; [discriminate Hgen|].
  destruct (PyNum._format_seconds (Some (preview_time Image (pv Image u))))
    as [l|] eqn:E2; [|discriminate Hgen].
  destruct (match Engine._get_video_codec h
                    (strip (input_path_var (files Image u))) with
            | Some c0 => negb (is_empty c0) && negb (mem c0 decoders)
            | None => false
            end) eqn:E3; [discriminate Hgen|].
  destruct (PyNum.int_of_float
              (PyFloat.mul (preview_time Image (pv Image u)) (PyFloat.of_Z 2)))
    as [bucket|] eqn:E4; [|discriminate Hgen].
  destruct (dict_mem Image (strip (input_path_var (files Image u)), bucket)
              (preview_cache Image (cache Image (pv Image u)))) eqn:E5;
    [destruct (dict_get Image _ _); discriminate Hgen|].
  injection Hgen as <- <- <- <-.
  destruct (cached_image_found (cache Image (pv Image u))
              (strip (input_path_var (files Image u)), bucket) tmp img
              Himg Hnew) as (Hm & Hg & Hi).
  unfold cache_and_show. rewrite Himg.
  unfold _generate_preview.
  cbn [files pv with_pv with_label_and_shown preview_time cache
       preview_label shown].
  rewrite E1, E2, E3, E4, Hm, Hg.
  eexists. split; [reflexivity|]. cbn. repeat split.
Qed.

End Window.

Lemma extracted_frame_is_shown_from_the_cache_witness :
  exists u2,
    _generate_preview unit (Scenarios.host_of_duration "12.500000") ["h264"]
      (cache_and_show unit any_image ("clip.mp4", 0%Z) "/tmp/frame.png"
         (state_of
            (fst (_generate_preview unit
                    (Scenarios.host_of_duration "12.500000") ["h264"]
                    clip_window))))
    = (Returned u2, NoRequest)
    /\ shown unit (pv unit u2) = Some tt
    /\ preview_image unit (cache unit (pv unit u2)) = Some tt
    /\ preview_job unit (pv unit u2) = None.
Proof.
  apply (extracted_frame_is_shown_from_the_cache unit any_image
           (Scenarios.host_of_duration "12.500000") ["h264"] clip_window
           _ ("clip.mp4", 0%Z) PyNum.zero "clip.mp4" "/tmp/frame.png" tt).
  - reflexivity.
  - reflexivity.
  - intros [].
Defined.

End PreviewRoundTrip.

(** ** The dialogs *)

Module DialogFacts.
Import PyStr Gui FilesFacts.

Lemma not_empty (s : string) : is_empty s = false -> s <> EmptyString.
Proof. intros H ->. discriminate H. Qed.

Section Window.

Variable Image : Type.

(** X21. A dialog that is cancelled leaves the field it was opened for,
    and a dialog that is answered never blanks it: the input path and the
    output folder change only to a name that is not empty, and choosing
    an input never touches the batch list. *)
Theorem dialogs_never_blank_a_field
    (h : Host) (d : Desktop) (asked : string) (u : Ui Image)
    (output_dir : string) :
  (let f' := files Image (state_of (_pick_input Image h d asked u)) in
   input_list f' = input_list (files Image u)
   /\ batch_list f' = batch_list (files Image u)
   /\ (input_path_var f' = input_path_var (files Image u)
       \/ input_path_var f' <> EmptyString))
  /\ (_pick_output d asked output_dir = output_dir
      \/ _pick_output d asked output_dir <> EmptyString).
Proof.
  split; cbn zeta.
  - unfold _pick_input.
    destruct (match _native_pick_files d false with
              | Some picked => picked
              | None => [asked]
              end) as [|path rest];
      [cbn [state_of]; repeat split; left; reflexivity|].
    destruct (is_empty path) eqn:E;
      [cbn [state_of]; repeat split; left; reflexivity|].
    rewrite show_input_files. cbn [input_list batch_list input_path_var].
    repeat split. right. exact (not_empty path E).
  - unfold _pick_output.
    destruct (is_empty _) eqn:E; [left; reflexivity|].
    right. exact (not_empty _ E).
Qed.

End Window.

End DialogFacts.

(** ** The native dialogs *)

Module NativeFacts.
Import PyStr Gui.

(** X22. The native pickers answer only on Linux, and only with what a
    dialog tool that is installed printed when it exited with code 0:
    the chosen folder is that output stripped and is never empty, and a
    single chosen file is that output stripped, or no file at all when
    the output is blank. *)
Theorem native_pickers_answer_from_a_tool (d : Desktop) :
  (forall p, _native_pick_dir d = Some p ->
     p <> EmptyString
     /\ startswith (platform d) "linux" = true
     /\ exists tool args out,
          (tool = "zenity" \/ tool = "kdialog")
          /\ which d tool = true
          /\ run_tool d (tool :: args) = (0%Z, out)
          /\ p = strip out)
  /\ (forall l, _native_pick_files d false = Some l ->
        startswith (platform d) "linux" = true
        /\ exists tool args out,
             (tool = "zenity" \/ tool = "kdialog")
             /\ which d tool = true
             /\ run_tool d (tool :: args) = (0%Z, out)
             /\ l = (if is_empty (strip out) then [] else [strip out])).
Proof.
  split.
  - intros p. unfold _native_pick_dir.
    destruct (startswith (platform d) "linux"); [|discriminate].
    destruct (which d "zenity") eqn:Wz.
    + destruct (run_tool d ["zenity"; "--file-selection"; "--directory"])
        as [code out] eqn:Erun.
      destruct (code =? 0)%Z eqn:Ecode.
      * apply Z.eqb_eq in Ecode. subst code.
        destruct (is_empty (strip out)) eqn:Eout; [discriminate|].
        intros H. injection H as <-.
        split; [intros E; rewrite E in Eout; discriminate Eout|].
        split; [reflexivity|].
        exists "zenity", ["--file-selection"; "--directory"], out. auto.
      * destruct (which d "kdialog") eqn:Wk; [|discriminate].
        destruct (run_tool d ["kdialog"; "--getexistingdirectory"; home d])
          as [code' out'] eqn:Erun'.
        destruct (code' =? 0)%Z eqn:Ecode'; [|discriminate].
        apply Z.eqb_eq in Ecode'. subst code'.
        destruct (is_empty (strip out')) eqn:Eout; [discriminate|].
        intros H. injection H as <-.
        split; [intros E; rewrite E in Eout; discriminate Eout|].
        split; [reflexivity|].
        exists "kdialog", ["--getexistingdirectory"; home d], out'. auto.
    + destruct (which d "kdialog") eqn:Wk; [|discriminate].
      destruct (run_tool d ["kdialog"; "--getexistingdirectory"; home d])
        as [code' out'] eqn:Erun'.
      destruct (code' =? 0)%Z eqn:Ecode'; [|discriminate].
      apply Z.eqb_eq in Ecode'. subst code'.
      destruct (is_empty (strip out')) eqn:Eout; [discriminate|].
      intros H. injection H as <-.
      split; [intros E; rewrite E in Eout; discriminate Eout|].
      split; [reflexivity|].
      exists "kdialog", ["--getexistingdirectory"; home d], out'. auto.
  - intros l. unfold _native_pick_files.
    destruct (startswith (platform d) "linux"); [|discriminate].
    cbn [Datatypes.app].
    assert (Hk : (if which d "kdialog"
                  then let '(returncode, stdout) :=
                         run_tool d ["kdialog"; "--getopenfilename"; home d] in
                       if (returncode =? 0)%Z
                       then if is_empty (strip stdout) then Some []
                            else Some [strip stdout]
                       else None
                  else None) = Some l ->
                 true = true
                 /\ exists tool args out,
                      (tool = "zenity" \/ tool = "kdialog")
                      /\ which d tool = true
                      /\ run_tool d (tool :: args) = (0%Z, out)
                      /\ l = (if is_empty (strip out) then []
                              else [strip out])).
    { destruct (which d "kdialog") eqn:Wk; [|discriminate].
      destruct (run_tool d ["kdialog"; "--getopenfilename"; home d])
        as [code' out'] eqn:Erun'.
      destruct (code' =? 0)%Z eqn:Ecode'; [|discriminate].
      apply Z.eqb_eq in Ecode'. subst code'. intros H.
      split; [reflexivity|].
      exists "kdialog", ["--getopenfilename"; home d], out'.
      repeat split; auto.
      destruct (is_empty (strip out')); injection H as <-; reflexivity. }
    destruct (which d "zenity") eqn:Wz; [|exact Hk].
    destruct (run_tool d ["zenity"; "--file-selection"; video_filter;
                          "--file-filter=All files | *"])
      as [code out] eqn:Erun.
    destruct (code =? 0)%Z eqn:Ecode; [|exact Hk].
    apply Z.eqb_eq in Ecode. subst code. intros H.
    split; [reflexivity|].
    exists "zenity",
      ["--file-selection"; video_filter; "--file-filter=All files | *"], out.
    repeat split; auto.
    destruct (is_empty (strip out)); injection H as <-; reflexivity.
Qed.

Lemma native_pickers_answer_from_a_tool_witness :
  _native_pick_dir DesktopScenarios.zenity_desktop = Some "/home/u/out"
  /\ "/home/u/out" <> EmptyString.
Proof.
  split; [reflexivity|].
  apply (proj1 (native_pickers_answer_from_a_tool
                  DesktopScenarios.zenity_desktop) "/home/u/out" eq_refl).
Defined.

End NativeFacts.

(** ** What the preview asks for *)

Module PreviewRequests.
Import PyStr Preview Gui WindowScenarios.

Section Window.

Variable Image : Type.

(** X23. [_generate_preview] clears the pending timer and never changes
    the cache dict or the order list; it asks for a frame only of the
    stripped input path, when that path names an existing file whose
    codec is unknown or among the decoders, at the time of the preview
    slider, and under a key, the path with [int(t * 2)], that the cache
    does not hold. *)
Theorem preview_asks_only_for_missing_frames
    (h : Host) (decoders : list string) (u : Ui Image) :
  let '(o, request) := _generate_preview Image h decoders u in
  preview_job Image (pv Image (state_of o)) = None
  /\ preview_cache Image (cache Image (pv Image (state_of o)))
     = preview_cache Image (cache Image (pv Image u))
  /\ preview_cache_order Image (cache Image (pv Image (state_of o)))
     = preview_cache_order Image (cache Image (pv Image u))
  /\ files Image (state_of o) = files Image u
  /\ match request with
     | NoRequest => True
     | Extract k t path =>
         path = strip (input_path_var (files Image u))
         /\ path <> EmptyString
         /\ isfile h path = true
         /\ (forall c, Engine._get_video_codec h path = Some c ->
               c = EmptyString \/ In c decoders)
         /\ t = preview_time Image (pv Image u)
         /\ fst k = path
         /\ PyNum.int_of_float (PyFloat.mul t (PyFloat.of_Z 2)) = Some (snd k)
         /\ dict_mem Image k (preview_cache Image (cache Image (pv Image u)))
            = false
         /\ o = Returned (state_of o)
     end.
Proof.
  unfold _generate_preview.
  destruct (is_empty (strip (input_path_var (files Image u)))) eqn:E0;
    cbn [orb]; [cbn; repeat split|].
  destruct (isfile h (strip (input_path_var (files Image u)))) eqn:E1;
    cbn [negb]; [|cbn; repeat split].
  destruct (PyNum._format_seconds (Some (preview_time Image (pv Image u))))
    as [l|]; [|cbn; repeat split].
  destruct (Engine._get_video_codec h
              (strip (input_path_var (files Image u)))) as [c|] eqn:E3.
  - destruct (is_empty c) eqn:Ec; cbn [negb andb].
    + destruct (PyNum.int_of_float _) as [bucket|] eqn:E4; [|cbn; repeat split].
      destruct (dict_mem Image _ _) eqn:E5;
        [destruct (dict_get Image _ _); cbn; repeat split|].
      cbn. repeat split; try assumption.
      * intros E. rewrite E in E0. discriminate E0.
      * intros c' H. rewrite E3 in H. injection H as <-. left.
        destruct c; [reflexivity|discriminate Ec].
    + destruct (mem c decoders) eqn:Em; cbn [negb]; [|cbn; repeat split].
      destruct (PyNum.int_of_float _) as [bucket|] eqn:E4; [|cbn; repeat split].
      destruct (dict_mem Image _ _) eqn:E5;
        [destruct (dict_get Image _ _); cbn; repeat split|].
      cbn. repeat split; try assumption.
      * intros E. rewrite E in E0. discriminate E0.
      * intros c' H. rewrite E3 in H. injection H as <-. right.
        apply ListingFacts.mem_In. exact Em.
  - destruct (PyNum.int_of_float _) as [bucket|] eqn:E4; [|cbn; repeat split].
    destruct (dict_mem Image _ _) eqn:E5;
      [destruct (dict_get Image _ _); cbn; repeat split|].
    cbn. repeat split; try assumption.
    + intros E. rewrite E in E0. discriminate E0.
    + intros c' H. rewrite E3 in H. discriminate H.
Qed.

End Window.

End PreviewRequests.
